(** * LVGL watch application (src/main.c): a shallow embedding and its properties

    The program is glue between a retained-mode GUI toolkit (LVGL 8), the
    SDL2 platform layer and the C library.  The functions of [main.c] are
    embedded as computations of a small reader/state/error monad:
    - the reader part ([env]) is what the outside world answers when the
      program asks (tick counter, wall clock, pointer sample, ...);
    - the state part ([state]) holds the globals of [main.c], the toolkit's
      object tree and timer list, and the chronological trace of platform
      calls;
    - the error part ([fault]) is undefined behaviour of the C program
      (null dereference, out-of-bounds read, signed overflow, use of an
      indeterminate buffer). *)

From Stdlib Require Import ZArith Lia String Ascii List Bool.
From stdpp Require Import base tactics option list.
Import ListNotations.

Local Open Scope string_scope.
Local Open Scope list_scope.
Local Open Scope Z_scope.

(** ** Machine integers *)

Definition INT_MIN : Z := - 2147483648.
Definition INT_MAX : Z := 2147483647.

Definition in_int (z : Z) : bool := (INT_MIN <=? z) && (z <=? INT_MAX).

(** Conversion of an [int] argument to a [Uint8] parameter. *)
Definition to_uint8 (z : Z) : Z := z mod 256.

(** Modelled from the spec: the toolkit's coordinate type [lv_coord_t],
    declared in a header outside src/.  In the toolkit's default
    configuration it is a 16-bit signed integer; storing an [int] in it
    keeps the low 16 bits, read as a signed number. *)
Definition to_coord (z : Z) : Z := (z + 32768) mod 65536 - 32768.

(** ** Constants of main.c *)

Definition SCREEN_WIDTH : Z := 172.
Definition SCREEN_HEIGHT : Z := 320.

(** ** Toolkit and platform data *)

(** Pointers are handles; [None] is NULL. *)
Abbreviation handle := nat (only parsing).
Abbreviation pointer := (option nat) (only parsing).

(** Modelled from the spec: the toolkit's colour type and channel macros,
    declared in a header outside src/.  [lv_color_t] in 5-6-5 packing is
    one 16-bit word with blue in bits 0-4, green in bits 5-10 and red in
    bits 11-15. *)
Record lv_color_t := mk_color { full : Z }.

Definition LV_COLOR_GET_R (c : lv_color_t) : Z := Z.land (Z.shiftr (full c) 11) 31.
Definition LV_COLOR_GET_G (c : lv_color_t) : Z := Z.land (Z.shiftr (full c) 5) 63.
Definition LV_COLOR_GET_B (c : lv_color_t) : Z := Z.land (full c) 31.

(** The colour whose channel bit-fields hold [r] (5 bits), [g] (6 bits)
    and [b] (5 bits). *)
Definition lv_color_of_ch (r g b : Z) : lv_color_t :=
  mk_color (Z.lor (Z.shiftl (Z.land r 31) 11)
           (Z.lor (Z.shiftl (Z.land g 63) 5)
                  (Z.land b 31))).

Definition lv_color_make (r8 g8 b8 : Z) : lv_color_t :=
  lv_color_of_ch (Z.shiftr r8 3) (Z.shiftr g8 2) (Z.shiftr b8 3).

Definition lv_color_black : lv_color_t := lv_color_make 0 0 0.
Definition lv_color_white : lv_color_t := lv_color_make 255 255 255.

Record lv_area_t := mk_area { x1 : Z; y1 : Z; x2 : Z; y2 : Z }.

(** [struct tm], the broken-down local time of the C library. *)
Record tm := mk_tm {
  tm_sec : Z; tm_min : Z; tm_hour : Z;
  tm_mday : Z; tm_mon : Z; tm_year : Z; tm_wday : Z
}.

(** *** Widgets *)

Inductive obj_class := lv_obj_class | lv_label_class.

Inductive lv_font_t := lv_font_montserrat_14 | lv_font_montserrat_24 | lv_font_montserrat_28.

Inductive lv_align_t := LV_ALIGN_CENTER.

(** A local style property set through [lv_obj_set_style_*]; the last
    component of a style entry is the selector. *)
Inductive style_prop :=
| bg_color (c : lv_color_t)
| border_width (w : Z)
| text_color (c : lv_color_t)
| text_font (f : lv_font_t).

Record lv_obj_t := mk_obj {
  obj_class_of : obj_class;
  obj_parent : pointer;
  obj_flags : Z;
  obj_size : option (Z * Z);
  obj_align : option (lv_align_t * Z * Z);
  obj_styles : list (style_prop * Z);
  obj_text : string
}.

Definition LV_OBJ_FLAG_HIDDEN : Z := Z.shiftl 1 0.
Definition LV_OBJ_FLAG_SCROLLABLE : Z := Z.shiftl 1 4.

(** *** Timers *)

(** The two functions of main.c whose address is given to [lv_timer_create]. *)
Inductive timer_cb_t := LOADING_TIMER_CB | CLOCK_UPDATE_CB.

Record lv_timer_t := mk_timer {
  period : Z;
  last_run : Z;
  timer_cb : timer_cb_t;
  repeat_count : Z
}.

(** *** Drivers *)

Record lv_disp_drv_t := mk_disp_drv { draw_buf_size : Z; hor_res : Z; ver_res : Z }.

Inductive lv_indev_state_t := LV_INDEV_STATE_RELEASED | LV_INDEV_STATE_PRESSED.

Record lv_indev_data_t := mk_indev_data { point : Z * Z; indev_state : lv_indev_state_t }.

(** *** Platform *)

Record SDL_Event := mk_event { ev_type : Z }.

Definition SDL_QUIT : Z := 256.
Definition SDL_INIT_VIDEO : Z := 32.
Definition SDL_WINDOWPOS_CENTERED : Z := 805240832.
Definition SDL_WINDOW_SHOWN : Z := 4.
Definition SDL_RENDERER_ACCELERATED : Z := 2.
Definition SDL_RENDERER_PRESENTVSYNC : Z := 4.
Definition SDL_BUTTON_LMASK : Z := 1.

(** One entry of the trace: a call that leaves the program, with the
    arguments the program passed and, for calls whose result the program
    uses, the result it received. *)
Inductive event :=
| printf (line : string)
| SDL_Init (flags ret : Z)
| SDL_GetError (ret : string)
| SDL_CreateWindow (title : string) (x y w h flags : Z) (ret : pointer)
| SDL_CreateRenderer (win : pointer) (index flags : Z) (ret : pointer)
| SDL_RenderSetLogicalSize (rd : pointer) (w h : Z)
| SDL_RenderGetLogicalSize (rd : pointer)
| SDL_GetMouseState (buttons x y : Z)
| SDL_PollEvent (ret : option SDL_Event)
| SDL_SetRenderDrawColor (rd : pointer) (r g b a : Z)
| SDL_RenderClear (rd : pointer)
| SDL_RenderDrawPoint (rd : pointer) (x y : Z)
| SDL_RenderPresent (rd : pointer)
| SDL_Delay (ms : Z)
| SDL_DestroyRenderer (rd : pointer)
| SDL_DestroyWindow (win : pointer)
| SDL_Quit
| lv_init_ev
| lv_disp_drv_register_ev (drv : lv_disp_drv_t)
| lv_indev_drv_register_ev
| lv_timer_handler_ev
| lv_disp_flush_ready.

(** ** State *)

(** The file-scope variables of main.c. *)
Record globals := mk_globals {
  window : pointer;
  renderer : pointer;
  loading_screen : pointer;
  time_screen : pointer;
  time_label : pointer;
  date_label : pointer;
  loading_timer : pointer;
  clock_timer : pointer
}.

(** The toolkit's own state: the object heap (a handle is an index; objects
    are never freed by this program), the active screen, the timer list in
    scheduling order, and the registered drivers. *)
Record lvgl := mk_lvgl {
  objs : list lv_obj_t;
  act_scr : pointer;
  timers : list (handle * lv_timer_t);
  next_timer : handle;
  disp_drv : option lv_disp_drv_t;
  indev_registered : bool;
  indev_data : option lv_indev_data_t
}.

Record state := mk_state {
  g : globals;
  lv : lvgl;
  trace : list event
}.

Definition initial_globals : globals :=
  mk_globals None None None None None None None None.

Definition initial_lvgl : lvgl := mk_lvgl [] None [] 0%nat None false None.

Definition initial_state : state := mk_state initial_globals initial_lvgl [].

(** What the outside world answers during one stretch of execution (the
    start-up, or one iteration of the event loop). *)
Record env := mk_env {
  tick : Z;                         (* lv_tick_get(), milliseconds *)
  now : Z;                          (* time() *)
  localtime : Z -> tm;              (* localtime() of the process's zone *)
  mouse : Z * Z * Z;                (* SDL_GetMouseState(): buttons, x, y *)
  pending : list SDL_Event;         (* the platform's event queue *)
  polls : nat;                      (* input reads the toolkit performs *)
  redraw : list (lv_area_t * list lv_color_t)  (* dirty strips the toolkit renders *)
}.

(** What the platform answers to the three start-up requests. *)
Record host := mk_host {
  sdl_init_ret : Z;
  sdl_error : string;
  sdl_window_ret : pointer;
  sdl_renderer_ret : pointer
}.

(** ** The monad *)

Inductive fault := NullPointer | BadHandle | OutOfBounds | IntOverflow | Truncated.

Inductive result (A : Type) := Ok (a : A) | Fault (f : fault).
Arguments Ok {A} a.
Arguments Fault {A} f.

Definition M (A : Type) : Type := env -> state -> result (A * state).

Definition ret {A} (a : A) : M A := fun _ s => Ok (a, s).

Definition bind {A B} (m : M A) (k : A -> M B) : M B :=
  fun e s => match m e s with
             | Ok (a, s') => k a e s'
             | Fault f => Fault f
             end.

Definition fail {A} (f : fault) : M A := fun _ _ => Fault f.
Definition ask : M env := fun e s => Ok (e, s).
Definition get : M state := fun _ s => Ok (s, s).
Definition put (s : state) : M unit := fun _ _ => Ok (tt, s).
Definition with_env {A} (e : env) (m : M A) : M A := fun _ s => m e s.

Declare Scope m_scope.
Delimit Scope m_scope with M.
Notation "'let*' x ':=' m 'in' k" := (bind m (fun x => k))
  (at level 10, x pattern, m at level 100, k at level 200) : m_scope.
Notation "m ';;' k" := (bind m (fun _ => k))
  (at level 100, k at level 200, right associativity) : m_scope.
Local Open Scope m_scope.

Definition call (ev : event) : M unit :=
  fun _ s => Ok (tt, mk_state (g s) (lv s) (trace s ++ [ev])).

Definition set_g (f : globals -> globals) : M unit :=
  fun _ s => Ok (tt, mk_state (f (g s)) (lv s) (trace s)).

Definition set_lv (f : lvgl -> lvgl) : M unit :=
  fun _ s => Ok (tt, mk_state (g s) (f (lv s)) (trace s)).

Definition global {A} (f : globals -> A) : M A := fun _ s => Ok (f (g s), s).

(** An [int] expression: signed overflow is undefined behaviour. *)
Definition cint (z : Z) : M Z := if in_int z then ret z else fail IntOverflow.

(** [for (int i = lo; i <= hi; i++) body(i)]: the body runs for
    [lo], [lo+1], ..., [hi], that is [hi - lo + 1] times when [lo <= hi]
    and not at all otherwise. *)
Fixpoint for_count (n : nat) (i : Z) (body : Z -> M unit) : M unit :=
  match n with
  | O => ret tt
  | S k => body i ;; for_count k (i + 1) body
  end.

Definition for_range (lo hi : Z) (body : Z -> M unit) : M unit :=
  for_count (Z.to_nat (hi - lo + 1)) lo body.

(** ** Toolkit primitives

    The toolkit is used by main.c but is not part of it.  Each primitive
    below is the toolkit call of the same name, reduced to its effect on the
    fields of [lvgl] that this program can observe. *)

Definition with_objs (os : list lv_obj_t) (l : lvgl) : lvgl :=
  mk_lvgl os (act_scr l) (timers l) (next_timer l) (disp_drv l) (indev_registered l) (indev_data l).

Definition with_timers (ts : list (handle * lv_timer_t)) (l : lvgl) : lvgl :=
  mk_lvgl (objs l) (act_scr l) ts (next_timer l) (disp_drv l) (indev_registered l) (indev_data l).

Definition with_indev_data (d : lv_indev_data_t) (l : lvgl) : lvgl :=
  mk_lvgl (objs l) (act_scr l) (timers l) (next_timer l) (disp_drv l) (indev_registered l) (Some d).

(** Dereferencing an object pointer. *)
Definition deref (p : pointer) : M (handle * lv_obj_t) :=
  match p with
  | None => fail NullPointer
  | Some h =>
      let* s := get in
      match objs (lv s) !! h with
      | Some o => ret (h, o)
      | None => fail BadHandle
      end
  end.

Definition update_obj (p : pointer) (f : lv_obj_t -> lv_obj_t) : M unit :=
  let* (h, o) := deref p in
  set_lv (fun l => with_objs (<[h := f o]> (objs l)) l).

Definition set_flags (fl : Z) (o : lv_obj_t) : lv_obj_t :=
  mk_obj (obj_class_of o) (obj_parent o) fl (obj_size o) (obj_align o) (obj_styles o) (obj_text o).

Definition set_size (wh : Z * Z) (o : lv_obj_t) : lv_obj_t :=
  mk_obj (obj_class_of o) (obj_parent o) (obj_flags o) (Some wh) (obj_align o) (obj_styles o) (obj_text o).

Definition set_align (a : lv_align_t * Z * Z) (o : lv_obj_t) : lv_obj_t :=
  mk_obj (obj_class_of o) (obj_parent o) (obj_flags o) (obj_size o) (Some a) (obj_styles o) (obj_text o).

Definition add_style (p : style_prop * Z) (o : lv_obj_t) : lv_obj_t :=
  mk_obj (obj_class_of o) (obj_parent o) (obj_flags o) (obj_size o) (obj_align o) (obj_styles o ++ [p]) (obj_text o).

Definition set_text (t : string) (o : lv_obj_t) : lv_obj_t :=
  mk_obj (obj_class_of o) (obj_parent o) (obj_flags o) (obj_size o) (obj_align o) (obj_styles o) t.

Definition lv_obj_has_flag (o : lv_obj_t) (f : Z) : bool := Z.land (obj_flags o) f =? f.

Definition lv_scr_act : M pointer := fun _ s => Ok (act_scr (lv s), s).

Definition lv_obj_set_size (p : pointer) (w h : Z) : M unit := update_obj p (set_size (w, h)).

Definition lv_obj_set_style_bg_color (p : pointer) (c : lv_color_t) (sel : Z) : M unit :=
  update_obj p (add_style (bg_color c, sel)).

Definition lv_obj_set_style_border_width (p : pointer) (w : Z) (sel : Z) : M unit :=
  update_obj p (add_style (border_width w, sel)).

Definition lv_obj_set_style_text_color (p : pointer) (c : lv_color_t) (sel : Z) : M unit :=
  update_obj p (add_style (text_color c, sel)).

Definition lv_obj_set_style_text_font (p : pointer) (f : lv_font_t) (sel : Z) : M unit :=
  update_obj p (add_style (text_font f, sel)).

(** Modelled from the spec: the toolkit's flag setters, defined outside
    src/.  An object carries a word of flags, one bit of which is its
    visibility flag; adding a flag sets its bits, clearing it resets them. *)
Definition lv_obj_add_flag (p : pointer) (f : Z) : M unit :=
  update_obj p (fun o => set_flags (Z.lor (obj_flags o) f) o).

Definition lv_obj_clear_flag (p : pointer) (f : Z) : M unit :=
  update_obj p (fun o => set_flags (Z.land (obj_flags o) (Z.lnot f)) o).

Definition lv_obj_align (p : pointer) (a : lv_align_t) (x_ofs y_ofs : Z) : M unit :=
  update_obj p (set_align (a, x_ofs, y_ofs)).

(** Modelled from the spec: the toolkit's label setter, defined outside
    src/; it overwrites the label's text in place. *)
Definition lv_label_set_text (p : pointer) (t : string) : M unit := update_obj p (set_text t).

(** *** Timer list *)

Fixpoint timer_lookup (id : handle) (ts : list (handle * lv_timer_t)) : option lv_timer_t :=
  match ts with
  | [] => None
  | (i, t) :: rest => if Nat.eqb i id then Some t else timer_lookup id rest
  end.

Fixpoint timer_update (id : handle) (f : lv_timer_t -> lv_timer_t)
    (ts : list (handle * lv_timer_t)) : list (handle * lv_timer_t) :=
  match ts with
  | [] => []
  | (i, t) :: rest =>
      if Nat.eqb i id then (i, f t) :: rest else (i, t) :: timer_update id f rest
  end.

Fixpoint timer_remove (id : handle) (ts : list (handle * lv_timer_t)) : list (handle * lv_timer_t) :=
  match ts with
  | [] => []
  | (i, t) :: rest => if Nat.eqb i id then rest else (i, t) :: timer_remove id rest
  end.

Definition set_repeat_count (n : Z) (t : lv_timer_t) : lv_timer_t :=
  mk_timer (period t) (last_run t) (timer_cb t) n.

(** The timer after it has been found due at tick [tk]: its last run is
    now, and a positive repeat count has gone down by one. *)
Definition fired (tk : Z) (t : lv_timer_t) : lv_timer_t :=
  mk_timer (period t) tk (timer_cb t)
           (if 0 <? repeat_count t then repeat_count t - 1 else repeat_count t).

(** Modelled from the spec: the toolkit's timer constructor, defined
    outside src/.  A new timer is ready [period] ms after its creation and
    repeats without limit (repeat count -1) until told otherwise; it is put
    at the head of the list. *)
Definition lv_timer_create (cb : timer_cb_t) (prd : Z) : M pointer :=
  let* e := ask in
  let* s := get in
  let id := next_timer (lv s) in
  set_lv (fun l => mk_lvgl (objs l) (act_scr l)
                           ((id, mk_timer prd (tick e) cb (-1)) :: timers l)
                           (S id) (disp_drv l) (indev_registered l) (indev_data l)) ;;
  ret (Some id).

Definition lv_timer_set_repeat_count (p : pointer) (n : Z) : M unit :=
  match p with
  | None => fail NullPointer
  | Some id =>
      let* s := get in
      match timer_lookup id (timers (lv s)) with
      | Some _ => set_lv (fun l => with_timers (timer_update id (set_repeat_count n) (timers l)) l)
      | None => fail BadHandle
      end
  end.

Section Toolkit.

(** The flags a freshly constructed object of each class carries. *)
Variable default_flags : obj_class -> Z.

Definition new_obj (c : obj_class) (parent : pointer) (t : string) : lv_obj_t :=
  mk_obj c parent (default_flags c) None None [] t.

Definition alloc_obj (o : lv_obj_t) : M pointer :=
  let* s := get in
  set_lv (fun l => with_objs (objs l ++ [o]) l) ;;
  ret (Some (length (objs (lv s)))).

(** A NULL parent makes a screen; any other parent must be a live object. *)
Definition create_in (c : obj_class) (parent : pointer) (t : string) : M pointer :=
  match parent with
  | None => alloc_obj (new_obj c None t)
  | Some _ => deref parent ;; alloc_obj (new_obj c parent t)
  end.

Definition lv_obj_create (parent : pointer) : M pointer := create_in lv_obj_class parent "".

Definition lv_label_create (parent : pointer) : M pointer := create_in lv_label_class parent "Text".

End Toolkit.

(** ** The C library's time formatting

    [strftime] in the "C" locale (main.c never calls [setlocale]), for the
    conversions main.c uses. *)

Definition digit_char (d : Z) : ascii := ascii_of_nat (48 + Z.to_nat d).

(** Decimal digits of a non-negative number, most significant first, put
    in front of [acc]. *)
Fixpoint dec_aux (fuel : nat) (n : Z) (acc : string) : string :=
  match fuel with
  | O => acc
  | S f =>
      let acc' := String (digit_char (n mod 10)) acc in
      if n <? 10 then acc' else dec_aux f (n / 10) acc'
  end.

Definition dec (n : Z) : string := dec_aux (S (Z.to_nat (Z.log2 n))) n "".

Definition dec_z (z : Z) : string := if z <? 0 then String "-" (dec (- z)) else dec z.

(** A number printed with a minimum of two digits, zero padded. *)
Definition pad2 (z : Z) : string :=
  if (0 <=? z) && (z <? 10) then String "0" (dec z) else dec_z z.

Definition wday_abbr : list string := ["Sun"; "Mon"; "Tue"; "Wed"; "Thu"; "Fri"; "Sat"].

Definition mon_abbr : list string :=
  ["Jan"; "Feb"; "Mar"; "Apr"; "May"; "Jun"; "Jul"; "Aug"; "Sep"; "Oct"; "Nov"; "Dec"].

Definition name_of (names : list string) (i : Z) : string :=
  if i <? 0 then "?" else nth (Z.to_nat i) names "?".

Definition conv (d : ascii) (t : tm) : string :=
  if Ascii.eqb d "H" then pad2 (tm_hour t)
  else if Ascii.eqb d "M" then pad2 (tm_min t)
  else if Ascii.eqb d "S" then pad2 (tm_sec t)
  else if Ascii.eqb d "d" then pad2 (tm_mday t)
  else if Ascii.eqb d "a" then name_of wday_abbr (tm_wday t)
  else if Ascii.eqb d "b" then name_of mon_abbr (tm_mon t)
  else if Ascii.eqb d "Y" then dec_z (tm_year t + 1900)
  else String "%" (String d "").

Fixpoint format_tm (fmt : string) (t : tm) : string :=
  match fmt with
  | EmptyString => ""
  | String c rest =>
      if Ascii.eqb c "%" then
        match rest with
        | String d rest' => (conv d t ++ format_tm rest' t)%string
        | EmptyString => "%"
        end
      else String c (format_tm rest t)
  end.

(** [strftime(buf, max, fmt, t)]: when the text and its terminator do not
    fit in [max] bytes the buffer is left indeterminate, and reading it
    afterwards is a fault. *)
Definition strftime (max : Z) (fmt : string) (t : tm) : M string :=
  let s := format_tm fmt t in
  if Z.of_nat (String.length s) + 1 <=? max then ret s else fail Truncated.

(** ** Reading back: the C library's [strptime]

    Modelled from the spec: the reader of the round trip.  main.c has no
    parser; "parsing with the stated format strings" is the C library's
    [strptime], modelled here for the conversions of the two format
    strings as POSIX describes it: white space in the format matches any
    amount of white space in the text, any other character matches
    itself, a numeric conversion skips white space and reads a bounded
    number of digits, a name conversion takes the full or the abbreviated
    name in either case, and the result is the time read so far together
    with the text that is left. *)

Definition digit_of (c : ascii) : option Z :=
  let n := Z.of_nat (nat_of_ascii c) in
  if (48 <=? n) && (n <=? 57) then Some (n - 48) else None.

(** [isspace] in the "C" locale. *)
Definition is_space (c : ascii) : bool :=
  let n := nat_of_ascii c in
  Nat.eqb n 32 || (Nat.leb 9 n && Nat.leb n 13).

Fixpoint skip_spaces (s : string) : string :=
  match s with
  | String c rest => if is_space c then skip_spaces rest else s
  | EmptyString => ""
  end.

(** The digits after the first: at most [n] more, and none once another
    digit would take the value past [hi]. *)
Fixpoint more_digits (n : nat) (hi val : Z) (s : string) : Z * string :=
  match n with
  | O => (val, s)
  | S k =>
      if val * 10 <=? hi then
        match s with
        | String c rest =>
            match digit_of c with
            | Some d => more_digits k hi (val * 10 + d) rest
            | None => (val, s)
            end
        | EmptyString => (val, s)
        end
      else (val, s)
  end.

(** Modelled from the spec: the reader's numeric field, defined outside
    src/.  White space is skipped, then a number of at most [n] digits
    that lies between [lo] and [hi] is read. *)
Definition get_number (lo hi : Z) (n : nat) (s : string) : option (Z * string) :=
  match skip_spaces s with
  | String c rest =>
      match digit_of c with
      | Some d =>
          let (val, s') := more_digits (Nat.pred n) hi d rest in
          if (lo <=? val) && (val <=? hi) then Some (val, s') else None
      | None => None
      end
  | EmptyString => None
  end.

Definition to_lower (c : ascii) : ascii :=
  let n := nat_of_ascii c in
  if Nat.leb 65 n && Nat.leb n 90 then ascii_of_nat (n + 32) else c.

(** [name] at the head of [s], letter case ignored. *)
Fixpoint match_string (name s : string) : option string :=
  match name with
  | EmptyString => Some s
  | String a name' =>
      match s with
      | String b s' => if Ascii.eqb (to_lower a) (to_lower b) then match_string name' s' else None
      | EmptyString => None
      end
  end.

Definition wday_full : list string :=
  ["Sunday"; "Monday"; "Tuesday"; "Wednesday"; "Thursday"; "Friday"; "Saturday"].

Definition mon_full : list string :=
  ["January"; "February"; "March"; "April"; "May"; "June"; "July"; "August"; "September";
   "October"; "November"; "December"].

Fixpoint match_name (full abbr : list string) (i : Z) (s : string) : option (Z * string) :=
  match full, abbr with
  | f :: full', a :: abbr' =>
      match match_string f s with
      | Some s' => Some (i, s')
      | None =>
          match match_string a s with
          | Some s' => Some (i, s')
          | None => match_name full' abbr' (i + 1) s
          end
      end
  | _, _ => None
  end.

(** Modelled from the spec: one conversion of the reader, defined outside
    src/.  Hours 0-23, minutes 0-59, seconds 0-61 and days 1-31 are read
    in at most two digits, the year 0-9999 in at most four. *)
Definition conv_in (d : ascii) (s : string) (t : tm) : option (tm * string) :=
  if Ascii.eqb d "H" then
    '(v, s') ← get_number 0 23 2 s;
    Some (mk_tm (tm_sec t) (tm_min t) v (tm_mday t) (tm_mon t) (tm_year t) (tm_wday t), s')
  else if Ascii.eqb d "M" then
    '(v, s') ← get_number 0 59 2 s;
    Some (mk_tm (tm_sec t) v (tm_hour t) (tm_mday t) (tm_mon t) (tm_year t) (tm_wday t), s')
  else if Ascii.eqb d "S" then
    '(v, s') ← get_number 0 61 2 s;
    Some (mk_tm v (tm_min t) (tm_hour t) (tm_mday t) (tm_mon t) (tm_year t) (tm_wday t), s')
  else if Ascii.eqb d "d" then
    '(v, s') ← get_number 1 31 2 s;
    Some (mk_tm (tm_sec t) (tm_min t) (tm_hour t) v (tm_mon t) (tm_year t) (tm_wday t), s')
  else if Ascii.eqb d "a" then
    '(v, s') ← match_name wday_full wday_abbr 0 s;
    Some (mk_tm (tm_sec t) (tm_min t) (tm_hour t) (tm_mday t) (tm_mon t) (tm_year t) v, s')
  else if Ascii.eqb d "b" then
    '(v, s') ← match_name mon_full mon_abbr 0 s;
    Some (mk_tm (tm_sec t) (tm_min t) (tm_hour t) (tm_mday t) v (tm_year t) (tm_wday t), s')
  else if Ascii.eqb d "Y" then
    '(v, s') ← get_number 0 9999 4 s;
    Some (mk_tm (tm_sec t) (tm_min t) (tm_hour t) (tm_mday t) (tm_mon t) (v - 1900) (tm_wday t), s')
  else None.

(** Modelled from the spec: the C library's [strptime], defined outside
    src/.  The result is the time read, on top of [t], and the text the
    format has not consumed; [None] when the text does not match. *)
Fixpoint strptime (fmt : string) (s : string) (t : tm) : option (tm * string) :=
  match fmt with
  | EmptyString => Some (t, s)
  | String c rest =>
      if is_space c then strptime rest (skip_spaces s) t
      else if Ascii.eqb c "%" then
        match rest with
        | String d rest' =>
            match conv_in d s t with
            | Some (t', s') => strptime rest' s' t'
            | None => None
            end
        | EmptyString => None
        end
      else
        match s with
        | String c' s' => if Ascii.eqb c c' then strptime rest s' t else None
        | EmptyString => None
        end
  end.

Definition tm_zero : tm := mk_tm 0 0 0 0 0 0 0.

(** ** main.c *)

Definition LF : string := String (ascii_of_nat 10) "".
Definition DQUOTE : string := String (ascii_of_nat 34) "".
Definition line (s : string) : string := (s ++ LF)%string.

Definition with_window (p : pointer) (x : globals) : globals :=
  mk_globals p (renderer x) (loading_screen x) (time_screen x) (time_label x) (date_label x)
             (loading_timer x) (clock_timer x).
Definition with_renderer (p : pointer) (x : globals) : globals :=
  mk_globals (window x) p (loading_screen x) (time_screen x) (time_label x) (date_label x)
             (loading_timer x) (clock_timer x).
Definition with_loading_screen (p : pointer) (x : globals) : globals :=
  mk_globals (window x) (renderer x) p (time_screen x) (time_label x) (date_label x)
             (loading_timer x) (clock_timer x).
Definition with_time_screen (p : pointer) (x : globals) : globals :=
  mk_globals (window x) (renderer x) (loading_screen x) p (time_label x) (date_label x)
             (loading_timer x) (clock_timer x).
Definition with_time_label (p : pointer) (x : globals) : globals :=
  mk_globals (window x) (renderer x) (loading_screen x) (time_screen x) p (date_label x)
             (loading_timer x) (clock_timer x).
Definition with_date_label (p : pointer) (x : globals) : globals :=
  mk_globals (window x) (renderer x) (loading_screen x) (time_screen x) (time_label x) p
             (loading_timer x) (clock_timer x).
Definition with_loading_timer (p : pointer) (x : globals) : globals :=
  mk_globals (window x) (renderer x) (loading_screen x) (time_screen x) (time_label x) (date_label x)
             p (clock_timer x).
Definition with_clock_timer (p : pointer) (x : globals) : globals :=
  mk_globals (window x) (renderer x) (loading_screen x) (time_screen x) (time_label x) (date_label x)
             (loading_timer x) p.

(** [color_p[idx]] *)
Definition read_color (color_p : list lv_color_t) (idx : Z) : M lv_color_t :=
  if idx <? 0 then fail OutOfBounds
  else match color_p !! Z.to_nat idx with
       | Some c => ret c
       | None => fail OutOfBounds
       end.

(** Update the time display with current system time.  The result of
    [localtime] is handed to [strftime] unchecked; the model takes the call
    to succeed. *)
Definition update_time_display : M unit :=
  let* e := ask in
  let timeinfo := localtime e (now e) in
  let* time_str := strftime 32 "%H:%M:%S" timeinfo in
  let* p := global time_label in
  lv_label_set_text p time_str ;;
  let* date_str := strftime 64 "%a, %b %d %Y" timeinfo in
  let* p := global date_label in
  lv_label_set_text p date_str.

(** Timer callback to switch from loading to time screen *)
Definition loading_timer_cb : M unit :=
  let* p := global loading_screen in
  lv_obj_add_flag p LV_OBJ_FLAG_HIDDEN ;;
  let* p := global time_screen in
  lv_obj_clear_flag p LV_OBJ_FLAG_HIDDEN ;;
  call (printf (line "Switched to time display")).

(** Timer callback to update clock display *)
Definition clock_update_cb : M unit := update_time_display.

(** The body of the inner loop of [sdl_display_flush]. *)
Definition flush_pixel (area : lv_area_t) (color_p : list lv_color_t) (y x : Z) : M unit :=
  let* dy := cint (y - y1 area) in
  let* w0 := cint (x2 area - x1 area) in
  let* w := cint (w0 + 1) in
  let* row := cint (dy * w) in
  let* dx := cint (x - x1 area) in
  let* idx := cint (row + dx) in
  let* c := read_color color_p idx in
  let* rd := global renderer in
  call (SDL_SetRenderDrawColor rd
          (to_uint8 (Z.shiftl (LV_COLOR_GET_R c) 3))
          (to_uint8 (Z.shiftl (LV_COLOR_GET_G c) 2))
          (to_uint8 (Z.shiftl (LV_COLOR_GET_B c) 3))
          (to_uint8 255)) ;;
  let* rd := global renderer in
  call (SDL_RenderDrawPoint rd x y).

(** SDL display flush callback.  The driver argument is only passed on to
    [lv_disp_flush_ready]; there is one display, so it is left out. *)
Definition sdl_display_flush (area : lv_area_t) (color_p : list lv_color_t) : M unit :=
  for_range (y1 area) (y2 area) (fun y =>
    for_range (x1 area) (x2 area) (fun x =>
      flush_pixel area color_p y x)) ;;
  call lv_disp_flush_ready.

(** SDL mouse read callback.  The two [int]s of the pointer position are
    stored in the [lv_coord_t] fields of [data->point]. *)
Definition sdl_mouse_read : M lv_indev_data_t :=
  let* e := ask in
  let '(mouse_state, x, y) := mouse e in
  call (SDL_GetMouseState mouse_state x y) ;;
  let* rd := global renderer in
  call (SDL_RenderGetLogicalSize rd) ;;
  let st := if Z.land mouse_state SDL_BUTTON_LMASK =? 0
            then LV_INDEV_STATE_RELEASED else LV_INDEV_STATE_PRESSED in
  ret (mk_indev_data (to_coord x, to_coord y) st).

Section App.

Variable default_flags : obj_class -> Z.

(** Create the loading screen with "Welcome" text *)
Definition create_loading_screen : M unit :=
  let* scr := lv_scr_act in
  let* p := lv_obj_create default_flags scr in
  set_g (with_loading_screen p) ;;
  let* p := global loading_screen in
  lv_obj_set_size p SCREEN_WIDTH SCREEN_HEIGHT ;;
  let* p := global loading_screen in
  lv_obj_set_style_bg_color p lv_color_black 0 ;;
  let* p := global loading_screen in
  lv_obj_set_style_border_width p 0 0 ;;
  let* p := global loading_screen in
  lv_obj_clear_flag p LV_OBJ_FLAG_SCROLLABLE ;;
  let* p := global loading_screen in
  lv_obj_align p LV_ALIGN_CENTER 0 0 ;;
  let* p := global loading_screen in
  let* welcome_label := lv_label_create default_flags p in
  lv_label_set_text welcome_label "Welcome" ;;
  lv_obj_set_style_text_color welcome_label lv_color_white 0 ;;
  lv_obj_set_style_text_font welcome_label lv_font_montserrat_24 0 ;;
  lv_obj_align welcome_label LV_ALIGN_CENTER 0 0 ;;
  let* t := lv_timer_create LOADING_TIMER_CB 4000 in
  set_g (with_loading_timer t) ;;
  let* t := global loading_timer in
  lv_timer_set_repeat_count t 1.

(** Create the time display screen *)
Definition create_time_screen : M unit :=
  let* scr := lv_scr_act in
  let* p := lv_obj_create default_flags scr in
  set_g (with_time_screen p) ;;
  let* p := global time_screen in
  lv_obj_set_size p SCREEN_WIDTH SCREEN_HEIGHT ;;
  let* p := global time_screen in
  lv_obj_set_style_bg_color p lv_color_black 0 ;;
  let* p := global time_screen in
  lv_obj_set_style_border_width p 0 0 ;;
  let* p := global time_screen in
  lv_obj_clear_flag p LV_OBJ_FLAG_SCROLLABLE ;;
  let* p := global time_screen in
  lv_obj_align p LV_ALIGN_CENTER 0 0 ;;
  let* p := global time_screen in
  lv_obj_add_flag p LV_OBJ_FLAG_HIDDEN ;;
  let* p := global time_screen in
  let* l := lv_label_create default_flags p in
  set_g (with_time_label l) ;;
  let* p := global time_label in
  lv_label_set_text p "00:00:00" ;;
  let* p := global time_label in
  lv_obj_set_style_text_color p lv_color_white 0 ;;
  let* p := global time_label in
  lv_obj_set_style_text_font p lv_font_montserrat_28 0 ;;
  let* p := global time_label in
  lv_obj_align p LV_ALIGN_CENTER 0 (-20) ;;
  let* p := global time_screen in
  let* l := lv_label_create default_flags p in
  set_g (with_date_label l) ;;
  let* p := global date_label in
  lv_label_set_text p "" ;;
  let* p := global date_label in
  lv_obj_set_style_text_color p (lv_color_make 180 180 180) 0 ;;
  let* p := global date_label in
  lv_obj_set_style_text_font p lv_font_montserrat_14 0 ;;
  let* p := global date_label in
  lv_obj_align p LV_ALIGN_CENTER 0 30 ;;
  update_time_display ;;
  let* t := lv_timer_create CLOCK_UPDATE_CB 1000 in
  set_g (with_clock_timer t).

End App.

(** ** The toolkit's scheduler *)

Definition run_timer_cb (cb : timer_cb_t) : M unit :=
  match cb with
  | LOADING_TIMER_CB => loading_timer_cb
  | CLOCK_UPDATE_CB => clock_update_cb
  end.

(** Modelled from the spec: the end of a timer's run.  A timer whose
    repeat count has reached 0 is taken out of the list for good. *)
Definition finish_timer (id : handle) : M unit :=
  let* s' := get in
  match timer_lookup id (timers (lv s')) with
  | Some t' =>
      if repeat_count t' =? 0
      then set_lv (fun l => with_timers (timer_remove id (timers l)) l)
      else ret tt
  | None => ret tt
  end.

(** Modelled from the spec: the toolkit's timer scheduler, which main.c
    only calls.  A timer is {callback, period, repeat count} plus the time
    of its last run; it is due when at least [period] ms have passed since
    then.  A due timer has its last run set to now, its repeat count
    lowered when positive, and its callback invoked; then its run is
    finished. *)
Definition lv_timer_exec (id : handle) : M unit :=
  let* e := ask in
  let* s := get in
  match timer_lookup id (timers (lv s)) with
  | None => ret tt
  | Some t =>
      if period t <=? tick e - last_run t then
        set_lv (fun l => with_timers (timer_update id (fired (tick e)) (timers l)) l) ;;
        run_timer_cb (timer_cb t) ;;
        finish_timer id
      else ret tt
  end.

Fixpoint run_timers (ids : list handle) : M unit :=
  match ids with
  | [] => ret tt
  | id :: rest => lv_timer_exec id ;; run_timers rest
  end.

Fixpoint read_inputs (n : nat) : M unit :=
  match n with
  | O => ret tt
  | S k =>
      let* d := sdl_mouse_read in
      set_lv (with_indev_data d) ;;
      read_inputs k
  end.

Fixpoint flush_all (jobs : list (lv_area_t * list lv_color_t)) : M unit :=
  match jobs with
  | [] => ret tt
  | (area, color_p) :: rest => sdl_display_flush area color_p ;; flush_all rest
  end.

(** Modelled from the spec: what the toolkit's handler does once the
    timers have run.  It samples the registered input device through its
    read callback and hands every dirty strip to the registered display's
    flush callback. *)
Definition handler_tail : M unit :=
  let* e := ask in
  let* s := get in
  (if indev_registered (lv s) then read_inputs (polls e) else ret tt) ;;
  match disp_drv (lv s) with
  | Some _ => flush_all (redraw e)
  | None => ret tt
  end.

(** Modelled from the spec: the toolkit's handler evaluates the timers
    that are due, in list order, and then polls the input and redraws. *)
Definition lv_timer_handler : M unit :=
  call lv_timer_handler_ev ;;
  let* s := get in
  run_timers (map fst (timers (lv s))) ;;
  handler_tail.

Definition lv_init : M unit := call lv_init_ev.

Definition lv_indev_drv_register : M unit :=
  call lv_indev_drv_register_ev ;;
  set_lv (fun l => mk_lvgl (objs l) (act_scr l) (timers l) (next_timer l) (disp_drv l) true (indev_data l)).

(** ** The program *)

Inductive outcome := Exited (status : Z) | Running.

(** [while (SDL_PollEvent(&event)) if (event.type == SDL_QUIT) quit = true;] *)
Fixpoint poll_events (evs : list SDL_Event) (quit : bool) : M bool :=
  match evs with
  | [] => call (SDL_PollEvent None) ;; ret quit
  | ev :: rest =>
      call (SDL_PollEvent (Some ev)) ;;
      poll_events rest (if ev_type ev =? SDL_QUIT then true else quit)
  end.

(** One pass through the body of [while (!quit)]; the result is [quit]. *)
Definition loop_body : M bool :=
  let* e := ask in
  let* quit := poll_events (pending e) false in
  let* rd := global renderer in
  call (SDL_SetRenderDrawColor rd (to_uint8 0) (to_uint8 0) (to_uint8 0) (to_uint8 255)) ;;
  let* rd := global renderer in
  call (SDL_RenderClear rd) ;;
  lv_timer_handler ;;
  let* rd := global renderer in
  call (SDL_RenderPresent rd) ;;
  call (SDL_Delay 5) ;;
  ret quit.

(** The loop over the iterations the outside world lets happen; the result
    tells whether the loop was left ([quit] became true). *)
Fixpoint event_loop (frames : list env) : M bool :=
  match frames with
  | [] => ret false
  | e :: rest =>
      let* quit := with_env e loop_body in
      if quit then ret true else event_loop rest
  end.

Section Main.

Variable default_flags : obj_class -> Z.

(** Registering the display also gives it its active screen. *)
Definition lv_disp_drv_register (drv : lv_disp_drv_t) : M unit :=
  call (lv_disp_drv_register_ev drv) ;;
  let* scr := alloc_obj (new_obj default_flags lv_obj_class None "") in
  set_lv (fun l => mk_lvgl (objs l) scr (timers l) (next_timer l) (Some drv)
                           (indev_registered l) (indev_data l)).

(** Everything of [main] between renderer creation and the main loop. *)
Definition setup_ui : M unit :=
  let* rd := global renderer in
  call (SDL_RenderSetLogicalSize rd SCREEN_WIDTH SCREEN_HEIGHT) ;;
  lv_init ;;
  lv_disp_drv_register (mk_disp_drv (SCREEN_WIDTH * 10) SCREEN_WIDTH SCREEN_HEIGHT) ;;
  lv_indev_drv_register ;;
  create_loading_screen default_flags ;;
  create_time_screen default_flags ;;
  call (printf (line "Loading screen displayed. Will switch to time in 4 seconds...")).

Definition main (h : host) (frames : list env) : M outcome :=
  call (printf (line "Starting LVGL Watch Application...")) ;;
  call (printf (line ("Target display: 1.47" ++ DQUOTE ++ " (" ++ dec_z SCREEN_WIDTH ++ "x"
                        ++ dec_z SCREEN_HEIGHT ++ ")"))) ;;
  call (SDL_Init SDL_INIT_VIDEO (sdl_init_ret h)) ;;
  if negb (sdl_init_ret h =? 0) then
    call (SDL_GetError (sdl_error h)) ;;
    call (printf (line ("SDL_Init Error: " ++ sdl_error h))) ;;
    ret (Exited 1)
  else
    call (SDL_CreateWindow "LVGL Watch Simulator" SDL_WINDOWPOS_CENTERED SDL_WINDOWPOS_CENTERED
            (SCREEN_WIDTH * 2) (SCREEN_HEIGHT * 2) SDL_WINDOW_SHOWN (sdl_window_ret h)) ;;
    set_g (with_window (sdl_window_ret h)) ;;
    let* w := global window in
    match w with
    | None =>
        call (SDL_GetError (sdl_error h)) ;;
        call (printf (line ("SDL_CreateWindow Error: " ++ sdl_error h))) ;;
        call SDL_Quit ;;
        ret (Exited 1)
    | Some _ =>
        let* w := global window in
        call (SDL_CreateRenderer w (-1) (Z.lor SDL_RENDERER_ACCELERATED SDL_RENDERER_PRESENTVSYNC)
                (sdl_renderer_ret h)) ;;
        set_g (with_renderer (sdl_renderer_ret h)) ;;
        let* rd := global renderer in
        match rd with
        | None =>
            call (SDL_GetError (sdl_error h)) ;;
            call (printf (line ("SDL_CreateRenderer Error: " ++ sdl_error h))) ;;
            let* w := global window in
            call (SDL_DestroyWindow w) ;;
            call SDL_Quit ;;
            ret (Exited 1)
        | Some _ =>
            setup_ui ;;
            let* finished := event_loop frames in
            if finished then
              let* rd := global renderer in
              call (SDL_DestroyRenderer rd) ;;
              let* w := global window in
              call (SDL_DestroyWindow w) ;;
              call SDL_Quit ;;
              call (printf (line "Application closed.")) ;;
              ret (Exited 0)
            else ret Running
        end
    end.

End Main.

(** * Vocabulary of the statements *)

Definition emit (evs : list event) (s : state) : state :=
  mk_state (g s) (lv s) (trace s ++ evs).

Fixpoint zseq (lo : Z) (n : nat) : list Z :=
  match n with
  | O => []
  | S k => lo :: zseq (lo + 1) k
  end.

Definition pixel_events (rd : pointer) (c : lv_color_t) (x y : Z) : list event :=
  [SDL_SetRenderDrawColor rd (Z.shiftl (LV_COLOR_GET_R c) 3) (Z.shiftl (LV_COLOR_GET_G c) 2)
                             (Z.shiftl (LV_COLOR_GET_B c) 3) 255;
   SDL_RenderDrawPoint rd x y].

Definition pixel_index (area : lv_area_t) (x y : Z) : Z :=
  (y - y1 area) * (x2 area - x1 area + 1) + (x - x1 area).

Definition covers (area : lv_area_t) (color_p : list lv_color_t) : Prop :=
  x1 area <= x2 area -> y1 area <= y2 area ->
  (x2 area - x1 area + 1) * (y2 area - y1 area + 1) <= Z.of_nat (length color_p) <= INT_MAX.

Definition color_at (area : lv_area_t) (color_p : list lv_color_t) (x y : Z) : lv_color_t :=
  default (mk_color 0) (color_p !! Z.to_nat (pixel_index area x y)).

Definition columns (area : lv_area_t) : list Z := zseq (x1 area) (Z.to_nat (x2 area - x1 area + 1)).
Definition rows (area : lv_area_t) : list Z := zseq (y1 area) (Z.to_nat (y2 area - y1 area + 1)).

Definition row_events (rd : pointer) (area : lv_area_t) (color_p : list lv_color_t) (y : Z) : list event :=
  flat_map (fun x => pixel_events rd (color_at area color_p x y) x y) (columns area).

Definition area_events (rd : pointer) (area : lv_area_t) (color_p : list lv_color_t) : list event :=
  flat_map (row_events rd area color_p) (rows area).

(** Counting events in a trace. *)
Fixpoint count_ev (p : event -> bool) (evs : list event) : nat :=
  match evs with
  | [] => 0
  | ev :: rest => (if p ev then 1 else 0) + count_ev p rest
  end.

Definition is_draw_at (x y : Z) (ev : event) : bool :=
  match ev with
  | SDL_RenderDrawPoint _ x' y' => (x' =? x) && (y' =? y)
  | _ => false
  end.

Definition is_flush_ready (ev : event) : bool :=
  match ev with lv_disp_flush_ready => true | _ => false end.

Definition in_area (area : lv_area_t) (x y : Z) : bool :=
  (x1 area <=? x) && (x <=? x2 area) && (y1 area <=? y) && (y <=? y2 area).

(** Two decimal digits. *)
Definition two (v : Z) : string :=
  String (digit_char (v / 10)) (String (digit_char (v mod 10)) "").

(** A broken-down time as [localtime] produces it: every field in the
    range the C standard gives it, the year an [int]. *)
Definition tm_wf (t : tm) : Prop :=
  0 <= tm_sec t <= 60 /\ 0 <= tm_min t <= 59 /\ 0 <= tm_hour t <= 23 /\
  1 <= tm_mday t <= 31 /\ 0 <= tm_mon t <= 11 /\ 0 <= tm_wday t <= 6 /\
  INT_MIN <= tm_year t <= INT_MAX.

Definition time_text (t : tm) : string :=
  (two (tm_hour t) ++ ":" ++ two (tm_min t) ++ ":" ++ two (tm_sec t))%string.

Definition date_text (t : tm) : string :=
  (name_of wday_abbr (tm_wday t) ++ ", " ++ name_of mon_abbr (tm_mon t) ++ " "
     ++ two (tm_mday t) ++ " " ++ dec_z (tm_year t + 1900))%string.

(** Replacing one object of the heap. *)
Definition with_obj (h : handle) (o : lv_obj_t) (s : state) : state :=
  mk_state (g s) (with_objs (<[h := o]> (objs (lv s))) (lv s)) (trace s).

Definition obj_at (p : pointer) (s : state) : option lv_obj_t :=
  match p with
  | Some h => objs (lv s) !! h
  | None => None
  end.

Definition label_text (p : pointer) (s : state) : option string := obj_text <$> obj_at p s.

Definition is_hidden (p : pointer) (s : state) : option bool :=
  (fun o => lv_obj_has_flag o LV_OBJ_FLAG_HIDDEN) <$> obj_at p s.

(** The line the transition callback prints. *)
Definition is_switch (ev : event) : bool :=
  match ev with
  | printf l => String.eqb l (line "Switched to time display")
  | _ => false
  end.

Definition switched (s : state) : nat := count_ev is_switch (trace s).

(** States the program can be in between two iterations of its main loop:
    the state in which a successful start-up (under [e0]) enters the
    loop, and every state one more iteration leads to. *)
Inductive reachable (default_flags : obj_class -> Z) (e0 : env) : state -> Prop :=
| reach_start h s :
    main default_flags h [] e0 initial_state = Ok (Running, s) ->
    reachable default_flags e0 s
| reach_step s e quit s' :
    reachable default_flags e0 s ->
    loop_body e s = Ok (quit, s') ->
    reachable default_flags e0 s'.

(** Whether a freshly created plain object carries the hidden flag. *)
Definition hidden_by_default (default_flags : obj_class -> Z) : bool :=
  Z.land (default_flags lv_obj_class) LV_OBJ_FLAG_HIDDEN =? LV_OBJ_FLAG_HIDDEN.

(** *** A concrete world, for examples *)

Definition sample_flags (c : obj_class) : Z :=
  match c with
  | lv_obj_class => LV_OBJ_FLAG_SCROLLABLE
  | lv_label_class => 0
  end.

(** Friday 30 October 2026, 08:14:05. *)
Definition sample_tm : tm := mk_tm 5 14 8 30 9 126 5.

(** Saturday 1 January 10000, 00:00:00. *)
Definition y10k_tm : tm := mk_tm 0 0 0 1 0 8100 6.

Definition sample_env (tk : Z) (evs : list SDL_Event) : env :=
  mk_env tk 1793348045 (fun _ => sample_tm) (0, 343, 639) evs 1
         [(mk_area 0 0 1 1, [mk_color 65535; mk_color 0; mk_color 31; mk_color 2016])].

Definition sample_host : host := mk_host 0 "" (Some 1%nat) (Some 2%nat).

Definition state_of (r : result (outcome * state)) : state :=
  match r with
  | Ok (_, s) => s
  | Fault _ => initial_state
  end.

(** The state in which the sample world enters the main loop. *)
Definition sample_state : state :=
  Eval vm_compute in state_of (main sample_flags sample_host [] (sample_env 0 []) initial_state).

(** What [main] prints before it touches the platform. *)
Definition banner : list event :=
  [printf (line "Starting LVGL Watch Application...");
   printf (line ("Target display: 1.47" ++ DQUOTE ++ " (172x320)"))].

Definition create_window_ev (ret : pointer) : event :=
  SDL_CreateWindow "LVGL Watch Simulator" SDL_WINDOWPOS_CENTERED SDL_WINDOWPOS_CENTERED
                   344 640 SDL_WINDOW_SHOWN ret.

Definition create_renderer_ev (win ret : pointer) : event :=
  SDL_CreateRenderer win (-1) 6 ret.

(** The logical 172x320 space of the widgets, and the 344x640 window. *)
Definition in_logical (p : Z * Z) : Prop :=
  0 <= fst p < SCREEN_WIDTH /\ 0 <= snd p < SCREEN_HEIGHT.

Definition in_window (p : Z * Z) : Prop :=
  0 <= fst p < SCREEN_WIDTH * 2 /\ 0 <= snd p < SCREEN_HEIGHT * 2.

Definition is_quit (ev : SDL_Event) : bool := ev_type ev =? SDL_QUIT.

(** Whether the events waiting in this iteration include a close request. *)
Definition has_quit (e : env) : bool := existsb is_quit (pending e).

Definition poll_trace (evs : list SDL_Event) : list event :=
  map (fun ev => SDL_PollEvent (Some ev)) evs ++ [SDL_PollEvent None].

Definition clear_trace (rd : pointer) : list event :=
  [SDL_SetRenderDrawColor rd 0 0 0 255; SDL_RenderClear rd].

Definition present_trace (rd : pointer) : list event :=
  [SDL_RenderPresent rd; SDL_Delay 5].

Definition cleanup_trace (rd win : pointer) : list event :=
  [SDL_DestroyRenderer rd; SDL_DestroyWindow win; SDL_Quit; printf (line "Application closed.")].

(** An iteration whose answers are usable: the clock shows a proper
    time, and every strip handed to the flush callback comes with a buffer
    that holds it. *)
Definition env_wf (e : env) : Prop :=
  tm_wf (localtime e (now e)) /\ Forall (fun job => covers (fst job) (snd job)) (redraw e).

(** The state in which [main] reaches [SDL_RenderSetLogicalSize], window
    [w] and renderer [r] having been created. *)
Definition entry_state (w r : handle) : state :=
  mk_state (with_renderer (Some r) (with_window (Some w) initial_globals)) initial_lvgl
           (banner ++ [SDL_Init SDL_INIT_VIDEO 0; create_window_ev (Some w);
                       create_renderer_ev (Some w) (Some r)]).

(** The two pictures the user can be shown. *)
Definition showing_loading (s : state) : Prop :=
  is_hidden (loading_screen (g s)) s = Some false /\
  is_hidden (time_screen (g s)) s = Some true.

Definition showing_clock (s : state) : Prop :=
  is_hidden (loading_screen (g s)) s = Some true /\
  is_hidden (time_screen (g s)) s = Some false.

(** *** Notions used by the proofs *)

(** Between two iterations of the main loop the program is in one of two
    phases.  The handles are the ones the start-up hands out: the active
    screen is object 0, the loading screen 1, its label 2, the time screen
    3, the time label 4 and the date label 5; the splash timer is timer 0
    and the clock timer is timer 1. *)
Definition ui_inv (s : state) : Prop :=
  loading_screen (g s) = Some 1%nat /\ time_screen (g s) = Some 3%nat /\
  time_label (g s) = Some 4%nat /\ date_label (g s) = Some 5%nat /\
  loading_timer (g s) = Some 0%nat /\ clock_timer (g s) = Some 1%nat /\
  length (objs (lv s)) = 6%nat /\ is_Some (renderer (g s)) /\ is_Some (window (g s)).

Definition clock_tm (lr : Z) : lv_timer_t := mk_timer 1000 lr CLOCK_UPDATE_CB (-1).

Definition splash_tm (t0 : Z) : lv_timer_t := mk_timer 4000 t0 LOADING_TIMER_CB 1.

Definition phase_pending (df : obj_class -> Z) (e0 : env) (s : state) : Prop :=
  ui_inv s /\
  (exists lr, timers (lv s) = [(1%nat, clock_tm lr); (0%nat, splash_tm (tick e0))]) /\
  switched s = 0%nat /\
  is_hidden (Some 1%nat) s = Some (hidden_by_default df) /\
  is_hidden (Some 3%nat) s = Some true.

Definition phase_fired (s : state) : Prop :=
  ui_inv s /\
  (exists lr, timers (lv s) = [(1%nat, clock_tm lr)]) /\
  switched s = 1%nat /\
  is_hidden (Some 1%nat) s = Some true /\
  is_hidden (Some 3%nat) s = Some false.

(** The refresh as one state update. *)
Definition refreshed (tl dl : handle) (o4 o5 : lv_obj_t) (t : tm) (s : state) : state :=
  with_obj dl (set_text (format_tm "%a, %b %d %Y" t) o5)
    (with_obj tl (set_text (format_tm "%H:%M:%S" t) o4) s).

(** [frame s s']: from [s] to [s'] the globals, the objects and the timers
    stayed as they were and the trace grew by events other than the
    transition's line. *)
Definition frame (s s' : state) : Prop :=
  g s' = g s /\ objs (lv s') = objs (lv s) /\ timers (lv s') = timers (lv s) /\
  disp_drv (lv s') = disp_drv (lv s) /\ indev_registered (lv s') = indev_registered (lv s) /\
  exists evs, trace s' = trace s ++ evs /\ count_ev is_switch evs = 0%nat.

Definition benign {A} (m : M A) : Prop :=
  forall e s a s', m e s = Ok (a, s') -> frame s s'.

Definition hide (o : lv_obj_t) : lv_obj_t := set_flags (Z.lor (obj_flags o) LV_OBJ_FLAG_HIDDEN) o.

Definition unhide (o : lv_obj_t) : lv_obj_t :=
  set_flags (Z.land (obj_flags o) (Z.lnot LV_OBJ_FLAG_HIDDEN)) o.

Definition set_timers (ts : list (handle * lv_timer_t)) (s : state) : state :=
  mk_state (g s) (with_timers ts (lv s)) (trace s).

(** [steady m]: [m] never assigns a global or re-registers a driver, and
    only ever adds to the trace. *)
Definition steady {A} (m : M A) : Prop :=
  forall e s a s', m e s = Ok (a, s') ->
    g s' = g s /\ disp_drv (lv s') = disp_drv (lv s) /\
    indev_registered (lv s') = indev_registered (lv s) /\
    exists evs, trace s' = trace s ++ evs.

Definition after_setup (frames : list env) : M outcome :=
  let* finished := event_loop frames in
  if finished then
    let* rd := global renderer in
    call (SDL_DestroyRenderer rd) ;;
    let* w := global window in
    call (SDL_DestroyWindow w) ;;
    call SDL_Quit ;;
    call (printf (line "Application closed.")) ;;
    ret (Exited 0)
  else ret Running.

(** *** Vocabulary of the further properties *)

(** The upper rows of an area, down to row [ym], and the rows below. *)
Definition top_strip (area : lv_area_t) (ym : Z) : lv_area_t :=
  mk_area (x1 area) (y1 area) (x2 area) ym.

Definition bottom_strip (area : lv_area_t) (ym : Z) : lv_area_t :=
  mk_area (x1 area) (ym + 1) (x2 area) (y2 area).

Definition is_draw (ev : event) : bool :=
  match ev with SDL_RenderDrawPoint _ _ _ => true | _ => false end.

Definition is_set_color (ev : event) : bool :=
  match ev with SDL_SetRenderDrawColor _ _ _ _ _ => true | _ => false end.

Definition is_clear (ev : event) : bool :=
  match ev with SDL_RenderClear _ => true | _ => false end.

Definition is_present (ev : event) : bool :=
  match ev with SDL_RenderPresent _ => true | _ => false end.

(** The number of times the inner loop body of the flush runs. *)
Definition pixel_count (area : lv_area_t) : nat :=
  (Z.to_nat (x2 area - x1 area + 1) * Z.to_nat (y2 area - y1 area + 1))%nat.

(** How many of the strips hold the point. *)
Fixpoint strips_at (jobs : list (lv_area_t * list lv_color_t)) (x y : Z) : nat :=
  match jobs with
  | [] => 0
  | job :: rest => (if in_area (fst job) x y then 1 else 0) + strips_at rest x y
  end.

(** The flags of the two screens as [create_loading_screen] and
    [create_time_screen] leave them, the hidden bit apart. *)
Definition screen_flags (df : obj_class -> Z) : Z :=
  Z.land (df lv_obj_class) (Z.lnot LV_OBJ_FLAG_SCROLLABLE).

Definition same_but_hidden (a b : Z) : Prop :=
  Z.land a (Z.lnot LV_OBJ_FLAG_HIDDEN) = Z.land b (Z.lnot LV_OBJ_FLAG_HIDDEN).

(** A screen container as the two create functions configure it. *)
Definition screen_obj (fl : Z) : lv_obj_t :=
  mk_obj lv_obj_class (Some 0%nat) fl (Some (SCREEN_WIDTH, SCREEN_HEIGHT))
         (Some (LV_ALIGN_CENTER, 0, 0))
         [(bg_color lv_color_black, 0); (border_width 0, 0)] "".

(** A label as the two create functions configure it. *)
Definition label_obj (df : obj_class -> Z) (parent : handle) (y_ofs : Z) (c : lv_color_t)
    (f : lv_font_t) (t : string) : lv_obj_t :=
  mk_obj lv_label_class (Some parent) (df lv_label_class) None (Some (LV_ALIGN_CENTER, 0, y_ofs))
         [(text_color c, 0); (text_font f, 0)] t.

(** The object heap after the start-up: the active screen, the Loading
    Screen and its label, the Clock Screen and its two labels. *)
Definition widget_tree (df : obj_class -> Z) (fl1 fl3 : Z) (t4 t5 : string) : list lv_obj_t :=
  [ new_obj df lv_obj_class None "";
    screen_obj fl1;
    label_obj df 1 0 lv_color_white lv_font_montserrat_24 "Welcome";
    screen_obj fl3;
    label_obj df 3 (-20) lv_color_white lv_font_montserrat_28 t4;
    label_obj df 3 30 (lv_color_make 180 180 180) lv_font_montserrat_14 t5 ].

(** The display driver [main] registers. *)
Definition the_disp_drv : lv_disp_drv_t := mk_disp_drv 1720 172 320.

(** The calls of a start-up that succeeds, window [w] and renderer [r]
    being what the platform returned. *)
Definition startup_trace (w r : handle) : list event :=
  banner ++ [SDL_Init SDL_INIT_VIDEO 0; create_window_ev (Some w);
             create_renderer_ev (Some w) (Some r);
             SDL_RenderSetLogicalSize (Some r) 172 320;
             lv_init_ev; lv_disp_drv_register_ev the_disp_drv; lv_indev_drv_register_ev;
             printf (line "Loading screen displayed. Will switch to time in 4 seconds...")].

(** The state in which a successful start-up enters the main loop. *)
Definition started (df : obj_class -> Z) (e0 : env) (w r : handle) : state :=
  let t := localtime e0 (now e0) in
  mk_state
    (mk_globals (Some w) (Some r) (Some 1%nat) (Some 3%nat) (Some 4%nat) (Some 5%nat)
                (Some 0%nat) (Some 1%nat))
    (mk_lvgl (widget_tree df (screen_flags df) (Z.lor (screen_flags df) LV_OBJ_FLAG_HIDDEN)
                          (format_tm "%H:%M:%S" t) (format_tm "%a, %b %d %Y" t))
             (Some 0%nat)
             [(1%nat, mk_timer 1000 (tick e0) CLOCK_UPDATE_CB (-1));
              (0%nat, mk_timer 4000 (tick e0) LOADING_TIMER_CB 1)]
             2%nat (Some the_disp_drv) true None)
    (startup_trace w r).

(** [n] copies of a list, one after the other. *)
Fixpoint times {A} (n : nat) (l : list A) : list A :=
  match n with
  | O => []
  | S k => l ++ times k l
  end.

(** What one read of the input device adds to the trace. *)
Definition input_events (rd : pointer) (e : env) : list event :=
  [SDL_GetMouseState (fst (fst (mouse e))) (snd (fst (mouse e))) (snd (mouse e));
   SDL_RenderGetLogicalSize rd].

(** What the dirty strips of one iteration add to the trace. *)
Definition strip_events (rd : pointer) (jobs : list (lv_area_t * list lv_color_t)) : list event :=
  flat_map (fun job => area_events rd (fst job) (snd job) ++ [lv_disp_flush_ready]) jobs.

Definition switch_events (sw : bool) : list event :=
  if sw then [printf (line "Switched to time display")] else [].

(** Everything one iteration of the main loop adds to the trace; [sw]
    tells whether the transition fires in it. *)
Definition iteration_events (rd : pointer) (e : env) (sw : bool) : list event :=
  poll_trace (pending e) ++ clear_trace rd ++ [lv_timer_handler_ev] ++ switch_events sw
  ++ times (polls e) (input_events rd e) ++ strip_events rd (redraw e) ++ present_trace rd.

(** Whether a splash timer started at [t0] is due in iteration [e]. *)
Definition splash_due (e : env) (t0 : Z) : bool := 4000 <=? tick e - t0.

(** Whether the transition fires in iteration [e]; [sp] is the splash
    timer's start as long as the timer is in the list. *)
Definition fires (e : env) (sp : option Z) : bool :=
  match sp with
  | Some t0 => splash_due e t0
  | None => false
  end.

(** What the main loop adds to the trace over the given iterations: it
    stops after the first one that sees a close request. *)
Fixpoint loop_events (rd : pointer) (sp : option Z) (frames : list env) : list event :=
  match frames with
  | [] => []
  | e :: rest =>
      iteration_events rd e (fires e sp)
      ++ (if has_quit e then [] else loop_events rd (if fires e sp then None else sp) rest)
  end.

Definition outcome_of (frames : list env) : outcome :=
  if existsb has_quit frames then Exited 0 else Running.

Definition exit_events (rd win : pointer) (frames : list env) : list event :=
  if existsb has_quit frames then cleanup_trace rd win else [].

(** The renderer a platform call is given, if it takes one. *)
Definition renderer_arg (ev : event) : option pointer :=
  match ev with
  | SDL_RenderSetLogicalSize rd _ _ | SDL_RenderGetLogicalSize rd
  | SDL_SetRenderDrawColor rd _ _ _ _ | SDL_RenderClear rd | SDL_RenderDrawPoint rd _ _
  | SDL_RenderPresent rd | SDL_DestroyRenderer rd => Some rd
  | _ => None
  end.

Definition is_teardown (ev : event) : bool :=
  match ev with
  | SDL_DestroyRenderer _ | SDL_DestroyWindow _ | SDL_Quit => true
  | _ => false
  end.

(** The call does not take a renderer, or takes [rd]. *)
Definition renders_on (rd : pointer) (ev : event) : Prop :=
  forall p, renderer_arg ev = Some p -> p = rd.

(** Some start-up request was refused. *)
Definition startup_failed (h : host) : Prop :=
  sdl_init_ret h <> 0 \/ sdl_window_ret h = None \/ sdl_renderer_ret h = None.

Definition is_lv_init (ev : event) : bool :=
  match ev with lv_init_ev => true | _ => false end.

(** The iterations the loop gets to run: up to and including the first
    that sees a close request. *)
Fixpoint executed (frames : list env) : list env :=
  match frames with
  | [] => []
  | e :: rest => e :: if has_quit e then [] else executed rest
  end.

(** *** Notions used by their proofs *)

(** [settled s]: the globals point at the six objects of the start-up, the
    drivers are registered, and the heap is the start-up's tree with both
    labels formatted from one clock reading. *)
Definition settled (df : obj_class -> Z) (s : state) : Prop :=
  ui_inv s /\
  disp_drv (lv s) = Some the_disp_drv /\ indev_registered (lv s) = true /\
  exists fl1 fl3 t,
    same_but_hidden fl1 (screen_flags df) /\ same_but_hidden fl3 (screen_flags df) /\
    objs (lv s) = widget_tree df fl1 fl3 (format_tm "%H:%M:%S" t) (format_tm "%a, %b %d %Y" t).

(** A state in which the widget tree stands, with everything else named. *)
Definition shape (df : obj_class -> Z) (w r : handle) (fl1 fl3 : Z) (t4 t5 : string)
    (ts : list (handle * lv_timer_t)) (a : pointer) (nt : handle) (d : option lv_indev_data_t)
    (tr : list event) : state :=
  mk_state
    (mk_globals (Some w) (Some r) (Some 1%nat) (Some 3%nat) (Some 4%nat) (Some 5%nat)
                (Some 0%nat) (Some 1%nat))
    (mk_lvgl (widget_tree df fl1 fl3 t4 t5) a ts nt (Some the_disp_drv) true d)
    tr.

(** The sample the read callback hands to the toolkit. *)
Definition input_sample (e : env) : lv_indev_data_t :=
  mk_indev_data (to_coord (snd (fst (mouse e))), to_coord (snd (mouse e)))
    (if Z.land (fst (fst (mouse e))) SDL_BUTTON_LMASK =? 0
     then LV_INDEV_STATE_RELEASED else LV_INDEV_STATE_PRESSED).

(** Both texts of the refresh fit their buffers. *)
Definition clock_fits (e : env) : bool :=
  (Z.of_nat (String.length (format_tm "%H:%M:%S" (localtime e (now e)))) + 1 <=? 32)
  && (Z.of_nat (String.length (format_tm "%a, %b %d %Y" (localtime e (now e)))) + 1 <=? 64).

Definition clock_due (e : env) (lr : Z) : bool := 1000 <=? tick e - lr.

(** The answers of the outside world whose clock reading the two labels
    show once the loop has run over [frames]: those of the last iteration
    run in which the clock timer was due, and [cur], the ones shown when
    the loop was entered with the timer last run at tick [lr], when it was
    due in none. *)
Fixpoint shown_reading (cur : env) (lr : Z) (frames : list env) : env :=
  match frames with
  | [] => cur
  | e :: rest =>
      if has_quit e then (if clock_due e lr then e else cur)
      else shown_reading (if clock_due e lr then e else cur)
                         (if clock_due e lr then tick e else lr) rest
  end.

(** The splash timer's entry in the timer list, as long as it has one. *)
Definition splash_entry (sp : option Z) : list (handle * lv_timer_t) :=
  match sp with
  | Some t0 => [(0%nat, splash_tm t0)]
  | None => []
  end.

(** The splash timer's start while the transition has not fired. *)
Definition splash_of (e0 : env) (tr : list event) : option Z :=
  if (count_ev is_switch tr =? 0)%nat then Some (tick e0) else None.

(** A fault that is not a bad pointer. *)
Definition mild (f : fault) : Prop := f = Truncated \/ f = OutOfBounds \/ f = IntOverflow.

(** [bounded m]: the only faults of [m] are a read outside the buffer and
    an overflowing index. *)
Definition bounded {A} (m : M A) : Prop :=
  forall e s f, m e s = Fault f -> f = OutOfBounds \/ f = IntOverflow.

(** * Properties *)

(** ** Facts about the monad *)

Lemma emit_nil s : emit [] s = s.
Proof. destruct s; unfold emit; simpl. by rewrite app_nil_r. Qed.

Lemma emit_emit a b s : emit b (emit a s) = emit (a ++ b) s.
Proof. unfold emit; simpl. by rewrite app_assoc. Qed.

Lemma cint_ok z : INT_MIN <= z <= INT_MAX -> cint z = ret z.
Proof.
  intros [Hlo Hhi]. unfold cint, in_int.
  apply Z.leb_le in Hlo, Hhi. by rewrite Hlo, Hhi.
Qed.

Lemma for_count_emit (f : Z -> list event) (body : Z -> M unit) (rd : pointer) e :
  forall n lo s,
    renderer (g s) = rd ->
    (forall i s', lo <= i < lo + Z.of_nat n -> renderer (g s') = rd ->
                  body i e s' = Ok (tt, emit (f i) s')) ->
    for_count n lo body e s = Ok (tt, emit (flat_map f (zseq lo n)) s).
Proof.
  induction n as [|n IH]; intros lo s Hrd Hbody; simpl.
  - unfold ret. by rewrite emit_nil.
  - unfold bind. rewrite Hbody by (auto; lia).
    rewrite IH; [by rewrite emit_emit | done |].
    intros i s' Hi Hs'. apply Hbody; [lia | done].
Qed.

Lemma land_mask_bounds a n : 0 <= n -> 0 <= Z.land a (Z.ones n) < 2 ^ n.
Proof. intros Hn. rewrite Z.land_ones by done. apply Z.mod_pos_bound. by apply Z.pow_pos_nonneg. Qed.

Lemma channel_R c : 0 <= LV_COLOR_GET_R c <= 31.
Proof. unfold LV_COLOR_GET_R. pose proof (land_mask_bounds (Z.shiftr (full c) 11) 5). change (Z.ones 5) with 31 in *. change (2^5) with 32 in *. lia. Qed.
Lemma channel_G c : 0 <= LV_COLOR_GET_G c <= 63.
Proof. unfold LV_COLOR_GET_G. pose proof (land_mask_bounds (Z.shiftr (full c) 5) 6). change (Z.ones 6) with 63 in *. change (2^6) with 64 in *. lia. Qed.
Lemma channel_B c : 0 <= LV_COLOR_GET_B c <= 31.
Proof. unfold LV_COLOR_GET_B. pose proof (land_mask_bounds (full c) 5). change (Z.ones 5) with 31 in *. change (2^5) with 32 in *. lia. Qed.

Lemma uint8_shift v k : 0 <= k -> 0 <= v -> v * 2 ^ k < 256 -> to_uint8 (Z.shiftl v k) = Z.shiftl v k.
Proof.
  intros Hk Hv Hb. unfold to_uint8. rewrite Z.shiftl_mul_pow2 by done.
  apply Z.mod_small. split; [|done]. apply Z.mul_nonneg_nonneg; [done|]. by apply Z.pow_nonneg.
Qed.

Lemma flush_pixel_ok area color_p x y e s :
  covers area color_p ->
  x1 area <= x <= x2 area -> y1 area <= y <= y2 area ->
  exists c, color_p !! Z.to_nat (pixel_index area x y) = Some c /\
  flush_pixel area color_p y x e s = Ok (tt, emit (pixel_events (renderer (g s)) c x y) s).
Proof.
  intros Hcov Hx Hy. destruct Hcov as [Hlen Hmax]; [lia | lia |].
  set (w := x2 area - x1 area + 1) in *. set (h := y2 area - y1 area + 1) in *.
  assert (Hidx : 0 <= pixel_index area x y < w * h).
  { unfold pixel_index. fold w. nia. }
  assert (Hw : 1 <= w <= INT_MAX) by (unfold INT_MAX in *; nia).
  assert (Hrow : 0 <= (y - y1 area) * w <= INT_MAX) by (unfold INT_MAX in *; nia).
  destruct (lookup_lt_is_Some_2 color_p (Z.to_nat (pixel_index area x y))) as [c Hc]; [lia|].
  exists c. split; [done|].
  unfold flush_pixel, bind.
  rewrite (cint_ok (y - y1 area)) by (unfold INT_MIN, INT_MAX in *; nia). unfold ret at 1.
  rewrite (cint_ok (x2 area - x1 area)) by (unfold INT_MIN, INT_MAX in *; lia). unfold ret at 1.
  rewrite (cint_ok (x2 area - x1 area + 1)) by (unfold INT_MIN, INT_MAX in *; lia). unfold ret at 1.
  fold w.
  rewrite (cint_ok ((y - y1 area) * w)) by (unfold INT_MIN, INT_MAX in *; lia). unfold ret at 1.
  rewrite (cint_ok (x - x1 area)) by (unfold INT_MIN, INT_MAX in *; nia). unfold ret at 1.
  rewrite (cint_ok ((y - y1 area) * w + (x - x1 area))) by (unfold pixel_index in Hidx; fold w in Hidx; unfold INT_MIN, INT_MAX in *; lia). unfold ret at 1.
  unfold read_color. fold w. change ((y - y1 area) * w + (x - x1 area)) with (pixel_index area x y).
  destruct (Z.ltb_spec (pixel_index area x y) 0) as [?|_]; [lia|].
  rewrite Hc. unfold ret, global, call, emit, pixel_events; simpl.
  pose proof (channel_R c). pose proof (channel_G c). pose proof (channel_B c).
  rewrite !uint8_shift by lia.
  rewrite <- app_assoc. reflexivity.
Qed.
Lemma flush_trace area color_p e s :
  covers area color_p ->
  sdl_display_flush area color_p e s
  = Ok (tt, emit (area_events (renderer (g s)) area color_p ++ [lv_disp_flush_ready]) s).
Proof.
  intros Hcov. unfold sdl_display_flush, for_range.
  unfold bind at 1.
  rewrite (for_count_emit (row_events (renderer (g s)) area color_p) _ (renderer (g s))); [| done |].
  - unfold call. unfold area_events, rows, emit. simpl. by rewrite <- app_assoc.
  - intros y s' Hy Hs'.
    rewrite (for_count_emit (fun x => pixel_events (renderer (g s)) (color_at area color_p x y) x y)
               _ (renderer (g s))); [done | done |].
    intros x s'' Hx Hs''.
    destruct (flush_pixel_ok area color_p x y e s'' Hcov) as (c & Hc & ->); [lia | lia |].
    unfold color_at. rewrite Hc. simpl. by rewrite Hs''.
Qed.

(** Case analysis on every integer comparison of the goal. *)
Ltac zbool :=
  repeat match goal with
         | |- context [(?x =? ?y)%Z] => case (Z.eqb_spec x y); intros
         | |- context [(?x <? ?y)%Z] => case (Z.ltb_spec x y); intros
         | |- context [(?x <=? ?y)%Z] => case (Z.leb_spec x y); intros
         end;
  simpl; try done; try lia.

Lemma count_ev_app p a b : count_ev p (a ++ b) = (count_ev p a + count_ev p b)%nat.
Proof. induction a as [|ev a IH]; simpl; [done|]. rewrite IH. lia. Qed.

Lemma count_ev_zseq p (f : Z -> list event) (k : Z) (c : bool) :
  (forall i, count_ev p (f i) = if (i =? k) && c then 1%nat else 0%nat) ->
  forall n lo,
    count_ev p (flat_map f (zseq lo n))
    = if (lo <=? k) && (k <? lo + Z.of_nat n) && c then 1%nat else 0%nat.
Proof.
  intros Hf. induction n as [|n IH]; intros lo.
  - cbn [zseq flat_map count_ev]. zbool.
  - cbn [zseq flat_map]. rewrite count_ev_app, Hf, IH.
    destruct c; rewrite ?andb_false_r; [|done]. rewrite !andb_true_r. zbool.
Qed.

Lemma count_ev_none p (f : Z -> list event) :
  (forall i, count_ev p (f i) = 0%nat) ->
  forall l, count_ev p (flat_map f l) = 0%nat.
Proof.
  intros Hf. induction l as [|i l IH]; simpl; [done|]. by rewrite count_ev_app, Hf, IH.
Qed.

Lemma draws_at_area rd area color_p x y :
  count_ev (is_draw_at x y) (area_events rd area color_p)
  = if in_area area x y then 1%nat else 0%nat.
Proof.
  unfold area_events, rows.
  rewrite (count_ev_zseq _ _ y ((x1 area <=? x) && (x <=? x2 area))).
  - unfold in_area. zbool.
  - intros y'. unfold row_events, columns.
    rewrite (count_ev_zseq _ _ x (y' =? y)).
    + zbool.
    + intros x'. cbn [pixel_events count_ev is_draw_at]. zbool.
Qed.

Lemma flush_ready_area rd area color_p :
  count_ev is_flush_ready (area_events rd area color_p) = 0%nat.
Proof.
  unfold area_events. apply count_ev_none. intros y.
  unfold row_events. apply count_ev_none. intros x. done.
Qed.

(** Claim C4 (flush coverage and completion order).  For an area and a
    buffer that holds the area's pixels, the flush callback returns, and
    what it adds to the trace is: row by row and, within a row, column by
    column, for each pixel of the area the colour read at the row-major
    index [(y - y1) * (x2 - x1 + 1) + (x - x1)] followed by a point drawn
    at [(x, y)]; then the completion signal.  Every pixel of the area is
    drawn exactly once, no pixel outside it is drawn, and the completion
    signal comes once, after all of them. *)
Theorem flush_coverage area color_p e s :
  covers area color_p ->
  let rd := renderer (g s) in
  exists drawn,
    sdl_display_flush area color_p e s = Ok (tt, emit (drawn ++ [lv_disp_flush_ready]) s)
    /\ drawn = flat_map (fun y =>
                 flat_map (fun x => pixel_events rd (color_at area color_p x y) x y) (columns area))
               (rows area)
    /\ (forall x y, in_area area x y = true ->
          is_Some (color_p !! Z.to_nat ((y - y1 area) * (x2 area - x1 area + 1) + (x - x1 area))))
    /\ (forall x y, count_ev (is_draw_at x y) drawn = if in_area area x y then 1%nat else 0%nat)
    /\ count_ev is_flush_ready drawn = 0%nat.
Proof.
  intros Hcov rd. exists (area_events rd area color_p).
  split; [by apply flush_trace|]. split; [done|]. split; [|split].
  - intros x y Hin. unfold in_area in Hin.
    apply andb_prop in Hin as [Hin Hy2]. apply andb_prop in Hin as [Hin Hy1].
    apply andb_prop in Hin as [Hx1 Hx2].
    apply Z.leb_le in Hx1, Hx2, Hy1, Hy2.
    destruct (flush_pixel_ok area color_p x y e s Hcov) as (c & Hc & _); [lia | lia |].
    unfold pixel_index in Hc. by exists c.
  - intros x y. apply draws_at_area.
  - apply flush_ready_area.
Qed.

Lemma flush_coverage_witness :
  covers (mk_area 0 0 1 1) [mk_color 65535; mk_color 0; mk_color 31; mk_color 2016] /\
  exists drawn,
    sdl_display_flush (mk_area 0 0 1 1) [mk_color 65535; mk_color 0; mk_color 31; mk_color 2016]
                      (sample_env 0 []) initial_state
    = Ok (tt, emit (drawn ++ [lv_disp_flush_ready]) initial_state)
    /\ count_ev (is_draw_at 1 1) drawn = 1%nat.
Proof.
  assert (Hc : covers (mk_area 0 0 1 1)
                 [mk_color 65535; mk_color 0; mk_color 31; mk_color 2016])
    by (intros _ _; cbn; unfold INT_MAX; lia).
  split; [exact Hc|].
  destruct (flush_coverage _ _ (sample_env 0 []) initial_state Hc)
    as (drawn & H & _ & _ & Hcount & _).
  exists drawn. split; [exact H | exact (Hcount 1 1)].
Defined.

Lemma rows_one x y : rows (mk_area x y x y) = [y].
Proof. unfold rows. simpl. by replace (y - y + 1) with 1 by lia. Qed.
Lemma columns_one x y : columns (mk_area x y x y) = [x].
Proof. unfold columns. simpl. by replace (x - x + 1) with 1 by lia. Qed.

Lemma flush_one c x y e s :
  sdl_display_flush (mk_area x y x y) [c] e s
  = Ok (tt, emit (pixel_events (renderer (g s)) c x y ++ [lv_disp_flush_ready]) s).
Proof.
  rewrite flush_trace.
  - unfold area_events, row_events. rewrite rows_one, columns_one. simpl.
    unfold color_at, pixel_index. simpl.
    replace ((y - y) * (x - x + 1) + (x - x)) with 0 by lia. done.
  - intros _ _. simpl. replace ((x - x + 1) * (y - y + 1)) with 1 by lia. done.
Qed.



(** ** Formatting and parsing *)

Arguments digit_char : simpl never.
Arguments digit_of : simpl never.
Arguments pad2 : simpl never.
Arguments dec : simpl never.
Arguments dec_z : simpl never.
Arguments is_space : simpl never.
Arguments to_lower : simpl never.

Lemma append_nil_r (a : string) : (a ++ "")%string = a.
Proof. induction a as [|c a IH]; simpl; [done|]. by rewrite IH. Qed.

Lemma string_length_app (a b : string) :
  String.length (a ++ b) = (String.length a + String.length b)%nat.
Proof. induction a as [|c a IH]; simpl; [done|]. by rewrite IH. Qed.

Lemma zseq_In lo n v : lo <= v < lo + Z.of_nat n -> In v (zseq lo n).
Proof.
  revert lo. induction n as [|n IH]; intros lo Hv; [lia|].
  simpl. destruct (Z.eq_dec lo v) as [->|Hne]; [by left|].
  right. apply IH. lia.
Qed.

Lemma digit_roundtrip d : 0 <= d <= 9 -> digit_of (digit_char d) = Some d.
Proof.
  intros Hd.
  assert (Hall : forallb (fun d => match digit_of (digit_char d) with
                                   | Some d' => d' =? d
                                   | None => false
                                   end) (zseq 0 10) = true) by (vm_compute; reflexivity).
  rewrite forallb_forall in Hall. specialize (Hall d (zseq_In 0 10 d ltac:(lia))).
  destruct (digit_of (digit_char d)) as [d'|]; [|done].
  apply Z.eqb_eq in Hall. by subst.
Qed.

Lemma pad2_two v : 0 <= v < 100 -> pad2 v = two v.
Proof.
  intros Hv.
  assert (Hall : forallb (fun v => String.eqb (pad2 v) (two v)) (zseq 0 100) = true)
    by (vm_compute; reflexivity).
  rewrite forallb_forall in Hall. specialize (Hall v (zseq_In 0 100 v ltac:(lia))).
  by apply String.eqb_eq in Hall.
Qed.

Lemma dec_aux_length fuel : forall n acc k,
  0 <= n < 10 ^ Z.of_nat (S k) ->
  (String.length (dec_aux fuel n acc) <= S k + String.length acc)%nat.
Proof.
  induction fuel as [|f IH]; intros n acc k Hn; cbn [dec_aux]; [lia|].
  destruct (Z.ltb_spec n 10); [cbn [String.length]; lia|].
  destruct k as [|k]; [change (10 ^ Z.of_nat 1) with 10 in Hn; lia|].
  etransitivity; [apply (IH _ _ k)|cbn [String.length]; lia].
  split; [apply Z.div_pos; lia|].
  apply Z.div_lt_upper_bound; [lia|].
  replace (Z.of_nat (S (S k))) with (Z.succ (Z.of_nat (S k))) in Hn by lia.
  rewrite Z.pow_succ_r in Hn by lia. lia.
Qed.

Lemma dec_length n : 0 <= n < 10 ^ 10 -> (String.length (dec n) <= 10)%nat.
Proof.
  intros Hn. unfold dec.
  pose proof (dec_aux_length (S (Z.to_nat (Z.log2 n))) n "" 9 Hn) as Hl.
  cbn [String.length] in Hl. lia.
Qed.

Lemma dec_z_length z : - 10 ^ 10 < z < 10 ^ 10 -> (String.length (dec_z z) <= 11)%nat.
Proof.
  intros Hz. unfold dec_z. destruct (Z.ltb_spec z 0).
  - cbn [String.length]. pose proof (dec_length (- z)). lia.
  - pose proof (dec_length z). lia.
Qed.

Lemma wday_length i : 0 <= i <= 6 -> String.length (name_of wday_abbr i) = 3%nat.
Proof.
  intros Hi.
  assert (i = 0 \/ i = 1 \/ i = 2 \/ i = 3 \/ i = 4 \/ i = 5 \/ i = 6) as Hc by lia.
  repeat destruct Hc as [->|Hc]; try subst i; reflexivity.
Qed.

Lemma mon_length i : 0 <= i <= 11 -> String.length (name_of mon_abbr i) = 3%nat.
Proof.
  intros Hi.
  assert (i = 0 \/ i = 1 \/ i = 2 \/ i = 3 \/ i = 4 \/ i = 5 \/ i = 6 \/ i = 7 \/ i = 8
          \/ i = 9 \/ i = 10 \/ i = 11) as Hc by lia.
  repeat destruct Hc as [->|Hc]; try subst i; reflexivity.
Qed.

Lemma format_time t : tm_wf t -> format_tm "%H:%M:%S" t = time_text t.
Proof.
  intros (Hs & Hm & Hh & _).
  change (format_tm "%H:%M:%S" t)
    with (pad2 (tm_hour t) ++ String ":" (pad2 (tm_min t) ++ String ":" (pad2 (tm_sec t) ++ "")))%string.
  rewrite !pad2_two by lia. reflexivity.
Qed.

Lemma format_date t : tm_wf t -> format_tm "%a, %b %d %Y" t = date_text t.
Proof.
  intros (_ & _ & _ & Hd & _).
  change (format_tm "%a, %b %d %Y" t)
    with (name_of wday_abbr (tm_wday t) ++ String "," (String " "
           (name_of mon_abbr (tm_mon t) ++ String " "
             (pad2 (tm_mday t) ++ String " " (dec_z (tm_year t + 1900) ++ "")))))%string.
  rewrite pad2_two by lia. rewrite append_nil_r. reflexivity.
Qed.

Lemma digit_not_space d : 0 <= d <= 9 -> is_space (digit_char d) = false.
Proof.
  intros Hd.
  assert (Hall : forallb (fun d => negb (is_space (digit_char d))) (zseq 0 10) = true)
    by (vm_compute; reflexivity).
  rewrite forallb_forall in Hall. specialize (Hall d (zseq_In 0 10 d ltac:(lia))).
  by apply negb_true_iff in Hall.
Qed.

Lemma tens_digit v : 0 <= v < 100 -> 0 <= v / 10 <= 9.
Proof.
  intros Hv. split; [apply Z.div_pos; lia|].
  apply Z.lt_succ_r. apply Z.div_lt_upper_bound; lia.
Qed.

(** Two digits that write a number of the range are read as that number. *)
Lemma get_number_two lo hi v rest :
  0 <= v < 100 -> lo <= v <= hi ->
  get_number lo hi 2 (two v ++ rest) = Some (v, rest).
Proof.
  intros Hv Hr. pose proof (tens_digit v Hv) as Hd1.
  pose proof (Z.mod_pos_bound v 10 ltac:(lia)) as Hd0.
  pose proof (Z.div_mod v 10 ltac:(lia)) as Hdm.
  unfold get_number, two. cbn [append skip_spaces].
  rewrite digit_not_space by done. rewrite digit_roundtrip by done.
  cbn [Nat.pred more_digits].
  destruct (Z.leb_spec (v / 10 * 10) hi) as [_|]; [|lia].
  rewrite digit_roundtrip by lia.
  replace (v / 10 * 10 + v mod 10) with v by lia.
  destruct (Z.leb_spec lo v); [|lia]. destruct (Z.leb_spec v hi); [|lia]. reflexivity.
Qed.

(** A year of at most four digits is read in full. *)
Lemma get_number_year y :
  0 <= y <= 9999 -> get_number 0 9999 4 (dec_z y) = Some (y, "").
Proof.
  intros Hy.
  assert (Hall : forallb (fun y => match get_number 0 9999 4 (dec_z y) with
                                   | Some (v, EmptyString) => v =? y
                                   | _ => false
                                   end) (zseq 0 (Z.to_nat 10000)) = true) by (vm_compute; reflexivity).
  rewrite forallb_forall in Hall. specialize (Hall y (zseq_In 0 (Z.to_nat 10000) y ltac:(lia))).
  destruct (get_number 0 9999 4 (dec_z y)) as [[v [|c r]]|]; try done.
  apply Z.eqb_eq in Hall. by subst.
Qed.

Lemma match_wday i rest :
  0 <= i <= 6 ->
  match_name wday_full wday_abbr 0 (name_of wday_abbr i ++ String "," rest)
  = Some (i, String "," rest).
Proof.
  intros Hi.
  assert (i = 0 \/ i = 1 \/ i = 2 \/ i = 3 \/ i = 4 \/ i = 5 \/ i = 6) as Hc by lia.
  repeat destruct Hc as [->|Hc]; try subst i; reflexivity.
Qed.

Lemma match_mon i rest :
  0 <= i <= 11 ->
  match_name mon_full mon_abbr 0 (name_of mon_abbr i ++ String " " rest)
  = Some (i, String " " rest).
Proof.
  intros Hi.
  assert (i = 0 \/ i = 1 \/ i = 2 \/ i = 3 \/ i = 4 \/ i = 5 \/ i = 6 \/ i = 7 \/ i = 8
          \/ i = 9 \/ i = 10 \/ i = 11) as Hc by lia.
  repeat destruct Hc as [->|Hc]; try subst i; reflexivity.
Qed.

Lemma mon_not_space i rest :
  0 <= i <= 11 -> skip_spaces (name_of mon_abbr i ++ rest) = (name_of mon_abbr i ++ rest)%string.
Proof.
  intros Hi.
  assert (i = 0 \/ i = 1 \/ i = 2 \/ i = 3 \/ i = 4 \/ i = 5 \/ i = 6 \/ i = 7 \/ i = 8
          \/ i = 9 \/ i = 10 \/ i = 11) as Hc by lia.
  repeat destruct Hc as [->|Hc]; try subst i; reflexivity.
Qed.

Lemma two_not_space v rest :
  0 <= v < 100 -> skip_spaces (two v ++ rest) = (two v ++ rest)%string.
Proof.
  intros Hv. unfold two. cbn [append skip_spaces].
  by rewrite digit_not_space by (by apply tens_digit).
Qed.

Lemma dec_z_not_space y : 0 <= y <= 9999 -> skip_spaces (dec_z y) = dec_z y.
Proof.
  intros Hy.
  assert (Hall : forallb (fun y => String.eqb (skip_spaces (dec_z y)) (dec_z y)) (zseq 0 (Z.to_nat 10000))
                 = true) by (vm_compute; reflexivity).
  rewrite forallb_forall in Hall. specialize (Hall y (zseq_In 0 (Z.to_nat 10000) y ltac:(lia))).
  by apply String.eqb_eq in Hall.
Qed.

Lemma strptime_conv d fmt s t :
  strptime (String "%" (String d fmt)) s t
  = match conv_in d s t with
    | Some (t', s') => strptime fmt s' t'
    | None => None
    end.
Proof. reflexivity. Qed.

Lemma strptime_lit c fmt s t :
  Ascii.eqb c "%" = false -> is_space c = false ->
  strptime (String c fmt) (String c s) t = strptime fmt s t.
Proof. intros Hc Hs. cbn [strptime]. by rewrite Hs, Hc, Ascii.eqb_refl. Qed.

Lemma strptime_space fmt s t :
  strptime (String " " fmt) (String " " s) t = strptime fmt (skip_spaces s) t.
Proof. reflexivity. Qed.

Lemma strptime_time t :
  tm_wf t ->
  strptime "%H:%M:%S" (time_text t) tm_zero
  = Some (mk_tm (tm_sec t) (tm_min t) (tm_hour t) 0 0 0 0, "").
Proof.
  intros (Hs & Hm & Hh & _). unfold time_text.
  rewrite strptime_conv. unfold conv_in at 1. cbn [Ascii.eqb Bool.eqb].
  rewrite get_number_two by lia. cbn [mbind option_bind append].
  rewrite strptime_lit by done.
  rewrite strptime_conv. unfold conv_in at 1. cbn [Ascii.eqb Bool.eqb].
  rewrite get_number_two by lia. cbn [mbind option_bind append].
  rewrite strptime_lit by done.
  rewrite <- (append_nil_r (two (tm_sec t))).
  rewrite strptime_conv. unfold conv_in at 1. cbn [Ascii.eqb Bool.eqb].
  rewrite get_number_two by lia. reflexivity.
Qed.

Lemma strptime_date t :
  tm_wf t -> 0 <= tm_year t + 1900 <= 9999 ->
  strptime "%a, %b %d %Y" (date_text t) tm_zero
  = Some (mk_tm 0 0 0 (tm_mday t) (tm_mon t) (tm_year t) (tm_wday t), "").
Proof.
  intros (_ & _ & _ & Hd & Hmo & Hw & _) Hy. unfold date_text.
  rewrite strptime_conv. unfold conv_in at 1. cbn [Ascii.eqb Bool.eqb append].
  rewrite match_wday by lia. cbn [mbind option_bind].
  rewrite strptime_lit by done. rewrite strptime_space, mon_not_space by lia.
  rewrite strptime_conv. unfold conv_in at 1. cbn [Ascii.eqb Bool.eqb].
  rewrite match_mon by lia. cbn [mbind option_bind].
  rewrite strptime_space, two_not_space by lia.
  rewrite strptime_conv. unfold conv_in at 1. cbn [Ascii.eqb Bool.eqb].
  rewrite get_number_two by lia. cbn [mbind option_bind append].
  rewrite strptime_space, dec_z_not_space by done.
  rewrite strptime_conv. unfold conv_in at 1. cbn [Ascii.eqb Bool.eqb].
  rewrite get_number_year by done. cbn [mbind option_bind strptime].
  cbn [tm_zero tm_sec tm_min tm_hour tm_mday tm_mon tm_year tm_wday].
  do 3 f_equal. lia.
Qed.

Lemma time_text_length t : String.length (time_text t) = 8%nat.
Proof. reflexivity. Qed.

Lemma date_text_length t : tm_wf t -> (String.length (date_text t) <= 23)%nat.
Proof.
  intros (_ & _ & _ & Hd & Hmo & Hw & Hy). unfold date_text.
  rewrite !string_length_app, wday_length, mon_length by lia.
  pose proof (dec_z_length (tm_year t + 1900)) as Hl.
  change (String.length (two (tm_mday t))) with 2%nat.
  change (String.length ", ") with 2%nat. change (String.length " ") with 1%nat.
  unfold INT_MIN, INT_MAX in Hy. lia.
Qed.

Lemma strftime_time t e s :
  tm_wf t -> strftime 32 "%H:%M:%S" t e s = Ok (time_text t, s).
Proof.
  intros Ht. unfold strftime. rewrite format_time by done.
  rewrite time_text_length. reflexivity.
Qed.

Lemma strftime_date t e s :
  tm_wf t -> strftime 64 "%a, %b %d %Y" t e s = Ok (date_text t, s).
Proof.
  intros Ht. unfold strftime. rewrite format_date by done.
  pose proof (date_text_length t Ht).
  destruct (Z.leb_spec (Z.of_nat (String.length (date_text t)) + 1) 64); [done | lia].
Qed.

(** ** Inversion of the monad's operations *)

Lemma bind_Ok {A B} (m : M A) (k : A -> M B) e s r :
  bind m k e s = Ok r -> exists a s1, m e s = Ok (a, s1) /\ k a e s1 = Ok r.
Proof.
  unfold bind. destruct (m e s) as [[a s1]|f]; [|done]. intros H. by exists a, s1.
Qed.

Lemma bind_Fault {A B} (m : M A) (k : A -> M B) e s f :
  bind m k e s = Fault f ->
  m e s = Fault f \/ exists a s1, m e s = Ok (a, s1) /\ k a e s1 = Fault f.
Proof.
  unfold bind. destruct (m e s) as [[a s1]|f']; [|intros [= ->]; by left]. intros H. right. by exists a, s1.
Qed.

(** ** The hidden flag *)

Lemma land_1 x : Z.land x 1 = Z.b2z (Z.testbit x 0).
Proof.
  change 1 with (Z.ones 1) at 1. rewrite Z.land_ones by lia.
  symmetry. change (2 ^ 1) with 2. apply Z.bit0_mod.
Qed.

Lemma has_hidden_testbit fl : (Z.land fl LV_OBJ_FLAG_HIDDEN =? LV_OBJ_FLAG_HIDDEN) = Z.testbit fl 0.
Proof. change LV_OBJ_FLAG_HIDDEN with 1. rewrite land_1. by destruct (Z.testbit fl 0). Qed.

Lemma hidden_after_add fl :
  (Z.land (Z.lor fl LV_OBJ_FLAG_HIDDEN) LV_OBJ_FLAG_HIDDEN =? LV_OBJ_FLAG_HIDDEN) = true.
Proof.
  rewrite has_hidden_testbit. change LV_OBJ_FLAG_HIDDEN with 1.
  rewrite Z.lor_spec. change (Z.testbit 1 0) with true. apply orb_true_r.
Qed.

Lemma hidden_after_clear fl :
  (Z.land (Z.land fl (Z.lnot LV_OBJ_FLAG_HIDDEN)) LV_OBJ_FLAG_HIDDEN =? LV_OBJ_FLAG_HIDDEN) = false.
Proof.
  rewrite has_hidden_testbit. change LV_OBJ_FLAG_HIDDEN with 1.
  rewrite Z.land_spec. change (Z.testbit (Z.lnot 1) 0) with false. apply andb_false_r.
Qed.

Lemma hidden_after_clear_scrollable fl :
  (Z.land (Z.land fl (Z.lnot LV_OBJ_FLAG_SCROLLABLE)) LV_OBJ_FLAG_HIDDEN =? LV_OBJ_FLAG_HIDDEN)
  = (Z.land fl LV_OBJ_FLAG_HIDDEN =? LV_OBJ_FLAG_HIDDEN).
Proof.
  rewrite !has_hidden_testbit. change LV_OBJ_FLAG_SCROLLABLE with 16.
  rewrite Z.land_spec. change (Z.testbit (Z.lnot 16) 0) with true. apply andb_true_r.
Qed.

(** ** The two phases of the user interface *)

Ltac open_state s :=
  let w := fresh "w" in let r := fresh "r" in
  let os := fresh "os" in let tr := fresh "tr" in
  destruct s as [[w r ? ? ? ? ? ?] [os ? ? ? ? ? ?] tr]; cbn in *.

Lemma startup_pending df h e0 s :
  main df h [] e0 initial_state = Ok (Running, s) -> phase_pending df e0 s.
Proof.
  destruct h as [ir err w r], e0 as [tk nw ltm ms pd pl rdw].
  unfold main.
  intros H.
  apply bind_Ok in H as (? & s1 & H1 & H). injection H1 as <- <-.
  apply bind_Ok in H as (? & s1 & H1 & H). injection H1 as <- <-.
  apply bind_Ok in H as (? & s1 & H1 & H). injection H1 as <- <-.
  cbn [sdl_init_ret sdl_window_ret sdl_renderer_ret sdl_error] in H.
  destruct (negb (ir =? 0)).
  { cbv in H. done. }
  apply bind_Ok in H as (? & s1 & H1 & H). injection H1 as <- <-.
  apply bind_Ok in H as (? & s1 & H1 & H). injection H1 as <- <-.
  apply bind_Ok in H as (? & s1 & H1 & H). injection H1 as <- <-.
  destruct w as [w|]; cbn [g window with_window initial_state initial_globals] in H;
    [|cbv in H; done].
  apply bind_Ok in H as (? & s1 & H1 & H). injection H1 as <- <-.
  apply bind_Ok in H as (? & s1 & H1 & H). injection H1 as <- <-.
  apply bind_Ok in H as (? & s1 & H1 & H). injection H1 as <- <-.
  apply bind_Ok in H as (? & s1 & H1 & H). injection H1 as <- <-.
  destruct r as [r|]; cbn [g renderer with_renderer with_window initial_state initial_globals] in H;
    [|cbv in H; done].
  apply bind_Ok in H as ([] & s1 & H1 & H).
  cbv -[format_tm String.length Z.of_nat Z.add Z.leb Z.land Z.lor Z.lnot line append
        lv_color_black lv_color_white lv_color_make dec_z] in H1.
  destruct (Z.of_nat (String.length (format_tm "%H:%M:%S" (ltm nw))) + 1 <=? 32); [|done].
  destruct (Z.of_nat (String.length (format_tm "%a, %b %d %Y" (ltm nw))) + 1 <=? 64); [|done].
  injection H1 as <-.
  cbv -[format_tm line append dec_z Z.land Z.lor Z.lnot lv_color_black lv_color_white lv_color_make] in H.
  injection H as <-.
  unfold phase_pending, ui_inv. cbn [g lv objs timers loading_screen time_screen time_label
    date_label loading_timer clock_timer renderer window length tick].
  repeat split; try done.
  - by exists tk.
  - unfold is_hidden, obj_at. cbn. f_equal. unfold lv_obj_has_flag. cbn [obj_flags].
    apply (hidden_after_clear_scrollable (df lv_obj_class)).
  - unfold is_hidden, obj_at. cbn. f_equal. unfold lv_obj_has_flag. cbn [obj_flags].
    apply (hidden_after_add (Z.land (df lv_obj_class) (Z.lnot 16))).
Qed.

(** ** What the toolkit primitives and the callbacks do to the state *)

Lemma deref_inv p e s r :
  deref p e s = r ->
  match p with
  | None => r = Fault NullPointer
  | Some h =>
      match objs (lv s) !! h with
      | Some o => r = Ok ((h, o), s)
      | None => r = Fault BadHandle
      end
  end.
Proof.
  intros <-. destruct p as [h|]; [|done].
  unfold deref, bind, get. by destruct (objs (lv s) !! h).
Qed.

Lemma update_obj_Some h o f e s :
  objs (lv s) !! h = Some o -> update_obj (Some h) f e s = Ok (tt, with_obj h (f o) s).
Proof.
  intros Ho. unfold update_obj, deref, bind, get. by rewrite Ho.
Qed.

Lemma update_obj_Ok p f e s u s' :
  update_obj p f e s = Ok (u, s') ->
  exists h o, p = Some h /\ objs (lv s) !! h = Some o /\ s' = with_obj h (f o) s.
Proof.
  intros H. unfold update_obj in H. apply bind_Ok in H as ([h o] & s1 & Hd & H).
  apply deref_inv in Hd. destruct p as [hp|]; [|done].
  destruct (objs (lv s) !! hp) as [op|] eqn:Ho; [|done].
  injection Hd as <- <- <-. injection H as <-. by exists h, o.
Qed.

Lemma update_obj_Fault p f e s x :
  update_obj p f e s = Fault x ->
  (p = None /\ x = NullPointer) \/ (exists h, p = Some h /\ objs (lv s) !! h = None /\ x = BadHandle).
Proof.
  intros H. unfold update_obj in H. apply bind_Fault in H as [Hd | ([h o] & s1 & Hd & H)].
  - apply deref_inv in Hd. destruct p as [h|].
    + destruct (objs (lv s) !! h) eqn:Ho; [done|]. injection Hd as <-. right. by exists h.
    + injection Hd as <-. by left.
  - done.
Qed.

Lemma strftime_Ok max fmt t e s r s' :
  strftime max fmt t e s = Ok (r, s') ->
  r = format_tm fmt t /\ s' = s /\ Z.of_nat (String.length (format_tm fmt t)) + 1 <= max.
Proof.
  unfold strftime. destruct (Z.leb_spec (Z.of_nat (String.length (format_tm fmt t)) + 1) max);
    [|done].
  unfold ret. intros Heq. by injection Heq as <- <-.
Qed.

Lemma strftime_Fault max fmt t e s x : strftime max fmt t e s = Fault x -> x = Truncated.
Proof.
  unfold strftime. destruct (_ <=? _); [done|]. unfold fail. intros Heq. by injection Heq.
Qed.

Lemma update_time_display_Ok e s u s' :
  update_time_display e s = Ok (u, s') ->
  exists tl dl o4 o5,
    time_label (g s) = Some tl /\ date_label (g s) = Some dl /\
    objs (lv s) !! tl = Some o4 /\
    <[tl := set_text (format_tm "%H:%M:%S" (localtime e (now e))) o4]> (objs (lv s)) !! dl = Some o5 /\
    Z.of_nat (String.length (format_tm "%H:%M:%S" (localtime e (now e)))) + 1 <= 32 /\
    Z.of_nat (String.length (format_tm "%a, %b %d %Y" (localtime e (now e)))) + 1 <= 64 /\
    s' = refreshed tl dl o4 o5 (localtime e (now e)) s.
Proof.
  intros H. unfold update_time_display in H.
  apply bind_Ok in H as (e' & s1 & H1 & H). injection H1 as <- <-.
  apply bind_Ok in H as (ts & s1 & H1 & H).
  apply strftime_Ok in H1 as (-> & -> & Hl1).
  apply bind_Ok in H as (p & s1 & H1 & H). injection H1 as <- <-.
  apply bind_Ok in H as (? & s1 & H1 & H).
  apply update_obj_Ok in H1 as (tl & o4 & Htl & Ho4 & ->).
  apply bind_Ok in H as (ds & s1 & H1 & H).
  apply strftime_Ok in H1 as (-> & -> & Hl2).
  apply bind_Ok in H as (p & s1 & H1 & H). injection H1 as <- <-.
  apply update_obj_Ok in H as (dl & o5 & Hdl & Ho5 & ->).
  exists tl, dl, o4, o5. done.
Qed.

Lemma update_time_display_Fault e s x :
  update_time_display e s = Fault x ->
  x = Truncated \/
  (x = NullPointer /\ (time_label (g s) = None \/ date_label (g s) = None)) \/
  (x = BadHandle /\ (obj_at (time_label (g s)) s = None \/ obj_at (date_label (g s)) s = None)).
Proof.
  intros H. unfold update_time_display in H.
  apply bind_Fault in H as [H | (e' & s1 & H1 & H)]; [done|]. injection H1 as <- <-.
  apply bind_Fault in H as [H | (ts & s1 & H1 & H)].
  { apply strftime_Fault in H. by left. }
  apply strftime_Ok in H1 as (-> & -> & _).
  apply bind_Fault in H as [H | (p & s1 & H1 & H)]; [done|]. injection H1 as <- <-.
  apply bind_Fault in H as [H | (? & s1 & H1 & H)].
  { apply update_obj_Fault in H as [[Hp ->] | (h & Hp & Ho & ->)]; right.
    - left. split; [done | by left].
    - right. split; [done|]. left. by rewrite Hp. }
  apply update_obj_Ok in H1 as (tl & o4 & Htl & Ho4 & ->).
  apply bind_Fault in H as [H | (ds & s1 & H1 & H)].
  { apply strftime_Fault in H. by left. }
  apply strftime_Ok in H1 as (-> & -> & _).
  apply bind_Fault in H as [H | (p & s1 & H1 & H)]; [done|]. injection H1 as <- <-.
  apply update_obj_Fault in H as [[Hp ->] | (h & Hp & Ho & ->)]; right.
  - left. split; [done | by right].
  - right. split; [done|]. right. cbn in Hp, Ho. rewrite Hp. cbn.
    destruct (decide (tl = h)) as [->|Hne].
    + apply lookup_ge_None in Ho. rewrite length_insert in Ho.
      apply lookup_lt_Some in Ho4. lia.
    + by rewrite list_lookup_insert_ne in Ho.
Qed.

(** ** Computations that leave the user interface alone *)

Ltac frame_fields := unfold frame; do 5 (split; [first [done | congruence]|]).

Lemma frame_refl s : frame s s.
Proof. frame_fields. exists []. by rewrite app_nil_r. Qed.

Lemma frame_trans s1 s2 s3 : frame s1 s2 -> frame s2 s3 -> frame s1 s3.
Proof.
  intros (Hg & Ho & Ht & Hd & Hi & evs & Htr & Hc) (Hg' & Ho' & Ht' & Hd' & Hi' & evs' & Htr' & Hc').
  frame_fields.
  exists (evs ++ evs'). split.
  - rewrite Htr', Htr. by rewrite <- app_assoc.
  - rewrite count_ev_app. lia.
Qed.

Lemma benign_ret {A} (a : A) : benign (ret a).
Proof. intros e s a' s' [= <- <-]. apply frame_refl. Qed.

Lemma benign_fail {A} f : benign (@fail A f).
Proof. intros e s a' s' [=]. Qed.

Lemma benign_bind {A B} (m : M A) (k : A -> M B) :
  benign m -> (forall a, benign (k a)) -> benign (bind m k).
Proof.
  intros Hm Hk e s b s' H. apply bind_Ok in H as (a & s1 & H1 & H2).
  eapply frame_trans; [by eapply Hm | by eapply Hk].
Qed.

Lemma benign_call ev : is_switch ev = false -> benign (call ev).
Proof.
  intros Hev e s a s' [= <- <-]. frame_fields.
  exists [ev]. split; [done|]. cbn. by rewrite Hev.
Qed.

Lemma benign_global {A} (f : globals -> A) : benign (global f).
Proof. intros e s a s' [= <- <-]. apply frame_refl. Qed.

Lemma benign_ask : benign ask.
Proof. intros e s a s' [= <- <-]. apply frame_refl. Qed.

Lemma benign_get : benign get.
Proof. intros e s a s' [= <- <-]. apply frame_refl. Qed.

Lemma benign_cint z : benign (cint z).
Proof. unfold cint. destruct (in_int z); [apply benign_ret | apply benign_fail]. Qed.

Lemma benign_for_count body : (forall i, benign (body i)) -> forall n i, benign (for_count n i body).
Proof.
  intros Hb. induction n as [|n IH]; intros i; cbn [for_count].
  - apply benign_ret.
  - apply benign_bind; [apply Hb | intros _; apply IH].
Qed.

Lemma benign_read_color color_p idx : benign (read_color color_p idx).
Proof.
  unfold read_color. destruct (idx <? 0); [apply benign_fail|].
  destruct (color_p !! Z.to_nat idx); [apply benign_ret | apply benign_fail].
Qed.

Lemma benign_flush_pixel area color_p y x : benign (flush_pixel area color_p y x).
Proof.
  unfold flush_pixel.
  repeat (apply benign_bind; [first [apply benign_cint | apply benign_read_color
                                     | apply benign_global | by apply benign_call] | intros ?]).
  by apply benign_call.
Qed.

Lemma benign_sdl_display_flush area color_p : benign (sdl_display_flush area color_p).
Proof.
  unfold sdl_display_flush, for_range. apply benign_bind; [|intros _; by apply benign_call].
  apply benign_for_count. intros y. apply benign_for_count. intros x. apply benign_flush_pixel.
Qed.

Lemma benign_flush_all jobs : benign (flush_all jobs).
Proof.
  induction jobs as [|[area color_p] jobs IH]; cbn [flush_all]; [apply benign_ret|].
  apply benign_bind; [apply benign_sdl_display_flush | intros _; apply IH].
Qed.

Lemma benign_sdl_mouse_read : benign sdl_mouse_read.
Proof.
  unfold sdl_mouse_read. apply benign_bind; [apply benign_ask | intros e].
  destruct (mouse e) as [[b x] y].
  apply benign_bind; [by apply benign_call | intros _].
  apply benign_bind; [apply benign_global | intros rd].
  apply benign_bind; [by apply benign_call | intros _]. apply benign_ret.
Qed.

Lemma benign_set_indev_data d : benign (set_lv (with_indev_data d)).
Proof. intros e s a s' [= <- <-]. frame_fields. exists []. by rewrite app_nil_r. Qed.

Lemma benign_read_inputs n : benign (read_inputs n).
Proof.
  induction n as [|n IH]; cbn [read_inputs]; [apply benign_ret|].
  apply benign_bind; [apply benign_sdl_mouse_read | intros d].
  apply benign_bind; [apply benign_set_indev_data | intros _; apply IH].
Qed.

Lemma benign_poll_events evs : forall quit, benign (poll_events evs quit).
Proof.
  induction evs as [|ev evs IH]; intros quit; cbn [poll_events].
  - apply benign_bind; [by apply benign_call | intros _; apply benign_ret].
  - apply benign_bind; [by apply benign_call | intros _; apply IH].
Qed.

(** ** The phases under the program's steps *)

Lemma switched_frame s s' : frame s s' -> switched s' = switched s.
Proof.
  intros (_ & _ & _ & _ & _ & evs & Htr & Hc). unfold switched.
  rewrite Htr, count_ev_app. lia.
Qed.

Lemma ui_inv_frame s s' : frame s s' -> ui_inv s -> ui_inv s'.
Proof. intros (Hg & Ho & _) Hi. unfold ui_inv in *. by rewrite Hg, Ho. Qed.

Lemma is_hidden_frame p s s' : frame s s' -> is_hidden p s' = is_hidden p s.
Proof. intros (_ & Ho & _). unfold is_hidden, obj_at. by rewrite Ho. Qed.

Lemma pending_frame df e0 s s' : frame s s' -> phase_pending df e0 s -> phase_pending df e0 s'.
Proof.
  intros Hf (Hi & Ht & Hs & H1 & H3). unfold phase_pending.
  rewrite (switched_frame _ _ Hf), !(is_hidden_frame _ _ _ Hf).
  pose proof Hf as (_ & _ & Htm & _). rewrite Htm.
  split; [by eapply ui_inv_frame | done].
Qed.

Lemma fired_frame s s' : frame s s' -> phase_fired s -> phase_fired s'.
Proof.
  intros Hf (Hi & Ht & Hs & H1 & H3). unfold phase_fired.
  rewrite (switched_frame _ _ Hf), !(is_hidden_frame _ _ _ Hf).
  pose proof Hf as (_ & _ & Htm & _). rewrite Htm.
  split; [by eapply ui_inv_frame | done].
Qed.

(** The refresh on a state where the labels are objects 4 and 5. *)
Lemma refresh_effect e s u s' :
  ui_inv s -> update_time_display e s = Ok (u, s') ->
  g s' = g s /\ timers (lv s') = timers (lv s) /\ trace s' = trace s /\
  length (objs (lv s')) = length (objs (lv s)) /\
  is_hidden (Some 1%nat) s' = is_hidden (Some 1%nat) s /\
  is_hidden (Some 3%nat) s' = is_hidden (Some 3%nat) s.
Proof.
  intros (_ & _ & Htl & Hdl & _) H.
  apply update_time_display_Ok in H as (tl & dl & o4 & o5 & Htl' & Hdl' & Ho4 & Ho5 & _ & _ & ->).
  rewrite Htl in Htl'. rewrite Hdl in Hdl'. injection Htl' as <-. injection Hdl' as <-.
  unfold refreshed, with_obj, is_hidden, obj_at. cbn.
  rewrite !length_insert. rewrite !list_lookup_insert_ne by lia. done.
Qed.

Lemma refresh_total e s :
  ui_inv s -> tm_wf (localtime e (now e)) -> exists s', update_time_display e s = Ok (tt, s').
Proof.
  intros (_ & _ & Htl & Hdl & _ & _ & Hlen & _) Hwf.
  destruct (lookup_lt_is_Some_2 (objs (lv s)) 4) as [o4 Ho4]; [lia|].
  unfold update_time_display, bind, ask.
  rewrite strftime_time by done. unfold global. rewrite Htl.
  unfold lv_label_set_text. rewrite (update_obj_Some _ _ _ _ _ Ho4).
  rewrite strftime_date by done. cbn [g with_obj]. rewrite Hdl.
  destruct (lookup_lt_is_Some_2 (<[4%nat:=set_text (time_text (localtime e (now e))) o4]> (objs (lv s))) 5)
    as [o5 Ho5]; [rewrite length_insert; lia|].
  erewrite update_obj_Some; [by eexists | exact Ho5].
Qed.

Lemma lv_timer_exec_unfold id e s :
  lv_timer_exec id e s
  = match timer_lookup id (timers (lv s)) with
    | None => Ok (tt, s)
    | Some t =>
        if period t <=? tick e - last_run t then
          (set_lv (fun l => with_timers (timer_update id (fired (tick e)) (timers l)) l) ;;
           run_timer_cb (timer_cb t) ;;
           finish_timer id) e s
        else Ok (tt, s)
    end.
Proof.
  unfold lv_timer_exec, bind at 1 2, ask, get.
  destruct (timer_lookup id (timers (lv s))) as [t|]; [|done].
  by destruct (period t <=? tick e - last_run t).
Qed.

Lemma exec_clock_pending df e0 e s s' :
  phase_pending df e0 s -> lv_timer_exec 1%nat e s = Ok (tt, s') -> phase_pending df e0 s'.
Proof.
  intros (Hi & [lr Ht] & Hs & H1 & H3) H.
  rewrite lv_timer_exec_unfold, Ht in H. cbn [timer_lookup Nat.eqb clock_tm period last_run timer_cb] in H.
  destruct (1000 <=? tick e - lr); [|injection H as <-; split; [done|]; split; [by exists lr | done]].
  apply bind_Ok in H as (? & s1 & Hs1 & H). injection Hs1 as <- <-.
  apply bind_Ok in H as (? & s2 & Hs2 & H). cbn [run_timer_cb] in Hs2. unfold clock_update_cb in Hs2.
  apply refresh_effect in Hs2 as (Hg2 & Ht2 & Htr2 & Hl2 & Hh1 & Hh3).
  2:{ unfold ui_inv in *. cbn. done. }
  unfold finish_timer in H. apply bind_Ok in H as (? & ? & [= <- <-] & H).
  rewrite Ht2 in H. cbn [lv timers with_timers] in H. rewrite Ht in H.
  cbn in H. injection H as <-.
  unfold phase_pending, ui_inv, switched. rewrite Hg2, Ht2, Htr2, Hl2, Hh1, Hh3. cbn.
  rewrite Ht. cbn. repeat split; try apply Hi; try done. by eexists.
Qed.

Lemma exec_clock_fired e s s' :
  phase_fired s -> lv_timer_exec 1%nat e s = Ok (tt, s') -> phase_fired s'.
Proof.
  intros (Hi & [lr Ht] & Hs & H1 & H3) H.
  rewrite lv_timer_exec_unfold, Ht in H. cbn [timer_lookup Nat.eqb clock_tm period last_run timer_cb] in H.
  destruct (1000 <=? tick e - lr); [|injection H as <-; split; [done|]; split; [by exists lr | done]].
  apply bind_Ok in H as (? & s1 & Hs1 & H). injection Hs1 as <- <-.
  apply bind_Ok in H as (? & s2 & Hs2 & H). cbn [run_timer_cb] in Hs2. unfold clock_update_cb in Hs2.
  apply refresh_effect in Hs2 as (Hg2 & Ht2 & Htr2 & Hl2 & Hh1 & Hh3).
  2:{ unfold ui_inv in *. cbn. done. }
  unfold finish_timer in H. apply bind_Ok in H as (? & ? & [= <- <-] & H).
  rewrite Ht2 in H. cbn [lv timers with_timers] in H. rewrite Ht in H.
  cbn in H. injection H as <-.
  unfold phase_fired, ui_inv, switched. rewrite Hg2, Ht2, Htr2, Hl2, Hh1, Hh3. cbn.
  rewrite Ht. cbn. repeat split; try apply Hi; try done. by eexists.
Qed.

Lemma loading_timer_cb_effect e s :
  ui_inv s ->
  exists o1 o3,
    objs (lv s) !! 1%nat = Some o1 /\ objs (lv s) !! 3%nat = Some o3 /\
    loading_timer_cb e s
    = Ok (tt, emit [printf (line "Switched to time display")]
                (with_obj 3%nat (unhide o3) (with_obj 1%nat (hide o1) s))).
Proof.
  intros (Hls & Hts & _ & _ & _ & _ & Hlen & _).
  destruct (lookup_lt_is_Some_2 (objs (lv s)) 1) as [o1 Ho1]; [lia|].
  destruct (lookup_lt_is_Some_2 (objs (lv s)) 3) as [o3 Ho3]; [lia|].
  exists o1, o3. split; [done|]. split; [done|].
  unfold loading_timer_cb, bind, global. rewrite Hls.
  unfold lv_obj_add_flag. rewrite (update_obj_Some _ _ _ _ _ Ho1).
  cbn [g with_obj]. rewrite Hts.
  unfold lv_obj_clear_flag. erewrite update_obj_Some.
  2:{ cbn. rewrite list_lookup_insert_ne by lia. exact Ho3. }
  reflexivity.
Qed.

Lemma transition_effect s o1 o3 :
  objs (lv s) !! 1%nat = Some o1 -> objs (lv s) !! 3%nat = Some o3 ->
  let s' := emit [printf (line "Switched to time display")]
              (with_obj 3%nat (unhide o3) (with_obj 1%nat (hide o1) s)) in
  g s' = g s /\ timers (lv s') = timers (lv s) /\
  length (objs (lv s')) = length (objs (lv s)) /\
  switched s' = S (switched s) /\
  is_hidden (Some 1%nat) s' = Some true /\ is_hidden (Some 3%nat) s' = Some false.
Proof.
  intros Ho1 Ho3 s'. subst s'. unfold emit, with_obj, switched, is_hidden, obj_at.
  cbn [g lv trace objs timers with_objs].
  rewrite !length_insert. rewrite count_ev_app.
  change (count_ev is_switch [printf (line "Switched to time display")]) with 1%nat.
  rewrite list_lookup_insert_ne by lia.
  rewrite !list_lookup_insert_eq by (rewrite ?length_insert; by eapply lookup_lt_Some).
  cbn [fmap option_fmap option_map]. unfold lv_obj_has_flag, hide, unhide. cbn [obj_flags set_flags].
  rewrite hidden_after_add, hidden_after_clear.
  repeat split; try done. lia.
Qed.

Lemma ui_inv_ext s s' :
  g s' = g s -> length (objs (lv s')) = length (objs (lv s)) -> ui_inv s -> ui_inv s'.
Proof. intros Hg Hl Hi. unfold ui_inv in *. by rewrite Hg, Hl. Qed.

Lemma exec_splash_pending df e0 e s s' :
  phase_pending df e0 s -> lv_timer_exec 0%nat e s = Ok (tt, s') ->
  if 4000 <=? tick e - tick e0 then phase_fired s' else s' = s.
Proof.
  intros (Hi & [lr Ht] & Hs & H1 & H3) H.
  rewrite lv_timer_exec_unfold, Ht in H.
  cbn [timer_lookup Nat.eqb splash_tm period last_run timer_cb] in H.
  destruct (4000 <=? tick e - tick e0); [|by injection H as <-].
  apply bind_Ok in H as (? & s1 & Hs1 & H).
  change (set_lv _ e s) with (Ok (tt, set_timers (timer_update 0%nat (fired (tick e)) (timers (lv s))) s))
    in Hs1.
  injection Hs1 as <- <-. rewrite Ht in H.
  remember (set_timers _ s) as s1 eqn:Es1.
  assert (Hf1 : g s1 = g s /\ objs (lv s1) = objs (lv s)
                /\ timers (lv s1) = [(1%nat, clock_tm lr); (0%nat, fired (tick e) (splash_tm (tick e0)))]
                /\ trace s1 = trace s) by (by subst s1).
  clear Es1. destruct Hf1 as (Hg1 & Ho1' & Ht1 & Htr1).
  assert (Hi1 : ui_inv s1) by (eapply ui_inv_ext; [done | by rewrite Ho1' | done]).
  apply bind_Ok in H as (? & s2 & Hs2 & H). cbn [run_timer_cb] in Hs2.
  destruct (loading_timer_cb_effect e s1 Hi1) as (o1 & o3 & Ho1 & Ho3 & Hcb).
  rewrite Hcb in Hs2. injection Hs2 as <- <-.
  destruct (transition_effect _ o1 o3 Ho1 Ho3) as (Hg2 & Ht2 & Hl2 & Hsw & Hh1 & Hh3).
  remember (emit _ _) as s2 eqn:Es2. clear Es2 Hcb.
  unfold finish_timer in H. apply bind_Ok in H as (? & ? & [= <- <-] & H).
  rewrite Ht2, Ht1 in H. cbn [timer_lookup Nat.eqb fired repeat_count splash_tm Z.ltb Z.compare] in H.
  change (1 - 1 =? 0) with true in H. cbv iota in H.
  change (set_lv _ e s2) with (Ok (tt, set_timers (timer_remove 0%nat (timers (lv s2))) s2)) in H.
  injection H as <-. rewrite Ht2, Ht1. cbn [timer_remove Nat.eqb].
  unfold phase_fired. split; [|split; [|split; [|split]]].
  - eapply ui_inv_ext; [| |exact Hi1]; [by rewrite <- Hg2 | by rewrite <- Hl2].
  - by exists lr.
  - unfold switched in *. cbn [trace set_timers]. rewrite Hsw, Htr1. lia.
  - exact Hh1.
  - exact Hh3.
Qed.

Lemma run_timers_pending df e0 e s s' :
  phase_pending df e0 s -> run_timers [1%nat; 0%nat] e s = Ok (tt, s') ->
  if 4000 <=? tick e - tick e0 then phase_fired s' else phase_pending df e0 s'.
Proof.
  intros Hp H. cbn [run_timers] in H.
  apply bind_Ok in H as ([] & s1 & H1 & H).
  apply (exec_clock_pending df e0) in H1; [|done].
  apply bind_Ok in H as ([] & s2 & H2 & H). injection H as <-.
  apply (exec_splash_pending df e0) in H2; [|done].
  destruct (4000 <=? tick e - tick e0); [done | by subst].
Qed.

Lemma run_timers_fired e s s' :
  phase_fired s -> run_timers [1%nat] e s = Ok (tt, s') -> phase_fired s'.
Proof.
  intros Hp H. cbn [run_timers] in H.
  apply bind_Ok in H as ([] & s1 & H1 & H). injection H as <-.
  by apply exec_clock_fired in H1.
Qed.

Lemma benign_handler_tail : benign handler_tail.
Proof.
  unfold handler_tail.
  apply benign_bind; [apply benign_ask | intros e].
  apply benign_bind; [apply benign_get | intros s].
  apply benign_bind.
  - destruct (indev_registered (lv s)); [apply benign_read_inputs | apply benign_ret].
  - intros _. destruct (disp_drv (lv s)); [apply benign_flush_all | apply benign_ret].
Qed.

Lemma lv_timer_handler_Ok e s u s' :
  lv_timer_handler e s = Ok (u, s') ->
  exists s1,
    run_timers (map fst (timers (lv s))) e (emit [lv_timer_handler_ev] s) = Ok (tt, s1) /\
    handler_tail e s1 = Ok (tt, s').
Proof.
  intros H. unfold lv_timer_handler in H.
  apply bind_Ok in H as ([] & s0 & H0 & H). injection H0 as <-.
  apply bind_Ok in H as (? & ? & [= <- <-] & H).
  apply bind_Ok in H as ([] & s1 & H1 & H).
  exists s1. split; [exact H1|]. destruct u. exact H.
Qed.

Lemma frame_emit evs s : count_ev is_switch evs = 0%nat -> frame s (emit evs s).
Proof. intros Hc. frame_fields. by exists evs. Qed.

Lemma handler_pending df e0 e s u s' :
  phase_pending df e0 s -> lv_timer_handler e s = Ok (u, s') ->
  if 4000 <=? tick e - tick e0 then phase_fired s' else phase_pending df e0 s'.
Proof.
  intros Hp H. apply lv_timer_handler_Ok in H as (s1 & H1 & H2).
  pose proof Hp as (_ & [lr Ht] & _). rewrite Ht in H1. cbn [map fst] in H1.
  apply (run_timers_pending df e0) in H1; [|by eapply pending_frame; [apply frame_emit|]].
  apply benign_handler_tail in H2.
  destruct (4000 <=? tick e - tick e0); [by eapply fired_frame | by eapply pending_frame].
Qed.

Lemma handler_fired e s u s' :
  phase_fired s -> lv_timer_handler e s = Ok (u, s') -> phase_fired s'.
Proof.
  intros Hp H. apply lv_timer_handler_Ok in H as (s1 & H1 & H2).
  pose proof Hp as (_ & [lr Ht] & _). rewrite Ht in H1. cbn [map fst] in H1.
  apply run_timers_fired in H1; [|by eapply fired_frame; [apply frame_emit|]].
  apply benign_handler_tail in H2. by eapply fired_frame.
Qed.

(** The loop body as: events and clearing, the handler, presenting. *)
Lemma loop_body_Ok e s quit s' :
  loop_body e s = Ok (quit, s') ->
  exists s1 s2,
    poll_events (pending e) false e s = Ok (quit, s1) /\
    lv_timer_handler e
      (emit [SDL_SetRenderDrawColor (renderer (g s1)) 0 0 0 255; SDL_RenderClear (renderer (g s1))] s1)
    = Ok (tt, s2) /\
    s' = emit [SDL_RenderPresent (renderer (g s2)); SDL_Delay 5] s2.
Proof.
  intros H. unfold loop_body in H.
  apply bind_Ok in H as (? & ? & [= <- <-] & H).
  apply bind_Ok in H as (q & s1 & H1 & H).
  apply bind_Ok in H as (? & ? & [= <- <-] & H).
  apply bind_Ok in H as ([] & ? & [= <-] & H).
  apply bind_Ok in H as (? & ? & [= <- <-] & H).
  apply bind_Ok in H as ([] & ? & [= <-] & H).
  apply bind_Ok in H as ([] & s2 & H2 & H).
  apply bind_Ok in H as (? & ? & [= <- <-] & H).
  apply bind_Ok in H as ([] & ? & [= <-] & H).
  apply bind_Ok in H as ([] & ? & [= <-] & H).
  injection H as <- <-.
  exists s1, s2. split; [done|]. split; [|by unfold emit; cbn; rewrite <- app_assoc].
  rewrite <- H2. f_equal. unfold emit. cbn. by rewrite <- app_assoc.
Qed.

Lemma loop_body_pending df e0 e s quit s' :
  phase_pending df e0 s -> loop_body e s = Ok (quit, s') ->
  if 4000 <=? tick e - tick e0 then phase_fired s' else phase_pending df e0 s'.
Proof.
  intros Hp H. apply loop_body_Ok in H as (s1 & s2 & H1 & H2 & ->).
  apply benign_poll_events in H1.
  apply (handler_pending df e0) in H2.
  2:{ eapply pending_frame; [apply frame_emit; done|]. by eapply pending_frame. }
  destruct (4000 <=? tick e - tick e0);
    [eapply fired_frame | eapply pending_frame]; try exact H2; by apply frame_emit.
Qed.

Lemma loop_body_fired e s quit s' :
  phase_fired s -> loop_body e s = Ok (quit, s') -> phase_fired s'.
Proof.
  intros Hp H. apply loop_body_Ok in H as (s1 & s2 & H1 & H2 & ->).
  apply benign_poll_events in H1.
  apply handler_fired in H2.
  2:{ eapply fired_frame; [apply frame_emit; done|]. by eapply fired_frame. }
  eapply fired_frame; [|exact H2]. by apply frame_emit.
Qed.

Lemma reachable_phase df e0 s :
  reachable df e0 s -> phase_pending df e0 s \/ phase_fired s.
Proof.
  induction 1 as [h s H | s e quit s' _ IH H].
  - left. by eapply startup_pending.
  - destruct IH as [Hp | Hf].
    + apply (loop_body_pending df e0) in H; [|done].
      destruct (4000 <=? tick e - tick e0); [by right | by left].
    + right. by eapply loop_body_fired.
Qed.

Lemma sample_reachable : reachable sample_flags (sample_env 0 []) sample_state.
Proof. apply (reach_start _ _ sample_host). vm_compute. reflexivity. Qed.

Lemma phase_handles df e0 s :
  phase_pending df e0 s \/ phase_fired s -> ui_inv s.
Proof. by intros [(Hi & _) | (Hi & _)]. Qed.

Lemma pending_showing df e0 s :
  hidden_by_default df = false -> phase_pending df e0 s -> showing_loading s.
Proof.
  intros Hdf ((Hls & Hts & _) & _ & _ & H1 & H3). unfold showing_loading.
  by rewrite Hls, Hts, H1, H3, Hdf.
Qed.

Lemma fired_showing s : phase_fired s -> showing_clock s.
Proof.
  intros ((Hls & Hts & _) & _ & _ & H1 & H3). unfold showing_clock.
  by rewrite Hls, Hts, H1, H3.
Qed.

(** Claim C1 (exclusive visibility).  Provided the toolkit creates objects
    visible: when the start-up enters the main loop the Loading Screen is
    visible and the Clock Screen hidden; between any two iterations of the
    loop exactly one of the two is visible, the Loading Screen as long as
    the transition callback has not run and the Clock Screen once it has;
    one invocation of the callback performs both changes; the Clock
    picture, once shown, stays through every further iteration; and the
    state in which the toolkit starts redrawing (all due timers have run)
    shows exactly one of the two as well, so the state between the two
    changes is never drawn. *)
Theorem exclusive_visibility df e0 :
  hidden_by_default df = false ->
  (forall h s, main df h [] e0 initial_state = Ok (Running, s) -> showing_loading s)
  /\ (forall s, reachable df e0 s ->
        (switched s = 0%nat /\ showing_loading s) \/ (switched s = 1%nat /\ showing_clock s))
  /\ (forall s e, reachable df e0 s ->
        exists s', loading_timer_cb e s = Ok (tt, s') /\
                   switched s' = S (switched s) /\ showing_clock s')
  /\ (forall s e quit s', reachable df e0 s -> loop_body e s = Ok (quit, s') ->
        showing_clock s -> showing_clock s')
  /\ (forall s e s1, reachable df e0 s ->
        run_timers (map fst (timers (lv s))) e (emit [lv_timer_handler_ev] s) = Ok (tt, s1) ->
        showing_loading s1 \/ showing_clock s1).
Proof.
  intros Hdf. split; [|split; [|split; [|split]]].
  - intros h s H. apply startup_pending in H. by eapply pending_showing.
  - intros s Hr. destruct (reachable_phase _ _ _ Hr) as [Hp | Hf].
    + left. split; [by destruct Hp as (_ & _ & Hs & _) | by eapply pending_showing].
    + right. split; [by destruct Hf as (_ & _ & Hs & _) | by apply fired_showing].
  - intros s e Hr. pose proof (phase_handles _ _ _ (reachable_phase _ _ _ Hr)) as Hi.
    destruct (loading_timer_cb_effect e s Hi) as (o1 & o3 & Ho1 & Ho3 & Hcb).
    destruct (transition_effect s o1 o3 Ho1 Ho3) as (Hg & _ & _ & Hsw & Hh1 & Hh3).
    eexists. split; [exact Hcb|]. split; [exact Hsw|]. unfold showing_clock. rewrite Hg.
    destruct Hi as (Hls & Hts & _). by rewrite Hls, Hts.
  - intros s e quit s' Hr H [_ Hc]. destruct (reachable_phase _ _ _ Hr) as [Hp | Hf].
    + destruct Hp as ((_ & Hts & _) & _ & _ & _ & H3). rewrite Hts, H3 in Hc. done.
    + apply fired_showing. by eapply loop_body_fired.
  - intros s e s1 Hr H. destruct (reachable_phase _ _ _ Hr) as [Hp | Hf].
    + pose proof Hp as (_ & [lr Ht] & _). rewrite Ht in H. cbn [map fst] in H.
      apply (run_timers_pending df e0) in H; [|by eapply pending_frame; [apply frame_emit|]].
      destruct (4000 <=? tick e - tick e0);
        [right; by apply fired_showing | left; by eapply pending_showing].
    + pose proof Hf as (_ & [lr Ht] & _). rewrite Ht in H. cbn [map fst] in H.
      apply run_timers_fired in H; [|by eapply fired_frame; [apply frame_emit|]].
      right. by apply fired_showing.
Qed.

Lemma exclusive_visibility_witness :
  hidden_by_default sample_flags = false /\
  ((switched sample_state = 0%nat /\ showing_loading sample_state)
   \/ (switched sample_state = 1%nat /\ showing_clock sample_state)).
Proof.
  split; [reflexivity|].
  exact (proj1 (proj2 (exclusive_visibility sample_flags (sample_env 0 []) eq_refl))
           sample_state sample_reachable).
Defined.

Lemma set_text_same o : set_text (obj_text o) o = o.
Proof. by destruct o. Qed.

Lemma set_text_twice t t' o : set_text t (set_text t' o) = set_text t o.
Proof. done. Qed.

Lemma with_obj_id h o s : objs (lv s) !! h = Some o -> with_obj h o s = s.
Proof.
  intros Ho. unfold with_obj, with_objs. rewrite (list_insert_id _ _ _ Ho).
  by destruct s as [? [] ?].
Qed.

Lemma refresh_idempotent e s s' :
  ui_inv s -> tm_wf (localtime e (now e)) ->
  update_time_display e s = Ok (tt, s') -> update_time_display e s' = Ok (tt, s').
Proof.
  intros Hi Hwf H.
  assert (Hi' : ui_inv s').
  { destruct (refresh_effect e s tt s' Hi H) as (Hg & _ & _ & Hl & _).
    by eapply ui_inv_ext. }
  destruct (refresh_total e s' Hi' Hwf) as [s'' H']. rewrite H'. do 2 f_equal.
  pose proof Hi as (_ & _ & Htl & Hdl & _ & _ & Hlen & _).
  apply update_time_display_Ok in H as (tl & dl & o4 & o5 & Htl1 & Hdl1 & Ho4 & Ho5 & _ & _ & ->).
  rewrite Htl in Htl1. rewrite Hdl in Hdl1. injection Htl1 as <-. injection Hdl1 as <-.
  apply update_time_display_Ok in H' as (tl & dl & p4 & p5 & Htl2 & Hdl2 & Hp4 & Hp5 & _ & _ & ->).
  change (g (refreshed 4 5 o4 o5 (localtime e (now e)) s)) with (g s) in Htl2, Hdl2.
  rewrite Htl in Htl2. rewrite Hdl in Hdl2. injection Htl2 as <-. injection Hdl2 as <-.
  set (T := format_tm "%H:%M:%S" (localtime e (now e))) in *.
  set (D := format_tm "%a, %b %d %Y" (localtime e (now e))) in *.
  change (objs (lv (refreshed 4 5 o4 o5 (localtime e (now e)) s)))
    with (<[5%nat := set_text D o5]> (<[4%nat := set_text T o4]> (objs (lv s)))) in Hp4, Hp5.
  rewrite list_lookup_insert_ne in Hp4 by lia.
  rewrite list_lookup_insert_eq in Hp4 by lia. injection Hp4 as <-.
  rewrite set_text_twice in Hp5.
  rewrite list_lookup_insert_ne in Hp5 by lia.
  rewrite list_lookup_insert_eq in Hp5 by (rewrite length_insert; lia). injection Hp5 as <-.
  unfold refreshed at 1. fold T D. rewrite !set_text_twice.
  rewrite (with_obj_id 4 (set_text T o4)).
  - apply with_obj_id.
    change (objs (lv (refreshed 4 5 o4 o5 (localtime e (now e)) s)))
      with (<[5%nat := set_text D o5]> (<[4%nat := set_text T o4]> (objs (lv s)))).
    by rewrite list_lookup_insert_eq by (rewrite length_insert; lia).
  - change (objs (lv (refreshed 4 5 o4 o5 (localtime e (now e)) s)))
      with (<[5%nat := set_text D o5]> (<[4%nat := set_text T o4]> (objs (lv s)))).
    rewrite list_lookup_insert_ne by lia.
    by rewrite list_lookup_insert_eq by lia.
Qed.

(** Claim C9 (frame property of the clock refresh).  In any state the
    program can be in between two loop iterations, and for any proper
    clock reading, the refresh returns; it leaves the globals, the trace,
    the timers and the drivers as they were; it creates no object; every
    object other than the two labels is untouched, and an object that
    changes does so in its text only (flags, styles, size, alignment and
    parent stay); the Time and Date labels carry the formatted time and
    date; and a second refresh under the same clock reading yields the
    very same state. *)
Theorem refresh_frame df e0 s e :
  reachable df e0 s -> tm_wf (localtime e (now e)) ->
  exists s',
    update_time_display e s = Ok (tt, s')
    /\ g s' = g s /\ trace s' = trace s
    /\ timers (lv s') = timers (lv s) /\ next_timer (lv s') = next_timer (lv s)
    /\ act_scr (lv s') = act_scr (lv s) /\ disp_drv (lv s') = disp_drv (lv s)
    /\ indev_registered (lv s') = indev_registered (lv s) /\ indev_data (lv s') = indev_data (lv s)
    /\ length (objs (lv s')) = length (objs (lv s))
    /\ (forall p, p <> time_label (g s) -> p <> date_label (g s) -> obj_at p s' = obj_at p s)
    /\ (forall p o, obj_at p s = Some o -> exists t, obj_at p s' = Some (set_text t o))
    /\ label_text (time_label (g s)) s' = Some (time_text (localtime e (now e)))
    /\ label_text (date_label (g s)) s' = Some (date_text (localtime e (now e)))
    /\ update_time_display e s' = Ok (tt, s').
Proof.
  intros Hr Hwf. pose proof (phase_handles _ _ _ (reachable_phase _ _ _ Hr)) as Hi.
  destruct (refresh_total e s Hi Hwf) as [s' H]. exists s'. split; [exact H|].
  pose proof Hi as (_ & _ & Htl & Hdl & _ & _ & Hlen & _).
  pose proof H as H'.
  apply update_time_display_Ok in H' as (tl & dl & o4 & o5 & Htl' & Hdl' & Ho4 & Ho5 & _ & _ & ->).
  rewrite Htl in Htl'. rewrite Hdl in Hdl'. injection Htl' as <-. injection Hdl' as <-.
  rewrite list_lookup_insert_ne in Ho5 by lia.
  rewrite Htl, Hdl.
  unfold refreshed, with_obj, label_text, obj_at in *.
  rewrite format_time, format_date in * by done. cbn [g lv trace objs timers next_timer act_scr
    disp_drv indev_registered indev_data with_objs] in *.
  rewrite !length_insert.
  do 9 (split; [done|]). split; [|split; [|split; [|split]]].
  - intros [h|] H4 H5; [|done]. cbv beta iota.
    rewrite !list_lookup_insert_ne; [done | by intros <- | by intros <-].
  - intros [h|] o Ho; [|done]. cbv beta iota in Ho |- *.
    destruct (decide (h = 5%nat)) as [->|H5].
    { rewrite list_lookup_insert_eq by (rewrite length_insert; lia).
      rewrite Ho5 in Ho. injection Ho as <-. by eexists. }
    rewrite list_lookup_insert_ne by done.
    destruct (decide (h = 4%nat)) as [->|H4].
    { rewrite list_lookup_insert_eq by lia.
      rewrite Ho4 in Ho. injection Ho as <-. by eexists. }
    rewrite list_lookup_insert_ne by done. rewrite Ho.
    exists (obj_text o). by rewrite set_text_same.
  - rewrite list_lookup_insert_ne by lia. by rewrite list_lookup_insert_eq by lia.
  - by rewrite list_lookup_insert_eq by (rewrite length_insert; lia).
  - exact (refresh_idempotent e s _ Hi Hwf H).
Qed.

Lemma refresh_frame_witness :
  tm_wf (localtime (sample_env 0 []) (now (sample_env 0 []))) /\
  exists s', update_time_display (sample_env 0 []) sample_state = Ok (tt, s')
             /\ update_time_display (sample_env 0 []) s' = Ok (tt, s').
Proof.
  assert (Hwf : tm_wf (localtime (sample_env 0 []) (now (sample_env 0 []))))
    by (unfold tm_wf, INT_MIN, INT_MAX; cbn; lia).
  split; [exact Hwf|].
  destruct (refresh_frame sample_flags (sample_env 0 []) sample_state (sample_env 0 [])
              sample_reachable Hwf) as (s' & H & Hrest).
  exists s'. split; [exact H|]. apply Hrest.
Defined.

Lemma refresh_fault e s f :
  ui_inv s -> update_time_display e s = Fault f -> f = Truncated.
Proof.
  intros (_ & _ & Htl & Hdl & _ & _ & Hlen & _) H.
  apply update_time_display_Fault in H as [H | [[_ [H|H]] | [_ [H|H]]]]; try done.
  - by rewrite Htl in H.
  - by rewrite Hdl in H.
  - rewrite Htl in H. cbv beta iota delta [obj_at] in H. apply lookup_ge_None in H. lia.
  - rewrite Hdl in H. cbv beta iota delta [obj_at] in H. apply lookup_ge_None in H. lia.
Qed.

(** Claim C10 (callback null-safety).  In any state the program can be in
    between two loop iterations (so after a completed start-up) the four
    object globals are non-null and point to live objects;
    [loading_timer_cb] succeeds; and [clock_update_cb] and
    [update_time_display] never take a null or dangling branch: the only
    fault left to them is a clock reading whose text does not fit the
    buffer. *)
Theorem callbacks_null_safe df e0 s e :
  reachable df e0 s ->
  (is_Some (obj_at (loading_screen (g s)) s) /\ is_Some (obj_at (time_screen (g s)) s) /\
   is_Some (obj_at (time_label (g s)) s) /\ is_Some (obj_at (date_label (g s)) s))
  /\ (exists s', loading_timer_cb e s = Ok (tt, s'))
  /\ (forall f, clock_update_cb e s = Fault f -> f = Truncated)
  /\ (forall f, update_time_display e s = Fault f -> f = Truncated).
Proof.
  intros Hr. pose proof (phase_handles _ _ _ (reachable_phase _ _ _ Hr)) as Hi.
  split; [|split; [|split]].
  - destruct Hi as (Hls & Hts & Htl & Hdl & _ & _ & Hlen & _).
    rewrite Hls, Hts, Htl, Hdl. unfold obj_at.
    repeat split; apply lookup_lt_is_Some_2; lia.
  - destruct (loading_timer_cb_effect e s Hi) as (o1 & o3 & _ & _ & Hcb). by eexists.
  - intros f. by apply refresh_fault.
  - intros f. by apply refresh_fault.
Qed.

Lemma callbacks_null_safe_witness :
  exists s', loading_timer_cb (sample_env 4000 []) sample_state = Ok (tt, s').
Proof.
  exact (proj1 (proj2 (callbacks_null_safe sample_flags (sample_env 0 []) sample_state
                         (sample_env 4000 []) sample_reachable))).
Defined.

(** Before the screens exist the same callbacks do dereference NULL. *)
Lemma callbacks_need_startup e :
  loading_timer_cb e initial_state = Fault NullPointer.
Proof. reflexivity. Qed.




(** ** Start-up failures *)

(** Claim C7 (start-up failure handling).  If the video subsystem fails to
    initialise, [main] prints the diagnostic and returns 1 with nothing
    torn down; if the window cannot be created it prints the diagnostic,
    calls [SDL_Quit] and returns 1; if the renderer cannot be created it
    prints the diagnostic, destroys the window, calls [SDL_Quit] and
    returns 1.  In each case every platform request appears once in the
    trace and the toolkit state is still the initial one: no screen, no
    widget, no timer. *)
Theorem startup_failure df h frames e0 :
  (sdl_init_ret h <> 0 ->
     main df h frames e0 initial_state
     = Ok (Exited 1,
           emit (banner ++ [SDL_Init SDL_INIT_VIDEO (sdl_init_ret h);
                            SDL_GetError (sdl_error h);
                            printf (line ("SDL_Init Error: " ++ sdl_error h))])
                initial_state))
  /\ (sdl_init_ret h = 0 -> sdl_window_ret h = None ->
        main df h frames e0 initial_state
        = Ok (Exited 1,
              emit (banner ++ [SDL_Init SDL_INIT_VIDEO 0;
                               create_window_ev None;
                               SDL_GetError (sdl_error h);
                               printf (line ("SDL_CreateWindow Error: " ++ sdl_error h));
                               SDL_Quit])
                   initial_state))
  /\ (forall w, sdl_init_ret h = 0 -> sdl_window_ret h = Some w -> sdl_renderer_ret h = None ->
        main df h frames e0 initial_state
        = Ok (Exited 1,
              mk_state (with_window (Some w) initial_globals) initial_lvgl
                (banner ++ [SDL_Init SDL_INIT_VIDEO 0;
                            create_window_ev (Some w);
                            create_renderer_ev (Some w) None;
                            SDL_GetError (sdl_error h);
                            printf (line ("SDL_CreateRenderer Error: " ++ sdl_error h));
                            SDL_DestroyWindow (Some w);
                            SDL_Quit]))).
Proof.
  destruct h as [ir err w r]. cbn [sdl_init_ret sdl_error sdl_window_ret sdl_renderer_ret].
  split; [|split].
  - intros Hir. unfold main. cbn [sdl_init_ret sdl_error].
    unfold bind at 1 2 3. cbn [call].
    destruct (Z.eqb_spec ir 0); [done|]. reflexivity.
  - intros -> ->. reflexivity.
  - intros w' -> -> ->. reflexivity.
Qed.

Lemma startup_failure_witness :
  main sample_flags (mk_host 1 "no video" None None) [] (sample_env 0 []) initial_state
  = Ok (Exited 1,
        emit (banner ++ [SDL_Init SDL_INIT_VIDEO 1; SDL_GetError "no video";
                         printf (line "SDL_Init Error: no video")]) initial_state)
  /\ main sample_flags (mk_host 0 "no window" None None) [] (sample_env 0 []) initial_state
     = Ok (Exited 1,
           emit (banner ++ [SDL_Init SDL_INIT_VIDEO 0; create_window_ev None;
                            SDL_GetError "no window";
                            printf (line "SDL_CreateWindow Error: no window");
                            SDL_Quit]) initial_state)
  /\ main sample_flags (mk_host 0 "no renderer" (Some 7%nat) None) [] (sample_env 0 []) initial_state
     = Ok (Exited 1,
           mk_state (with_window (Some 7%nat) initial_globals) initial_lvgl
             (banner ++ [SDL_Init SDL_INIT_VIDEO 0; create_window_ev (Some 7%nat);
                         create_renderer_ev (Some 7%nat) None;
                         SDL_GetError "no renderer";
                         printf (line "SDL_CreateRenderer Error: no renderer");
                         SDL_DestroyWindow (Some 7%nat); SDL_Quit])).
Proof.
  split; [|split].
  - apply (proj1 (startup_failure sample_flags (mk_host 1 "no video" None None) []
                    (sample_env 0 []))).
    cbn. lia.
  - apply (proj1 (proj2 (startup_failure sample_flags (mk_host 0 "no window" None None) []
                           (sample_env 0 [])))); reflexivity.
  - apply (proj2 (proj2 (startup_failure sample_flags (mk_host 0 "no renderer" (Some 7%nat) None) []
                           (sample_env 0 []))) 7%nat); reflexivity.
Defined.

(** ** The input adapter *)

Lemma to_coord_small z : -32768 <= z <= 32767 -> to_coord z = z.
Proof. intros Hz. unfold to_coord. rewrite Z.mod_small by lia. lia. Qed.

Lemma to_coord_wraps z :
  -32768 <= to_coord z <= 32767 /\ exists k, to_coord z = z + 65536 * k.
Proof.
  unfold to_coord. pose proof (Z.mod_pos_bound (z + 32768) 65536 ltac:(lia)).
  split; [lia|]. exists (- ((z + 32768) / 65536)).
  pose proof (Z.div_mod (z + 32768) 65536 ltac:(lia)). lia.
Qed.

Lemma sdl_mouse_read_spec e s :
  sdl_mouse_read e s
  = Ok (mk_indev_data (to_coord (snd (fst (mouse e))), to_coord (snd (mouse e)))
          (if Z.land (fst (fst (mouse e))) SDL_BUTTON_LMASK =? 0
           then LV_INDEV_STATE_RELEASED else LV_INDEV_STATE_PRESSED),
        emit [SDL_GetMouseState (fst (fst (mouse e))) (snd (fst (mouse e))) (snd (mouse e));
              SDL_RenderGetLogicalSize (renderer (g s))] s).
Proof.
  unfold sdl_mouse_read, bind, ask. destruct (mouse e) as [[b x] y]. cbn [fst snd].
  unfold call, global, ret, emit. cbn [g lv trace]. by rewrite <- app_assoc.
Qed.

(** Claim C5 (input adapter), evaluated where it fails.  With the pointer
    on the bottom-right pixel of the 344x640 window and no button held, the
    read callback reports released and the point (343, 639) exactly as the
    platform gave it: a point outside the 172x320 logical space.  The call
    to [SDL_RenderGetLogicalSize] in between changes nothing. *)
Theorem mouse_read_reports_window_coordinates tk evs s :
  let e := mk_env tk 0 (fun _ => tm_zero) (0, 343, 639) evs 0 [] in
  in_window (343, 639)
  /\ sdl_mouse_read e s
     = Ok (mk_indev_data (343, 639) LV_INDEV_STATE_RELEASED,
           emit [SDL_GetMouseState 0 343 639; SDL_RenderGetLogicalSize (renderer (g s))] s)
  /\ ~ in_logical (343, 639).
Proof.
  intros e. split; [|split].
  - unfold in_window, SCREEN_WIDTH, SCREEN_HEIGHT. cbn. lia.
  - by rewrite sdl_mouse_read_spec.
  - unfold in_logical, SCREEN_WIDTH, SCREEN_HEIGHT. cbn. lia.
Qed.

(** ** The main loop *)

Lemma poll_events_spec evs : forall quit e s,
  poll_events evs quit e s = Ok (quit || existsb is_quit evs, emit (poll_trace evs) s).
Proof.
  induction evs as [|ev evs IH]; intros quit e s.
  - cbn [poll_events existsb]. rewrite orb_false_r. reflexivity.
  - cbn [poll_events]. unfold bind at 1. cbn [call]. rewrite IH.
    f_equal. f_equal.
    + cbn [existsb]. unfold is_quit at 2. by destruct (ev_type ev =? SDL_QUIT), quit.
    + unfold emit, poll_trace. cbn [g lv trace map]. by rewrite <- app_assoc.
Qed.

Lemma steady_benign {A} (m : M A) : benign m -> steady m.
Proof.
  intros Hm e s a s' H. destruct (Hm e s a s' H) as (Hg & _ & _ & Hd & Hi & evs & Ht & _).
  repeat split; try done. by exists evs.
Qed.

Lemma steady_bind {A B} (m : M A) (k : A -> M B) :
  steady m -> (forall a, steady (k a)) -> steady (bind m k).
Proof.
  intros Hm Hk e s b s' H. apply bind_Ok in H as (a & s1 & H1 & H2).
  destruct (Hm _ _ _ _ H1) as (Hg & Hd & Hi & evs & Ht).
  destruct (Hk _ _ _ _ _ H2) as (Hg' & Hd' & Hi' & evs' & Ht').
  repeat split; try congruence. exists (evs ++ evs'). rewrite Ht', Ht. by rewrite <- app_assoc.
Qed.

Lemma steady_set_timers f : steady (set_lv (fun l => with_timers (f (timers l)) l)).
Proof. intros e s a s' [= <- <-]. repeat split; try done. exists []. by rewrite app_nil_r. Qed.

Lemma steady_update_obj p f : steady (update_obj p f).
Proof.
  intros e s a s' H. apply update_obj_Ok in H as (h & o & _ & _ & ->).
  repeat split; try done. exists []. by rewrite app_nil_r.
Qed.

Lemma steady_update_time_display : steady update_time_display.
Proof.
  intros e s a s' H.
  apply update_time_display_Ok in H as (tl & dl & o4 & o5 & _ & _ & _ & _ & _ & _ & ->).
  repeat split; try done. exists []. by rewrite app_nil_r.
Qed.

Lemma steady_loading_timer_cb : steady loading_timer_cb.
Proof.
  unfold loading_timer_cb.
  apply steady_bind; [apply steady_benign, benign_global | intros p].
  apply steady_bind; [apply steady_update_obj | intros _].
  apply steady_bind; [apply steady_benign, benign_global | intros p'].
  apply steady_bind; [apply steady_update_obj | intros _].
  intros e s a s' [= <- <-]. repeat split; try done. by eexists.
Qed.

Lemma steady_finish_timer id : steady (finish_timer id).
Proof.
  unfold finish_timer. apply steady_bind; [apply steady_benign, benign_get | intros s0].
  destruct (timer_lookup id (timers (lv s0))) as [t|]; [|apply steady_benign, benign_ret].
  destruct (repeat_count t =? 0); [apply steady_set_timers | apply steady_benign, benign_ret].
Qed.

Lemma steady_lv_timer_exec id : steady (lv_timer_exec id).
Proof.
  intros e s a s' H. rewrite lv_timer_exec_unfold in H.
  destruct (timer_lookup id (timers (lv s))) as [t|].
  2:{ injection H as <- <-. repeat split; try done. exists []. by rewrite app_nil_r. }
  destruct (period t <=? tick e - last_run t).
  2:{ injection H as <- <-. repeat split; try done. exists []. by rewrite app_nil_r. }
  revert H. apply steady_bind; [apply steady_set_timers | intros _].
  apply steady_bind; [|intros _; apply steady_finish_timer].
  destruct (timer_cb t); [apply steady_loading_timer_cb | apply steady_update_time_display].
Qed.

Lemma steady_run_timers ids : steady (run_timers ids).
Proof.
  induction ids as [|id ids IH]; cbn [run_timers]; [apply steady_benign, benign_ret|].
  apply steady_bind; [apply steady_lv_timer_exec | intros _; apply IH].
Qed.

(** The handler: its marker first, then whatever the callbacks emit. *)
Lemma lv_timer_handler_trace e s u s' :
  lv_timer_handler e s = Ok (u, s') ->
  g s' = g s /\ exists evs, trace s' = trace s ++ lv_timer_handler_ev :: evs.
Proof.
  intros H. apply lv_timer_handler_Ok in H as (s1 & H1 & H2).
  apply steady_run_timers in H1 as (Hg1 & _ & _ & evs1 & Ht1).
  apply (steady_benign _ benign_handler_tail) in H2 as (Hg2 & _ & _ & evs2 & Ht2).
  split; [by rewrite Hg2, Hg1|]. exists (evs1 ++ evs2).
  rewrite Ht2, Ht1. unfold emit. cbn [trace]. by rewrite <- !app_assoc.
Qed.

(** One iteration, step by step. *)
Lemma loop_body_shape e s quit s' :
  loop_body e s = Ok (quit, s') ->
  let rd := renderer (g s) in
  exists s2 evs,
    lv_timer_handler e (emit (poll_trace (pending e) ++ clear_trace rd) s) = Ok (tt, s2)
    /\ trace s2 = trace s ++ poll_trace (pending e) ++ clear_trace rd ++ lv_timer_handler_ev :: evs
    /\ s' = emit (present_trace rd) s2
    /\ g s' = g s
    /\ quit = has_quit e.
Proof.
  intros H rd. apply loop_body_Ok in H as (s1 & s2 & H1 & H2 & ->).
  rewrite poll_events_spec in H1. injection H1 as <- <-.
  cbn [g emit] in H2. rewrite emit_emit in H2.
  destruct (lv_timer_handler_trace _ _ _ _ H2) as (Hg & evs & Ht).
  exists s2, evs. split; [exact H2|]. cbn [g emit] in Hg.
  split; [|split; [|split]].
  - rewrite Ht. unfold emit. cbn [trace]. by rewrite <- !app_assoc.
  - by rewrite Hg.
  - cbn [g emit]. exact Hg.
  - done.
Qed.

Lemma event_loop_result frames : forall e s b s',
  event_loop frames e s = Ok (b, s') -> b = existsb has_quit frames /\ g s' = g s.
Proof.
  induction frames as [|f frames IH]; intros e s b s' H.
  - by injection H as <- <-.
  - cbn [event_loop] in H. apply bind_Ok in H as (quit & s1 & H1 & H).
    unfold with_env in H1. apply loop_body_shape in H1 as (_ & _ & _ & _ & _ & Hg & ->).
    cbn [existsb]. destruct (has_quit f).
    + by injection H as <- <-.
    + apply IH in H as [-> Hg']. split; [done | congruence].
Qed.

(** ** The whole program *)

Lemma main_started df err w r frames e0 :
  main df (mk_host 0 err (Some w) (Some r)) frames e0 initial_state
  = (setup_ui df ;; after_setup frames) e0 (entry_state w r).
Proof. reflexivity. Qed.

Lemma time_fits t :
  tm_wf t -> (Z.of_nat (String.length (format_tm "%H:%M:%S" t)) + 1 <=? 32) = true.
Proof. intros Ht. rewrite format_time by done. by rewrite time_text_length. Qed.

Lemma date_fits t :
  tm_wf t -> (Z.of_nat (String.length (format_tm "%a, %b %d %Y" t)) + 1 <=? 64) = true.
Proof.
  intros Ht. rewrite format_date by done. pose proof (date_text_length t Ht).
  apply Z.leb_le. lia.
Qed.

Lemma setup_ui_total df e0 w r :
  tm_wf (localtime e0 (now e0)) -> exists s0, setup_ui df e0 (entry_state w r) = Ok (tt, s0).
Proof.
  destruct e0 as [tk nw ltm ms pd pl rdw]. cbn [localtime now]. intros Hwf.
  pose proof (time_fits _ Hwf) as H1. pose proof (date_fits _ Hwf) as H2.
  cbv -[format_tm String.length Z.of_nat Z.add Z.leb Z.land Z.lor Z.lnot line append
        lv_color_black lv_color_white lv_color_make dec_z].
  rewrite H1, H2. by eexists.
Qed.

Lemma setup_ui_globals df e0 w r s0 :
  setup_ui df e0 (entry_state w r) = Ok (tt, s0) ->
  window (g s0) = Some w /\ renderer (g s0) = Some r.
Proof.
  destruct e0 as [tk nw ltm ms pd pl rdw]. intros H.
  cbv -[format_tm String.length Z.of_nat Z.add Z.leb Z.land Z.lor Z.lnot line append
        lv_color_black lv_color_white lv_color_make dec_z] in H.
  destruct (Z.of_nat (String.length (format_tm "%H:%M:%S" (ltm nw))) + 1 <=? 32); [|done].
  destruct (Z.of_nat (String.length (format_tm "%a, %b %d %Y" (ltm nw))) + 1 <=? 64); [|done].
  by injection H as <-.
Qed.

Lemma setup_is_startup df err w r e0 s0 :
  setup_ui df e0 (entry_state w r) = Ok (tt, s0) <->
  main df (mk_host 0 err (Some w) (Some r)) [] e0 initial_state = Ok (Running, s0).
Proof.
  rewrite main_started. unfold bind at 1. split.
  - by intros ->.
  - destruct (setup_ui df e0 (entry_state w r)) as [[[] s]|f]; [|done].
    cbv [after_setup event_loop bind ret]. by intros [= ->].
Qed.

(** ** Every step produces a result *)

Lemma finish_timer_clock e s lr rest :
  timers (lv s) = (1%nat, clock_tm lr) :: rest -> finish_timer 1%nat e s = Ok (tt, s).
Proof. intros Ht. unfold finish_timer, bind, get. by rewrite Ht. Qed.

Lemma exec_clock_total e s lr rest :
  ui_inv s -> timers (lv s) = (1%nat, clock_tm lr) :: rest -> tm_wf (localtime e (now e)) ->
  exists s', lv_timer_exec 1%nat e s = Ok (tt, s').
Proof.
  intros Hi Ht Hwf. rewrite lv_timer_exec_unfold, Ht.
  cbn [timer_lookup Nat.eqb clock_tm period last_run timer_cb].
  destruct (1000 <=? tick e - lr); [|by eexists].
  unfold bind at 1.
  change (set_lv _ e s)
    with (Ok (tt, set_timers (timer_update 1%nat (fired (tick e)) (timers (lv s))) s)).
  cbv beta iota. rewrite Ht. cbn [timer_update Nat.eqb].
  set (s1 := set_timers _ s).
  assert (Hi1 : ui_inv s1) by (by eapply ui_inv_ext; [| |exact Hi]).
  destruct (refresh_total e s1 Hi1 Hwf) as [s2 H2].
  unfold bind at 1. cbn [run_timer_cb]. unfold clock_update_cb. rewrite H2.
  destruct (refresh_effect e s1 tt s2 Hi1 H2) as (_ & Ht2 & _).
  erewrite finish_timer_clock; [by eexists|]. rewrite Ht2. reflexivity.
Qed.

Lemma exec_splash_total df e0 e s :
  phase_pending df e0 s -> exists s', lv_timer_exec 0%nat e s = Ok (tt, s').
Proof.
  intros (Hi & [lr Ht] & _). rewrite lv_timer_exec_unfold, Ht.
  cbn [timer_lookup Nat.eqb splash_tm period last_run timer_cb].
  destruct (4000 <=? tick e - tick e0); [|by eexists].
  unfold bind at 1.
  change (set_lv _ e s)
    with (Ok (tt, set_timers (timer_update 0%nat (fired (tick e)) (timers (lv s))) s)).
  cbv beta iota. rewrite Ht. cbn [timer_update Nat.eqb].
  set (s1 := set_timers _ s).
  assert (Hi1 : ui_inv s1) by (by eapply ui_inv_ext; [| |exact Hi]).
  destruct (loading_timer_cb_effect e s1 Hi1) as (o1 & o3 & Ho1 & Ho3 & Hcb).
  unfold bind at 1. cbn [run_timer_cb]. rewrite Hcb.
  destruct (transition_effect s1 o1 o3 Ho1 Ho3) as (_ & Ht2 & _).
  unfold finish_timer, bind, get. rewrite Ht2.
  subst s1. cbn [set_timers lv timers with_timers timer_lookup Nat.eqb].
  destruct (repeat_count _ =? 0); by eexists.
Qed.

Lemma read_inputs_total n : forall e s, exists s', read_inputs n e s = Ok (tt, s').
Proof.
  induction n as [|n IH]; intros e s; cbn [read_inputs]; [by eexists|].
  unfold bind at 1. rewrite sdl_mouse_read_spec. unfold bind at 1. cbn [set_lv]. apply IH.
Qed.

Lemma flush_all_total jobs : forall e s,
  Forall (fun job => covers (fst job) (snd job)) jobs -> exists s', flush_all jobs e s = Ok (tt, s').
Proof.
  induction jobs as [|[area color_p] jobs IH]; intros e s Hj; cbn [flush_all]; [by eexists|].
  apply Forall_cons in Hj as [Hc Hj]. cbn [fst snd] in Hc.
  unfold bind at 1. rewrite flush_trace by done. by apply IH.
Qed.

Lemma handler_tail_total e s : env_wf e -> exists s', handler_tail e s = Ok (tt, s').
Proof.
  intros [_ Hj]. unfold handler_tail, bind at 1 2, ask, get.
  assert (exists s1, (if indev_registered (lv s) then read_inputs (polls e) else ret tt) e s
                     = Ok (tt, s1)) as [s1 H1].
  { destruct (indev_registered (lv s)); [apply read_inputs_total | by eexists]. }
  unfold bind. rewrite H1.
  destruct (disp_drv (lv s)); [by apply flush_all_total | by eexists].
Qed.

Lemma handler_of_timers e s s1 s' :
  run_timers (map fst (timers (lv s))) e (emit [lv_timer_handler_ev] s) = Ok (tt, s1) ->
  handler_tail e s1 = Ok (tt, s') ->
  lv_timer_handler e s = Ok (tt, s').
Proof.
  intros H1 H2. unfold lv_timer_handler. unfold bind at 1. cbn [call].
  unfold bind at 1. cbn [get]. unfold bind at 1.
  change (mk_state (g s) (lv s) (trace s ++ [lv_timer_handler_ev]))
    with (emit [lv_timer_handler_ev] s).
  change (timers (lv (emit [lv_timer_handler_ev] s))) with (timers (lv s)).
  rewrite H1. exact H2.
Qed.

Lemma handler_total df e0 e s :
  phase_pending df e0 s \/ phase_fired s -> env_wf e ->
  exists s', lv_timer_handler e s = Ok (tt, s').
Proof.
  intros Hp Hwf. pose proof Hwf as [Htm _].
  set (s0 := emit [lv_timer_handler_ev] s).
  assert (exists s1, run_timers (map fst (timers (lv s))) e s0 = Ok (tt, s1)) as [s1 H1].
  { destruct Hp as [Hp | Hf].
    - assert (Hp0 : phase_pending df e0 s0) by (by eapply pending_frame; [apply frame_emit|]).
      pose proof Hp0 as (Hi & [lr Ht] & _).
      change (timers (lv s)) with (timers (lv s0)). rewrite Ht. cbn [map fst run_timers].
      destruct (exec_clock_total e s0 lr _ Hi Ht Htm) as [sa Ha].
      unfold bind at 1. rewrite Ha.
      destruct (exec_splash_total df e0 e sa (exec_clock_pending df e0 e s0 sa Hp0 Ha)) as [sb Hb].
      unfold bind at 1. rewrite Hb. by eexists.
    - assert (Hf0 : phase_fired s0) by (by eapply fired_frame; [apply frame_emit|]).
      pose proof Hf0 as (Hi & [lr Ht] & _).
      change (timers (lv s)) with (timers (lv s0)). rewrite Ht. cbn [map fst run_timers].
      destruct (exec_clock_total e s0 lr _ Hi Ht Htm) as [sa Ha].
      unfold bind at 1. rewrite Ha. by eexists. }
  destruct (handler_tail_total e s1 Hwf) as [s' H2].
  exists s'. by eapply handler_of_timers.
Qed.

Lemma loop_body_of_handler e s s2 :
  lv_timer_handler e (emit (poll_trace (pending e) ++ clear_trace (renderer (g s))) s) = Ok (tt, s2) ->
  loop_body e s = Ok (has_quit e, emit (present_trace (renderer (g s2))) s2).
Proof.
  intros H. unfold loop_body. unfold bind at 1. cbn [ask].
  unfold bind at 1. rewrite poll_events_spec.
  unfold bind at 1. cbn [global]. unfold bind at 1. cbn [call].
  unfold bind at 1. cbn [global]. unfold bind at 1. cbn [call].
  unfold bind at 1.
  change (to_uint8 0) with 0. change (to_uint8 255) with 255.
  cbn [g lv trace emit].
  match goal with
  | |- context [lv_timer_handler e ?st] =>
      replace st with (emit (poll_trace (pending e) ++ clear_trace (renderer (g s))) s)
        by (unfold emit, clear_trace; f_equal; by rewrite <- !app_assoc)
  end.
  rewrite H. unfold bind, global, call, ret, emit, present_trace, has_quit.
  cbn [g lv trace orb]. by rewrite <- app_assoc.
Qed.

Lemma loop_body_total df e0 e s :
  phase_pending df e0 s \/ phase_fired s -> env_wf e ->
  exists s', loop_body e s = Ok (has_quit e, s').
Proof.
  intros Hp Hwf.
  destruct (handler_total df e0 e (emit (poll_trace (pending e) ++ clear_trace (renderer (g s))) s))
    as [s2 H2]; [|done|].
  - destruct Hp as [Hp | Hf]; [left | right].
    + eapply pending_frame; [|exact Hp]. apply frame_emit.
      unfold poll_trace. rewrite !count_ev_app. cbn.
      induction (pending e) as [|ev evs IH]; [done | exact IH].
    + eapply fired_frame; [|exact Hf]. apply frame_emit.
      unfold poll_trace. rewrite !count_ev_app. cbn.
      induction (pending e) as [|ev evs IH]; [done | exact IH].
  - eexists. by apply loop_body_of_handler.
Qed.

Lemma event_loop_total df e0 frames : forall e s,
  phase_pending df e0 s \/ phase_fired s -> Forall env_wf frames ->
  exists s', event_loop frames e s = Ok (existsb has_quit frames, s').
Proof.
  induction frames as [|f frames IH]; intros e s Hp Hwf; [by eexists|].
  apply Forall_cons in Hwf as [Hf Hwf].
  destruct (loop_body_total df e0 f s Hp Hf) as [s1 H1].
  cbn [event_loop existsb]. unfold bind, with_env. rewrite H1.
  destruct (has_quit f); [by eexists|].
  apply IH; [|done].
  destruct Hp as [Hp | Hp].
  - apply (loop_body_pending df e0) in H1; [|done].
    destruct (4000 <=? tick f - tick e0); [by right | by left].
  - right. by eapply loop_body_fired.
Qed.

Lemma after_setup_run frames e s s1 :
  event_loop frames e s = Ok (existsb has_quit frames, s1) ->
  after_setup frames e s
  = if existsb has_quit frames
    then Ok (Exited 0, emit (cleanup_trace (renderer (g s)) (window (g s))) s1)
    else Ok (Running, s1).
Proof.
  intros H. pose proof (event_loop_result _ _ _ _ _ H) as [_ Hg].
  unfold after_setup. unfold bind at 1. rewrite H.
  destruct (existsb has_quit frames); [|done].
  unfold bind, global, call, ret, emit, cleanup_trace. cbn [g lv trace].
  rewrite Hg. do 2 f_equal. f_equal. by rewrite <- !app_assoc.
Qed.

(** ** The transition, counted *)

(** Claim C2, as amended (one-shot transition).  The splash timer is
    created with period 4000 ms and repeat count 1, its last run being the
    tick of the start-up.  The transition never fires more than once.  An
    iteration of the main loop entered before the transition fires it
    exactly when its tick is at least 4000 ms past the start-up tick, and
    never earlier; an iteration entered after the transition never fires
    it again.  After the transition the splash timer is no longer in the
    timer list, which holds clock timers only.  Every iteration with usable
    answers does complete, so the first one at or past 4000 ms does fire
    the transition.  (Whether there is such an iteration depends on the
    process living long enough: see [one_shot_counterexample].) *)
Theorem one_shot_transition df e0 :
  (forall h s, main df h [] e0 initial_state = Ok (Running, s) ->
     exists lt, loading_timer (g s) = Some lt /\
                timer_lookup lt (timers (lv s))
                = Some (mk_timer 4000 (tick e0) LOADING_TIMER_CB 1))
  /\ (forall s, reachable df e0 s -> (switched s <= 1)%nat)
  /\ (forall s e quit s', reachable df e0 s -> loop_body e s = Ok (quit, s') ->
        (switched s = 0%nat ->
           switched s' = if 4000 <=? tick e - tick e0 then 1%nat else 0%nat)
        /\ (switched s = 1%nat -> switched s' = 1%nat))
  /\ (forall s, reachable df e0 s -> switched s = 1%nat ->
        (forall lt, loading_timer (g s) = Some lt -> timer_lookup lt (timers (lv s)) = None)
        /\ (forall id t, timer_lookup id (timers (lv s)) = Some t -> timer_cb t = CLOCK_UPDATE_CB))
  /\ (forall s e, reachable df e0 s -> env_wf e ->
        exists s', loop_body e s = Ok (has_quit e, s')).
Proof.
  split; [|split; [|split; [|split]]].
  - intros h s H. apply startup_pending in H as ((_ & _ & _ & _ & Hlt & _) & [lr Ht] & _).
    exists 0%nat. split; [done|]. by rewrite Ht.
  - intros s Hr. destruct (reachable_phase _ _ _ Hr) as [Hp | Hf].
    + destruct Hp as (_ & _ & Hs & _). lia.
    + destruct Hf as (_ & _ & Hs & _). lia.
  - intros s e quit s' Hr H. destruct (reachable_phase _ _ _ Hr) as [Hp | Hf].
    + apply (loop_body_pending df e0 e s quit s' Hp) in H.
      pose proof Hp as (_ & _ & Hs & _). split; [|congruence]. intros _.
      destruct (4000 <=? tick e - tick e0).
      * by destruct H as (_ & _ & Hs' & _).
      * by destruct H as (_ & _ & Hs' & _).
    + apply (loop_body_fired e s quit s' Hf) in H.
      pose proof Hf as (_ & _ & Hs & _). destruct H as (_ & _ & Hs' & _).
      split; [congruence | done].
  - intros s Hr Hs. destruct (reachable_phase _ _ _ Hr) as [Hp | Hf].
    + destruct Hp as (_ & _ & Hs' & _). congruence.
    + destruct Hf as ((_ & _ & _ & _ & Hlt & _) & [lr Ht] & _). rewrite Ht. split.
      * intros lt Hlt'. rewrite Hlt in Hlt'. by injection Hlt' as <-.
      * intros [|[|id]] t Hl; cbn in Hl; try done. by injection Hl as <-.
  - intros s e Hr Hwf. eapply loop_body_total; [|exact Hwf]. by eapply reachable_phase.
Qed.

Lemma one_shot_transition_witness :
  (switched sample_state <= 1)%nat.
Proof.
  exact (proj1 (proj2 (one_shot_transition sample_flags (sample_env 0 [])))
           sample_state sample_reachable).
Defined.

(** Claim C2 as stated fails: a process whose window is closed 10 ms after
    the start-up exits with status 0 and the transition has fired zero
    times over its lifetime, not exactly once. *)
Lemma one_shot_counterexample :
  match main sample_flags sample_host [sample_env 10 [mk_event SDL_QUIT]] (sample_env 0 [])
             initial_state with
  | Ok (Exited 0, s) => switched s = 0%nat
  | _ => False
  end.
Proof. vm_compute. reflexivity. Qed.

(** ** More about the flush callback *)

Lemma flat_map_nil {A B} (l : list A) : flat_map (fun _ => @nil B) l = [].
Proof. induction l as [|a l IH]; [done | exact IH]. Qed.

Lemma zseq_neg lo z : z <= 0 -> zseq lo (Z.to_nat z) = [].
Proof. intros Hz. by replace (Z.to_nat z) with 0%nat by lia. Qed.

Lemma area_events_empty rd area color_p :
  x2 area < x1 area \/ y2 area < y1 area -> area_events rd area color_p = [].
Proof.
  unfold area_events, row_events, rows, columns. intros [Hx | Hy].
  - rewrite (zseq_neg (x1 area)) by lia. apply flat_map_nil.
  - by rewrite (zseq_neg (y1 area)) by lia.
Qed.

(** Property X1 (flush of an empty area).  When the area holds no pixel,
    its right edge left of its left edge or its bottom edge above its top
    edge, the flush callback draws nothing and reads nothing from the
    buffer (any buffer will do, the empty one too), and it still signals
    completion, once. *)
Theorem flush_empty_area area color_p e s :
  x2 area < x1 area \/ y2 area < y1 area ->
  sdl_display_flush area color_p e s = Ok (tt, emit [lv_disp_flush_ready] s).
Proof.
  intros Hempty. rewrite flush_trace by (intros ? ?; lia).
  by rewrite area_events_empty.
Qed.

Lemma flush_empty_area_witness :
  sdl_display_flush (mk_area 5 0 4 9) [] (sample_env 0 []) sample_state
  = Ok (tt, emit [lv_disp_flush_ready] sample_state).
Proof. apply flush_empty_area. left. cbn. lia. Defined.

Lemma for_count_fault (body : Z -> M unit) e f : forall n lo i s,
  lo <= i < lo + Z.of_nat n ->
  (forall j s', lo <= j < i -> exists s'', body j e s' = Ok (tt, s'')) ->
  (forall s', body i e s' = Fault f) ->
  for_count n lo body e s = Fault f.
Proof.
  induction n as [|n IH]; intros lo i s Hi Hok Hbad; [lia|].
  cbn [for_count]. unfold bind.
  destruct (Z.eq_dec lo i) as [->|Hne]; [by rewrite Hbad|].
  destruct (Hok lo s) as [s1 ->]; [lia|].
  apply (IH (lo + 1) i); [lia | | done].
  intros j s' Hj. apply Hok. lia.
Qed.

Lemma for_count_ok (body : Z -> M unit) e : forall n lo s,
  (forall j s', lo <= j < lo + Z.of_nat n -> exists s'', body j e s' = Ok (tt, s'')) ->
  exists s'', for_count n lo body e s = Ok (tt, s'').
Proof.
  induction n as [|n IH]; intros lo s Hok; cbn [for_count]; [by eexists|].
  unfold bind. destruct (Hok lo s) as [s1 ->]; [lia|].
  apply IH. intros j s' Hj. apply Hok. lia.
Qed.

(** One pixel: with an area whose pixel count is an [int], the only thing
    that can go wrong is the read of the buffer. *)
Lemma flush_pixel_reads area color_p x y e s :
  x1 area <= x <= x2 area -> y1 area <= y <= y2 area ->
  (x2 area - x1 area + 1) * (y2 area - y1 area + 1) <= INT_MAX ->
  flush_pixel area color_p y x e s
  = match color_p !! Z.to_nat (pixel_index area x y) with
    | Some c => Ok (tt, emit (pixel_events (renderer (g s)) c x y) s)
    | None => Fault OutOfBounds
    end.
Proof.
  intros Hx Hy Hmax.
  set (w := x2 area - x1 area + 1) in *. set (h := y2 area - y1 area + 1) in *.
  assert (Hidx : 0 <= pixel_index area x y < w * h).
  { unfold pixel_index. fold w. nia. }
  assert (Hw : 1 <= w <= INT_MAX) by (unfold INT_MAX in *; nia).
  assert (Hrow : 0 <= (y - y1 area) * w <= INT_MAX) by (unfold INT_MAX in *; nia).
  unfold flush_pixel, bind.
  rewrite (cint_ok (y - y1 area)) by (unfold INT_MIN, INT_MAX in *; nia). unfold ret at 1.
  rewrite (cint_ok (x2 area - x1 area)) by (unfold INT_MIN, INT_MAX in *; lia). unfold ret at 1.
  rewrite (cint_ok (x2 area - x1 area + 1)) by (unfold INT_MIN, INT_MAX in *; lia). unfold ret at 1.
  fold w.
  rewrite (cint_ok ((y - y1 area) * w)) by (unfold INT_MIN, INT_MAX in *; lia). unfold ret at 1.
  rewrite (cint_ok (x - x1 area)) by (unfold INT_MIN, INT_MAX in *; nia). unfold ret at 1.
  rewrite (cint_ok ((y - y1 area) * w + (x - x1 area)))
    by (unfold pixel_index in Hidx; fold w in Hidx; unfold INT_MIN, INT_MAX in *; lia).
  unfold ret at 1.
  unfold read_color. fold w. change ((y - y1 area) * w + (x - x1 area)) with (pixel_index area x y).
  destruct (Z.ltb_spec (pixel_index area x y) 0) as [?|_]; [lia|].
  destruct (color_p !! Z.to_nat (pixel_index area x y)) as [c|]; [|done].
  unfold ret, global, call, emit, pixel_events; simpl.
  pose proof (channel_R c). pose proof (channel_G c). pose proof (channel_B c).
  rewrite !uint8_shift by lia.
  rewrite <- app_assoc. reflexivity.
Qed.

(** Property X2 (the flush trusts its buffer).  The callback does not
    check the buffer against the area: the colour of the pixel (x, y) is
    read at index (y - y1) * w + (x - x1), w the area's width, whatever the
    buffer holds.  When the area is not empty, its pixel count is an [int],
    and the buffer holds n colours, fewer than the area has pixels, then
    the pixel at column x1 + n mod w of row y1 + n / w lies in the area and
    has index n; every pixel of the area with a smaller index is read
    inside the buffer and drawn in the colour found there; the read for the
    pixel of index n is past the end of the buffer, and so the flush of the
    whole area makes a read past the end of the buffer.  In C that read is
    undefined behaviour: the model stops at it and says nothing on what the
    program does afterwards. *)
Theorem flush_short_buffer area color_p e s :
  x1 area <= x2 area -> y1 area <= y2 area ->
  (x2 area - x1 area + 1) * (y2 area - y1 area + 1) <= INT_MAX ->
  Z.of_nat (length color_p) < (x2 area - x1 area + 1) * (y2 area - y1 area + 1) ->
  let w := x2 area - x1 area + 1 in
  let n := Z.of_nat (length color_p) in
  let x := x1 area + n mod w in
  let y := y1 area + n / w in
  sdl_display_flush area color_p e s = Fault OutOfBounds
  /\ (x1 area <= x <= x2 area /\ y1 area <= y <= y2 area /\ pixel_index area x y = n)
  /\ (forall s', flush_pixel area color_p y x e s' = Fault OutOfBounds)
  /\ (forall x' y' s',
        x1 area <= x' <= x2 area -> y1 area <= y' <= y2 area ->
        pixel_index area x' y' < n ->
        exists c,
          color_p !! Z.to_nat (pixel_index area x' y') = Some c
          /\ flush_pixel area color_p y' x' e s'
             = Ok (tt, emit (pixel_events (renderer (g s')) c x' y') s')).
Proof.
  intros Hx Hy Hmax Hshort w n x y. subst x y.
  set (h := y2 area - y1 area + 1) in *. fold w n in Hmax, Hshort.
  assert (Hw : 0 < w) by (unfold w; lia).
  pose proof (Z.div_mod n w ltac:(lia)) as Hdm.
  pose proof (Z.mod_pos_bound n w Hw) as Hmod.
  assert (Hq : 0 <= n / w < h).
  { split; [apply Z.div_pos; unfold n; lia|]. apply Z.div_lt_upper_bound; [lia|]. lia. }
  assert (Hlast : forall s', flush_pixel area color_p (y1 area + n / w) (x1 area + n mod w) e s'
                             = Fault OutOfBounds).
  { intros s'. rewrite flush_pixel_reads by (fold w h; unfold w, h in *; lia).
    rewrite (proj2 (lookup_ge_None color_p _)); [done|].
    unfold pixel_index. fold w. fold n. nia. }
  assert (Hbefore : forall x' y' s',
            x1 area <= x' <= x2 area -> y1 area <= y' <= y2 area ->
            pixel_index area x' y' < n ->
            exists c,
              color_p !! Z.to_nat (pixel_index area x' y') = Some c
              /\ flush_pixel area color_p y' x' e s'
                 = Ok (tt, emit (pixel_events (renderer (g s')) c x' y') s')).
  { intros x' y' s' Hx' Hy' Hlt. rewrite flush_pixel_reads by (fold w h; lia).
    destruct (lookup_lt_is_Some_2 color_p (Z.to_nat (pixel_index area x' y'))) as [c Hc].
    - assert (0 <= pixel_index area x' y') by (unfold pixel_index; fold w; nia).
      unfold n in Hlt. lia.
    - exists c. by rewrite Hc. }
  split; [|split; [|split; [exact Hlast|exact Hbefore]]].
  - unfold sdl_display_flush, bind. unfold for_range at 1.
    rewrite (for_count_fault _ e OutOfBounds _ _ (y1 area + n / w)); [done | unfold h in Hq; lia | |].
    + intros y s' Hyr. apply for_count_ok. intros x s'' Hxr.
      destruct (Hbefore x y s'') as (c & _ & ->); [lia | unfold h in Hq; lia | | by eexists].
      unfold pixel_index. fold w. nia.
    + intros s'. unfold for_range.
      apply (for_count_fault _ e OutOfBounds _ _ (x1 area + n mod w)); [unfold w in *; lia | |].
      * intros x s'' Hxr.
        destruct (Hbefore x (y1 area + n / w) s'') as (c & _ & ->);
          [unfold w in *; lia | unfold h in Hq; lia | | by eexists].
        unfold pixel_index. fold w. nia.
      * exact Hlast.
  - split; [unfold w in *; lia|]. split; [unfold h in Hq; lia|].
    unfold pixel_index. fold w. nia.
Qed.

Lemma flush_short_buffer_witness :
  sdl_display_flush (mk_area 0 0 1 1) [mk_color 65535; mk_color 0; mk_color 31]
                    (sample_env 0 []) sample_state
  = Fault OutOfBounds
  /\ flush_pixel (mk_area 0 0 1 1) [mk_color 65535; mk_color 0; mk_color 31] 1 1
                 (sample_env 0 []) sample_state
     = Fault OutOfBounds
  /\ flush_pixel (mk_area 0 0 1 1) [mk_color 65535; mk_color 0; mk_color 31] 1 0
                 (sample_env 0 []) sample_state
     = Ok (tt, emit (pixel_events (Some 2%nat) (mk_color 31) 0 1) sample_state).
Proof.
  destruct (flush_short_buffer (mk_area 0 0 1 1) [mk_color 65535; mk_color 0; mk_color 31]
              (sample_env 0 []) sample_state)
    as (Hall & _ & Hlast & Hbefore); [by vm_compute | by vm_compute | by vm_compute | by vm_compute |].
  split; [exact Hall|]. split; [exact (Hlast sample_state)|].
  destruct (Hbefore 0 1 sample_state) as (c & Hc & Hpix);
    [by vm_compute | by vm_compute | by vm_compute |].
  injection Hc as <-. exact Hpix.
Defined.

Lemma zseq_app lo a b : zseq lo (a + b) = zseq lo a ++ zseq (lo + Z.of_nat a) b.
Proof.
  revert lo. induction a as [|a IH]; intros lo; cbn [zseq Nat.add app].
  - by replace (lo + Z.of_nat 0) with lo by lia.
  - rewrite IH. by replace (lo + 1 + Z.of_nat a) with (lo + Z.of_nat (S a)) by lia.
Qed.

Lemma flat_map_zseq_ext {A} (f f' : Z -> list A) : forall n lo,
  (forall i, lo <= i < lo + Z.of_nat n -> f i = f' i) ->
  flat_map f (zseq lo n) = flat_map f' (zseq lo n).
Proof.
  induction n as [|n IH]; intros lo Hf; [done|].
  cbn [zseq flat_map]. rewrite Hf by lia. rewrite IH; [done|].
  intros i Hi. apply Hf. lia.
Qed.

Lemma flat_map_zseq_length {A} (f : Z -> list A) (k : nat) : forall n lo,
  (forall i, length (f i) = k) -> length (flat_map f (zseq lo n)) = (n * k)%nat.
Proof.
  induction n as [|n IH]; intros lo Hf; [done|].
  cbn [zseq flat_map]. rewrite length_app, Hf, IH by done. lia.
Qed.

Lemma area_events_split rd area ym top bottom :
  x1 area <= x2 area -> y1 area <= ym < y2 area ->
  Z.of_nat (length top) = (x2 area - x1 area + 1) * (ym - y1 area + 1) ->
  area_events rd area (top ++ bottom)
  = area_events rd (top_strip area ym) top ++ area_events rd (bottom_strip area ym) bottom.
Proof.
  intros Hx Hy Hlen. unfold area_events, rows. cbn [top_strip bottom_strip y1 y2].
  replace (Z.to_nat (y2 area - y1 area + 1))
    with (Z.to_nat (ym - y1 area + 1) + Z.to_nat (y2 area - (ym + 1) + 1))%nat by lia.
  rewrite zseq_app, flat_map_app.
  replace (y1 area + Z.of_nat (Z.to_nat (ym - y1 area + 1))) with (ym + 1) by lia.
  f_equal.
  - apply flat_map_zseq_ext. intros y Hyr.
    unfold row_events, columns. cbn [x1 x2]. apply flat_map_zseq_ext. intros x Hxr.
    f_equal. unfold color_at, pixel_index. cbn [x1 x2 y1]. f_equal.
    apply lookup_app_l. cbn [top_strip x1 x2] in Hxr. rewrite Z2Nat.id in Hyr, Hxr by lia.
    assert (0 <= (y - y1 area) * (x2 area - x1 area + 1) + (x - x1 area) < Z.of_nat (length top)).
    { nia. }
    cbn [top_strip x1 x2 y1]. lia.
  - apply flat_map_zseq_ext. intros y Hyr.
    unfold row_events, columns. cbn [x1 x2]. apply flat_map_zseq_ext. intros x Hxr.
    f_equal. unfold color_at, pixel_index. cbn [x1 x2 y1]. f_equal.
    cbn [bottom_strip x1 x2] in Hxr. rewrite Z2Nat.id in Hyr, Hxr by lia.
    assert (Z.of_nat (length top) + ((y - (ym + 1)) * (x2 area - x1 area + 1) + (x - x1 area))
            = (y - y1 area) * (x2 area - x1 area + 1) + (x - x1 area)) as Hsh by nia.
    assert (0 <= (y - (ym + 1)) * (x2 area - x1 area + 1) + (x - x1 area)) by nia.
    cbn [bottom_strip x1 x2 y1]. rewrite lookup_app_r by lia. f_equal. lia.
Qed.

(** Property X3 (flushing in strips).  Split the rows of an area into an
    upper and a lower strip, and the buffer at the matching place.
    Flushing the two strips one after the other sets the same colours and
    draws the same points, in the same order, as flushing the area whole;
    the only difference is the completion signal between the strips. *)
Theorem flush_strips_compose area ym top bottom e s :
  x1 area <= x2 area -> y1 area <= ym < y2 area ->
  Z.of_nat (length top) = (x2 area - x1 area + 1) * (ym - y1 area + 1) ->
  covers area (top ++ bottom) ->
  exists upper lower,
    (sdl_display_flush (top_strip area ym) top ;; sdl_display_flush (bottom_strip area ym) bottom) e s
    = Ok (tt, emit (upper ++ [lv_disp_flush_ready] ++ lower ++ [lv_disp_flush_ready]) s)
    /\ sdl_display_flush area (top ++ bottom) e s
       = Ok (tt, emit (upper ++ lower ++ [lv_disp_flush_ready]) s)
    /\ count_ev is_flush_ready upper = 0%nat /\ count_ev is_flush_ready lower = 0%nat.
Proof.
  intros Hx Hy Hlen Hcov. pose proof (Hcov ltac:(lia) ltac:(lia)) as [Hall Hmax].
  rewrite length_app, Nat2Z.inj_add in Hall, Hmax.
  exists (area_events (renderer (g s)) (top_strip area ym) top),
         (area_events (renderer (g s)) (bottom_strip area ym) bottom).
  split; [|split; [|split]]; [| |apply flush_ready_area ..].
  - unfold bind. rewrite flush_trace.
    2:{ intros _ _. cbn [top_strip x1 x2 y1 y2]. unfold INT_MAX in *. lia. }
    rewrite flush_trace.
    2:{ intros _ _. cbn [bottom_strip x1 x2 y1 y2]. unfold INT_MAX in *. nia. }
    rewrite emit_emit. cbn [g emit]. by rewrite <- !app_assoc.
  - rewrite flush_trace by done. rewrite (area_events_split _ _ ym) by done.
    by rewrite <- app_assoc.
Qed.

Lemma flush_strips_compose_witness :
  exists upper lower,
    (sdl_display_flush (mk_area 0 0 1 0) [mk_color 65535; mk_color 0] ;;
     sdl_display_flush (mk_area 0 1 1 1) [mk_color 31; mk_color 2016]) (sample_env 0 []) sample_state
    = Ok (tt, emit (upper ++ [lv_disp_flush_ready] ++ lower ++ [lv_disp_flush_ready]) sample_state)
    /\ sdl_display_flush (mk_area 0 0 1 1) [mk_color 65535; mk_color 0; mk_color 31; mk_color 2016]
         (sample_env 0 []) sample_state
       = Ok (tt, emit (upper ++ lower ++ [lv_disp_flush_ready]) sample_state).
Proof.
  destruct (flush_strips_compose (mk_area 0 0 1 1) 0 [mk_color 65535; mk_color 0]
              [mk_color 31; mk_color 2016] (sample_env 0 []) sample_state)
    as (upper & lower & H1 & H2 & _).
  - cbn; lia.
  - cbn; lia.
  - reflexivity.
  - intros _ _. cbn. unfold INT_MAX. lia.
  - exists upper, lower. split; [exact H1 | exact H2].
Defined.

Lemma count_ev_flat_zseq p (f : Z -> list event) (k : nat) : forall n lo,
  (forall i, count_ev p (f i) = k) -> count_ev p (flat_map f (zseq lo n)) = (n * k)%nat.
Proof.
  induction n as [|n IH]; intros lo Hf; [done|].
  cbn [zseq flat_map]. rewrite count_ev_app, Hf, IH by done. lia.
Qed.

(** Property X4 (cost of a flush).  A flush of an area whose pixels the
    buffer holds makes two platform calls per pixel, one that sets the
    colour and one that draws the point, and signals completion once:
    2 * width * height + 1 calls in all, a single one for an empty area. *)
Theorem flush_call_count area color_p e s :
  covers area color_p ->
  exists evs,
    sdl_display_flush area color_p e s = Ok (tt, emit evs s)
    /\ count_ev is_draw evs = pixel_count area
    /\ count_ev is_set_color evs = pixel_count area
    /\ count_ev is_flush_ready evs = 1%nat
    /\ length evs = (2 * pixel_count area + 1)%nat.
Proof.
  intros Hcov. exists (area_events (renderer (g s)) area color_p ++ [lv_disp_flush_ready]).
  split; [by apply flush_trace|].
  rewrite !count_ev_app, length_app, flush_ready_area. unfold area_events, rows, pixel_count.
  rewrite (count_ev_flat_zseq is_draw _ (Z.to_nat (x2 area - x1 area + 1))).
  2:{ intros y. unfold row_events, columns. rewrite (count_ev_flat_zseq _ _ 1%nat); [lia | done]. }
  rewrite (count_ev_flat_zseq is_set_color _ (Z.to_nat (x2 area - x1 area + 1))).
  2:{ intros y. unfold row_events, columns. rewrite (count_ev_flat_zseq _ _ 1%nat); [lia | done]. }
  rewrite (flat_map_zseq_length _ (2 * Z.to_nat (x2 area - x1 area + 1))).
  2:{ intros y. unfold row_events, columns. rewrite (flat_map_zseq_length _ 2%nat); [lia | done]. }
  cbn [count_ev is_draw is_set_color is_flush_ready length]. lia.
Qed.

Lemma flush_call_count_witness :
  exists evs,
    sdl_display_flush (mk_area 0 0 1 1) [mk_color 65535; mk_color 0; mk_color 31; mk_color 2016]
                      (sample_env 0 []) sample_state
    = Ok (tt, emit evs sample_state)
    /\ length evs = 9%nat.
Proof.
  destruct (flush_call_count (mk_area 0 0 1 1)
              [mk_color 65535; mk_color 0; mk_color 31; mk_color 2016]
              (sample_env 0 []) sample_state) as (evs & H & _ & _ & _ & Hl).
  - intros _ _. cbn. unfold INT_MAX. lia.
  - exists evs. split; [exact H | exact Hl].
Defined.

(** ** The input adapter, for every input *)

(** Property X5 (input adapter, on every input).  Whatever the pointer
    state, and in whatever state the program is (the renderer may be NULL),
    the read callback returns; it asks the platform for the pointer state
    once and for the logical size once and changes nothing else; and it
    reports pressed exactly when bit 0 of the button mask, the left button,
    is set: the other buttons do not matter.  The position it reports is
    each coordinate stored in the toolkit's 16-bit coordinate type: the
    coordinate the platform gave when that lies between -32768 and 32767,
    so for every point of the 344x640 window, and otherwise the number of
    that range that differs from it by a multiple of 65536. *)
Theorem mouse_read_contract e s :
  let buttons := fst (fst (mouse e)) in
  let x := snd (fst (mouse e)) in
  let y := snd (mouse e) in
  exists st,
    sdl_mouse_read e s
    = Ok (mk_indev_data (to_coord x, to_coord y) st,
          emit [SDL_GetMouseState buttons x y; SDL_RenderGetLogicalSize (renderer (g s))] s)
    /\ (st = LV_INDEV_STATE_PRESSED <-> Z.testbit buttons 0 = true)
    /\ (st = LV_INDEV_STATE_RELEASED <-> Z.testbit buttons 0 = false)
    /\ (-32768 <= x <= 32767 -> to_coord x = x)
    /\ (-32768 <= y <= 32767 -> to_coord y = y)
    /\ (in_window (x, y) -> (to_coord x, to_coord y) = (x, y))
    /\ (-32768 <= to_coord x <= 32767 /\ exists k, to_coord x = x + 65536 * k)
    /\ (-32768 <= to_coord y <= 32767 /\ exists k, to_coord y = y + 65536 * k).
Proof.
  intros buttons x y. subst buttons x y. rewrite sdl_mouse_read_spec.
  eexists. split; [reflexivity|]. split; [|split].
  - unfold SDL_BUTTON_LMASK. rewrite land_1. by destruct (Z.testbit (fst (fst (mouse e))) 0).
  - unfold SDL_BUTTON_LMASK. rewrite land_1. by destruct (Z.testbit (fst (fst (mouse e))) 0).
  - split; [apply to_coord_small|]. split; [apply to_coord_small|].
    split; [|split; apply to_coord_wraps].
    unfold in_window, SCREEN_WIDTH, SCREEN_HEIGHT. cbn [fst snd]. intros [Hx Hy].
    rewrite !to_coord_small by lia. done.
Qed.

Lemma mouse_read_contract_witness :
  exists st,
    sdl_mouse_read (mk_env 0 0 (fun _ => tm_zero) (5, 40000, 70000) [] 0 []) sample_state
    = Ok (mk_indev_data (-25536, 4464) st,
          emit [SDL_GetMouseState 5 40000 70000; SDL_RenderGetLogicalSize (Some 2%nat)]
               sample_state)
    /\ st = LV_INDEV_STATE_PRESSED.
Proof.
  destruct (mouse_read_contract (mk_env 0 0 (fun _ => tm_zero) (5, 40000, 70000) [] 0 [])
              sample_state) as (st & H & Hp & _).
  exists st. split; [exact H|]. apply Hp. reflexivity.
Defined.

(** ** The widget tree *)

Lemma setup_ui_exact df e0 w r s0 :
  setup_ui df e0 (entry_state w r) = Ok (tt, s0) -> s0 = started df e0 w r.
Proof.
  destruct e0 as [tk nw ltm ms pd pl rdw]. intros H.
  cbv -[format_tm String.length Z.of_nat Z.add Z.leb Z.land Z.lor Z.lnot line append
        lv_color_black lv_color_white lv_color_make dec_z] in H.
  destruct (Z.of_nat (String.length (format_tm "%H:%M:%S" (ltm nw))) + 1 <=? 32); [|done].
  destruct (Z.of_nat (String.length (format_tm "%a, %b %d %Y" (ltm nw))) + 1 <=? 64); [|done].
  injection H as <-. reflexivity.
Qed.

Lemma running_host df h e0 s :
  main df h [] e0 initial_state = Ok (Running, s) ->
  exists w r, sdl_init_ret h = 0 /\ sdl_window_ret h = Some w /\ sdl_renderer_ret h = Some r /\
              setup_ui df e0 (entry_state w r) = Ok (tt, s).
Proof.
  destruct h as [ir err w r]. cbn [sdl_init_ret sdl_window_ret sdl_renderer_ret].
  destruct (Z.eqb_spec ir 0) as [->|Hne].
  - destruct w as [w|]; [|intros H; cbv in H; done].
    destruct r as [r|]; [|intros H; cbv in H; done].
    intros H. exists w, r. do 3 (split; [done|]). by apply (setup_is_startup df err).
  - intros H. unfold main in H. cbn [sdl_init_ret] in H. unfold bind at 1 2 3 in H.
    cbn [call] in H. destruct (Z.eqb_spec ir 0); [done|]. cbv in H. done.
Qed.

Lemma sbh_hide fl b : same_but_hidden fl b -> same_but_hidden (Z.lor fl LV_OBJ_FLAG_HIDDEN) b.
Proof.
  unfold same_but_hidden. intros <-. apply Z.bits_inj'. intros n Hn.
  rewrite !Z.land_spec, Z.lor_spec, Z.lnot_spec by done.
  destruct (Z.testbit fl n), (Z.testbit LV_OBJ_FLAG_HIDDEN n); done.
Qed.

Lemma sbh_unhide fl b :
  same_but_hidden fl b -> same_but_hidden (Z.land fl (Z.lnot LV_OBJ_FLAG_HIDDEN)) b.
Proof.
  unfold same_but_hidden. intros <-. by rewrite <- Z.land_assoc, Z.land_diag.
Qed.

Lemma sbh_refl fl : same_but_hidden fl fl.
Proof. done. Qed.

Lemma started_shape df e0 w r :
  started df e0 w r
  = shape df w r (screen_flags df) (Z.lor (screen_flags df) LV_OBJ_FLAG_HIDDEN)
          (format_tm "%H:%M:%S" (localtime e0 (now e0)))
          (format_tm "%a, %b %d %Y" (localtime e0 (now e0)))
          [(1%nat, clock_tm (tick e0)); (0%nat, splash_tm (tick e0))]
          (Some 0%nat) 2%nat None (startup_trace w r).
Proof. reflexivity. Qed.

Lemma settled_shape df s :
  settled df s ->
  exists w r fl1 fl3 t,
    same_but_hidden fl1 (screen_flags df) /\ same_but_hidden fl3 (screen_flags df) /\
    s = shape df w r fl1 fl3 (format_tm "%H:%M:%S" t) (format_tm "%a, %b %d %Y" t)
              (timers (lv s)) (act_scr (lv s)) (next_timer (lv s)) (indev_data (lv s)) (trace s).
Proof.
  intros ((Hls & Hts & Htl & Hdl & Hlt & Hct & _ & [r Hr] & [w Hw]) & Hd & Hi
          & fl1 & fl3 & t & H1 & H3 & Ho).
  exists w, r, fl1, fl3, t. do 2 (split; [done|]).
  destruct s as [[] [] ?]. cbn in *. unfold shape. by subst.
Qed.

Lemma shape_settled df w r fl1 fl3 t ts a nt d tr :
  same_but_hidden fl1 (screen_flags df) -> same_but_hidden fl3 (screen_flags df) ->
  settled df (shape df w r fl1 fl3 (format_tm "%H:%M:%S" t) (format_tm "%a, %b %d %Y" t)
                    ts a nt d tr).
Proof.
  intros H1 H3. split; [|split; [done|split; [done|]]].
  - unfold ui_inv, shape. cbn. repeat split; by eexists.
  - by exists fl1, fl3, t.
Qed.

Lemma settled_frame df s s' : frame s s' -> settled df s -> settled df s'.
Proof.
  intros Hf (Hi & Hd & Hin & Ho). pose proof Hf as (_ & Hob & _ & Hd' & Hin' & _).
  split; [by eapply ui_inv_frame|]. by rewrite Hd', Hin', Hob.
Qed.

(** The clock timer's turn, evaluated. *)
Lemma exec_clock_shape e df w r fl1 fl3 t4 t5 lr rest a nt d tr :
  let t := localtime e (now e) in
  lv_timer_exec 1%nat e (shape df w r fl1 fl3 t4 t5 ((1%nat, clock_tm lr) :: rest) a nt d tr)
  = if 1000 <=? tick e - lr then
      if Z.of_nat (String.length (format_tm "%H:%M:%S" t)) + 1 <=? 32 then
        if Z.of_nat (String.length (format_tm "%a, %b %d %Y" t)) + 1 <=? 64 then
          Ok (tt, shape df w r fl1 fl3 (format_tm "%H:%M:%S" t) (format_tm "%a, %b %d %Y" t)
                        ((1%nat, clock_tm (tick e)) :: rest) a nt d tr)
        else Fault Truncated
      else Fault Truncated
    else Ok (tt, shape df w r fl1 fl3 t4 t5 ((1%nat, clock_tm lr) :: rest) a nt d tr).
Proof.
  intros t. rewrite lv_timer_exec_unfold.
  cbn [shape lv timers timer_lookup Nat.eqb clock_tm period last_run timer_cb].
  destruct (1000 <=? tick e - lr); [|done].
  cbv -[format_tm String.length Z.of_nat Z.add Z.leb Z.land Z.lor Z.lnot line append
        lv_color_black lv_color_white lv_color_make dec_z Z.sub tick localtime now].
  destruct (Z.of_nat (String.length (format_tm "%H:%M:%S" (localtime e (now e)))) + 1 <=? 32);
    [|done].
  by destruct (Z.of_nat (String.length (format_tm "%a, %b %d %Y" (localtime e (now e)))) + 1 <=? 64).
Qed.

(** The splash timer's turn, evaluated. *)
Lemma exec_splash_shape e df w r fl1 fl3 t4 t5 lr t0 a nt d tr :
  lv_timer_exec 0%nat e
    (shape df w r fl1 fl3 t4 t5 [(1%nat, clock_tm lr); (0%nat, splash_tm t0)] a nt d tr)
  = if 4000 <=? tick e - t0 then
      Ok (tt, shape df w r (Z.lor fl1 LV_OBJ_FLAG_HIDDEN)
                    (Z.land fl3 (Z.lnot LV_OBJ_FLAG_HIDDEN)) t4 t5
                    [(1%nat, clock_tm lr)] a nt d
                    (tr ++ [printf (line "Switched to time display")]))
    else Ok (tt, shape df w r fl1 fl3 t4 t5 [(1%nat, clock_tm lr); (0%nat, splash_tm t0)]
                       a nt d tr).
Proof.
  rewrite lv_timer_exec_unfold.
  cbn [shape lv timers timer_lookup Nat.eqb splash_tm period last_run timer_cb].
  destruct (4000 <=? tick e - t0); [|done].
  reflexivity.
Qed.

Lemma settled_run_timers df e0 e s s1 :
  phase_pending df e0 s \/ phase_fired s -> settled df s ->
  run_timers (map fst (timers (lv s))) e s = Ok (tt, s1) -> settled df s1.
Proof.
  intros Hp Hs H.
  destruct (settled_shape df s Hs) as (w & r & fl1 & fl3 & t & H1 & H3 & Es).
  destruct Hp as [(_ & [lr Ht] & _) | (_ & [lr Ht] & _)];
    rewrite Ht in Es, H; rewrite Es in H; cbn [map fst run_timers] in H;
    apply bind_Ok in H as ([] & sa & Ha & H); rewrite exec_clock_shape in Ha.
  - apply bind_Ok in H as ([] & sb & Hb & H). injection H as <-.
    destruct (1000 <=? tick e - lr).
    + destruct (_ <=? 32); [|done]. destruct (_ <=? 64); [|done]. injection Ha as <-.
      rewrite exec_splash_shape in Hb.
      destruct (4000 <=? tick e - tick e0); injection Hb as <-;
        apply shape_settled; auto using sbh_hide, sbh_unhide.
    + injection Ha as <-. rewrite exec_splash_shape in Hb.
      destruct (4000 <=? tick e - tick e0); injection Hb as <-;
        apply shape_settled; auto using sbh_hide, sbh_unhide.
  - injection H as <-.
    destruct (1000 <=? tick e - lr).
    + destruct (_ <=? 32); [|done]. destruct (_ <=? 64); [|done]. injection Ha as <-.
      by apply shape_settled.
    + injection Ha as <-. by apply shape_settled.
Qed.

Lemma phase_frame df e0 s s' :
  frame s s' -> phase_pending df e0 s \/ phase_fired s -> phase_pending df e0 s' \/ phase_fired s'.
Proof. intros Hf [Hp | Hp]; [left; by eapply pending_frame | right; by eapply fired_frame]. Qed.

Lemma settled_loop_body df e0 e s quit s' :
  phase_pending df e0 s \/ phase_fired s -> settled df s ->
  loop_body e s = Ok (quit, s') -> settled df s'.
Proof.
  intros Hp Hs H. apply loop_body_Ok in H as (s1 & s2 & H1 & H2 & ->).
  apply benign_poll_events in H1.
  apply lv_timer_handler_Ok in H2 as (sa & Ha & Hb).
  apply benign_handler_tail in Hb.
  eapply settled_frame; [by apply frame_emit|].
  eapply settled_frame; [exact Hb|].
  assert (Hf : frame s (emit [lv_timer_handler_ev]
                 (emit [SDL_SetRenderDrawColor (renderer (g s1)) 0 0 0 255;
                        SDL_RenderClear (renderer (g s1))] s1))).
  { eapply frame_trans; [exact H1|]. eapply frame_trans; by apply frame_emit. }
  eapply (settled_run_timers df e0); [| |exact Ha].
  - by eapply phase_frame.
  - by eapply settled_frame.
Qed.

Lemma startup_started df h e0 s :
  main df h [] e0 initial_state = Ok (Running, s) ->
  exists w r, sdl_init_ret h = 0 /\ sdl_window_ret h = Some w /\ sdl_renderer_ret h = Some r /\
              s = started df e0 w r.
Proof.
  intros H. apply running_host in H as (w & r & Hi & Hw & Hr & H).
  exists w, r. do 3 (split; [done|]). by apply setup_ui_exact.
Qed.

Lemma reachable_settled df e0 s : reachable df e0 s -> settled df s.
Proof.
  induction 1 as [h s H | s e quit s' Hr IH H].
  - apply startup_started in H as (w & r & _ & _ & _ & ->). rewrite started_shape.
    apply shape_settled; auto using sbh_hide, sbh_refl.
  - eapply settled_loop_body; [|exact IH|exact H]. by eapply reachable_phase.
Qed.

(** ** The start-up that succeeds *)

(** Property X6 (the start-up that succeeds).  When the video subsystem,
    the window and the renderer are all obtained and the clock reading is
    a proper one, [main] enters its loop in the state [started]: the window
    asked for is 344x640 and the renderer's logical size 172x320, set
    before the toolkit is initialised; the display is registered at 172x320
    with a buffer of 1720 pixels, then the pointer device; the tree holds
    the active screen, the Loading Screen with its "Welcome" label and the
    hidden Clock Screen with its two labels, which already carry the
    current time and date; the clock timer (1000 ms, unlimited) and the
    splash timer (4000 ms, once) both count from the start-up tick.
    Conversely a run that enters the loop has been through exactly this. *)
Theorem startup_success df h e0 :
  (forall w r,
     sdl_init_ret h = 0 -> sdl_window_ret h = Some w -> sdl_renderer_ret h = Some r ->
     tm_wf (localtime e0 (now e0)) ->
     main df h [] e0 initial_state = Ok (Running, started df e0 w r))
  /\ (forall s, main df h [] e0 initial_state = Ok (Running, s) ->
        exists w r, sdl_init_ret h = 0 /\ sdl_window_ret h = Some w /\ sdl_renderer_ret h = Some r
                    /\ s = started df e0 w r).
Proof.
  split; [|intros s; apply startup_started].
  destruct h as [ir err wr rr]. cbn [sdl_init_ret sdl_window_ret sdl_renderer_ret].
  intros w r -> -> -> Hwf.
  destruct (setup_ui_total df e0 w r Hwf) as [s0 H0].
  rewrite <- (setup_ui_exact _ _ _ _ _ H0). by apply (setup_is_startup df err).
Qed.

Lemma startup_success_witness :
  main sample_flags sample_host [] (sample_env 0 []) initial_state
  = Ok (Running, started sample_flags (sample_env 0 []) 1%nat 2%nat).
Proof.
  apply (proj1 (startup_success sample_flags sample_host (sample_env 0 []))); try reflexivity.
  unfold tm_wf, INT_MIN, INT_MAX; cbn; lia.
Defined.

(** ** The widget tree never changes *)

(** Property X7 (the widget tree is built once).  In every state the
    program can be in between two loop iterations the object heap is the
    six objects of the start-up, with the parents, sizes, alignments,
    styles and the "Welcome" text they were created with, and the four
    object globals point where they did.  Nothing is created or restyled
    after the start-up: all that can differ is the hidden bit of the two
    screens and the text of the two clock labels. *)
Theorem widget_tree_is_static df e0 s :
  reachable df e0 s ->
  loading_screen (g s) = Some 1%nat /\ time_screen (g s) = Some 3%nat /\
  time_label (g s) = Some 4%nat /\ date_label (g s) = Some 5%nat /\
  exists fl1 fl3 t4 t5,
    objs (lv s) = widget_tree df fl1 fl3 t4 t5 /\
    same_but_hidden fl1 (screen_flags df) /\ same_but_hidden fl3 (screen_flags df).
Proof.
  intros Hr. apply reachable_settled in Hr as ((Hls & Hts & Htl & Hdl & _) & _ & _ & Ho).
  do 4 (split; [done|]). destruct Ho as (fl1 & fl3 & t & H1 & H3 & Ho).
  by exists fl1, fl3, (format_tm "%H:%M:%S" t), (format_tm "%a, %b %d %Y" t).
Qed.

Lemma widget_tree_is_static_witness :
  exists fl1 fl3 t4 t5, objs (lv sample_state) = widget_tree sample_flags fl1 fl3 t4 t5.
Proof.
  destruct (widget_tree_is_static sample_flags (sample_env 0 []) sample_state sample_reachable)
    as (_ & _ & _ & _ & fl1 & fl3 & t4 & t5 & Ho & _).
  by exists fl1, fl3, t4, t5.
Defined.

(** ** The clock timer *)

(** Property X9 (the clock timer stays).  In every state between two loop
    iterations the clock timer is in the timer list, at its head, with
    period 1000 ms, the clock callback and an unlimited repeat count:
    nothing the program does removes, pauses or retunes it. *)
Theorem clock_timer_persists df e0 s :
  reachable df e0 s ->
  exists ct lr,
    clock_timer (g s) = Some ct /\
    timer_lookup ct (timers (lv s)) = Some (mk_timer 1000 lr CLOCK_UPDATE_CB (-1)) /\
    head (timers (lv s)) = Some (ct, mk_timer 1000 lr CLOCK_UPDATE_CB (-1)).
Proof.
  intros Hr.
  destruct (reachable_phase _ _ _ Hr) as [((_ & _ & _ & _ & _ & Hct & _) & [lr Ht] & _)
                                         | ((_ & _ & _ & _ & _ & Hct & _) & [lr Ht] & _)];
    exists 1%nat, lr; by rewrite Hct, Ht.
Qed.

Lemma clock_timer_persists_witness :
  exists ct lr,
    clock_timer (g sample_state) = Some ct /\
    timer_lookup ct (timers (lv sample_state)) = Some (mk_timer 1000 lr CLOCK_UPDATE_CB (-1)).
Proof.
  destruct (clock_timer_persists sample_flags (sample_env 0 []) sample_state sample_reachable)
    as (ct & lr & H1 & H2 & _).
  by exists ct, lr.
Defined.

Lemma read_inputs_shape e df w r fl1 fl3 t4 t5 ts a nt : forall n d tr,
  read_inputs n e (shape df w r fl1 fl3 t4 t5 ts a nt d tr)
  = Ok (tt, shape df w r fl1 fl3 t4 t5 ts a nt
                  (match n with O => d | S _ => Some (input_sample e) end)
                  (tr ++ times n (input_events (Some r) e))).
Proof.
  induction n as [|n IH]; intros d tr.
  - cbn [read_inputs times]. by rewrite app_nil_r.
  - cbn [read_inputs times]. unfold bind at 1. rewrite sdl_mouse_read_spec.
    unfold bind at 1. cbn [set_lv emit shape g lv trace with_indev_data objs act_scr timers
                             next_timer disp_drv indev_registered renderer].
    fold (input_sample e).
    change (mk_state _ _ _) with
      (shape df w r fl1 fl3 t4 t5 ts a nt (Some (input_sample e)) (tr ++ input_events (Some r) e)).
    rewrite IH. rewrite <- app_assoc. by destruct n.
Qed.

Lemma flush_all_trace e : forall jobs s,
  Forall (fun job => covers (fst job) (snd job)) jobs ->
  flush_all jobs e s = Ok (tt, emit (strip_events (renderer (g s)) jobs) s).
Proof.
  induction jobs as [|[area color_p] jobs IH]; intros s Hj; cbn [flush_all strip_events flat_map].
  - by rewrite emit_nil.
  - apply Forall_cons in Hj as [Hc Hj]. cbn [fst snd] in *.
    unfold bind at 1. rewrite flush_trace by done. rewrite IH by done.
    rewrite emit_emit. cbn [emit g]. unfold strip_events. by rewrite <- !app_assoc.
Qed.

Lemma handler_tail_shape e df w r fl1 fl3 t4 t5 ts a nt d tr :
  Forall (fun job => covers (fst job) (snd job)) (redraw e) ->
  handler_tail e (shape df w r fl1 fl3 t4 t5 ts a nt d tr)
  = Ok (tt, shape df w r fl1 fl3 t4 t5 ts a nt
                  (match polls e with O => d | S _ => Some (input_sample e) end)
                  (tr ++ times (polls e) (input_events (Some r) e)
                      ++ strip_events (Some r) (redraw e))).
Proof.
  intros Hj. unfold handler_tail. unfold bind at 1. cbn [ask]. unfold bind at 1. cbn [get].
  cbn [shape lv indev_registered disp_drv]. unfold bind at 1.
  change (mk_state _ _ tr) with (shape df w r fl1 fl3 t4 t5 ts a nt d tr).
  rewrite read_inputs_shape. rewrite flush_all_trace by done.
  unfold emit, shape. cbn [g lv trace renderer]. by rewrite <- app_assoc.
Qed.

Lemma clock_fits_wf e : tm_wf (localtime e (now e)) -> clock_fits e = true.
Proof. intros Hwf. unfold clock_fits. by rewrite time_fits, date_fits. Qed.

Lemma run_timers_pending_shape e df w r fl1 fl3 t4 t5 lr t0 a nt d tr :
  clock_fits e = true ->
  run_timers [1%nat; 0%nat] e
    (shape df w r fl1 fl3 t4 t5 [(1%nat, clock_tm lr); (0%nat, splash_tm t0)] a nt d tr)
  = Ok (tt, shape df w r
              (if splash_due e t0 then Z.lor fl1 LV_OBJ_FLAG_HIDDEN else fl1)
              (if splash_due e t0 then Z.land fl3 (Z.lnot LV_OBJ_FLAG_HIDDEN) else fl3)
              (if clock_due e lr then format_tm "%H:%M:%S" (localtime e (now e)) else t4)
              (if clock_due e lr then format_tm "%a, %b %d %Y" (localtime e (now e)) else t5)
              ((1%nat, clock_tm (if clock_due e lr then tick e else lr))
                 :: if splash_due e t0 then [] else [(0%nat, splash_tm t0)])
              a nt d (tr ++ switch_events (splash_due e t0))).
Proof.
  intros Hfit. apply andb_prop in Hfit as [H32 H64].
  cbn [run_timers]. unfold bind at 1. rewrite exec_clock_shape. cbv zeta.
  rewrite H32, H64. unfold clock_due, splash_due.
  destruct (1000 <=? tick e - lr); unfold bind at 1; rewrite exec_splash_shape;
    destruct (4000 <=? tick e - t0); cbn [switch_events]; by rewrite ?app_nil_r.
Qed.

Lemma run_timers_fired_shape e df w r fl1 fl3 t4 t5 lr a nt d tr :
  clock_fits e = true ->
  run_timers [1%nat] e (shape df w r fl1 fl3 t4 t5 [(1%nat, clock_tm lr)] a nt d tr)
  = Ok (tt, shape df w r fl1 fl3
              (if clock_due e lr then format_tm "%H:%M:%S" (localtime e (now e)) else t4)
              (if clock_due e lr then format_tm "%a, %b %d %Y" (localtime e (now e)) else t5)
              [(1%nat, clock_tm (if clock_due e lr then tick e else lr))]
              a nt d tr).
Proof.
  intros Hfit. apply andb_prop in Hfit as [H32 H64].
  cbn [run_timers]. unfold bind at 1. rewrite exec_clock_shape. cbv zeta.
  rewrite H32, H64. unfold clock_due.
  by destruct (1000 <=? tick e - lr).
Qed.

(** One iteration from a state in which the widget tree stands. *)
Lemma loop_body_shape_exact e df w r fl1 fl3 t4 t5 lr sp a nt d tr :
  env_wf e ->
  loop_body e (shape df w r fl1 fl3 t4 t5 ((1%nat, clock_tm lr) :: splash_entry sp) a nt d tr)
  = Ok (has_quit e,
        shape df w r
          (if fires e sp then Z.lor fl1 LV_OBJ_FLAG_HIDDEN else fl1)
          (if fires e sp then Z.land fl3 (Z.lnot LV_OBJ_FLAG_HIDDEN) else fl3)
          (if clock_due e lr then format_tm "%H:%M:%S" (localtime e (now e)) else t4)
          (if clock_due e lr then format_tm "%a, %b %d %Y" (localtime e (now e)) else t5)
          ((1%nat, clock_tm (if clock_due e lr then tick e else lr))
             :: splash_entry (if fires e sp then None else sp))
          a nt
          (match polls e with O => d | S _ => Some (input_sample e) end)
          (tr ++ iteration_events (Some r) e (fires e sp))).
Proof.
  intros [Hwf Hj]. pose proof (clock_fits_wf e Hwf) as Hfit.
  erewrite loop_body_of_handler.
  2:{ apply handler_of_timers with
        (s1 := shape df w r
          (if fires e sp then Z.lor fl1 LV_OBJ_FLAG_HIDDEN else fl1)
          (if fires e sp then Z.land fl3 (Z.lnot LV_OBJ_FLAG_HIDDEN) else fl3)
          (if clock_due e lr then format_tm "%H:%M:%S" (localtime e (now e)) else t4)
          (if clock_due e lr then format_tm "%a, %b %d %Y" (localtime e (now e)) else t5)
          ((1%nat, clock_tm (if clock_due e lr then tick e else lr))
             :: splash_entry (if fires e sp then None else sp))
          a nt d
          ((tr ++ poll_trace (pending e) ++ clear_trace (Some r)) ++ [lv_timer_handler_ev]
             ++ switch_events (fires e sp))).
      - destruct sp as [t0|]; cbn [splash_entry fires].
        + change (run_timers _ e _) with
            (run_timers [1%nat; 0%nat] e
               (shape df w r fl1 fl3 t4 t5 [(1%nat, clock_tm lr); (0%nat, splash_tm t0)] a nt d
                  ((tr ++ poll_trace (pending e) ++ clear_trace (Some r)) ++ [lv_timer_handler_ev]))).
          rewrite run_timers_pending_shape by done.
          destruct (splash_due e t0); cbn [splash_entry]; by rewrite <- !app_assoc.
        + change (run_timers _ e _) with
            (run_timers [1%nat] e
               (shape df w r fl1 fl3 t4 t5 [(1%nat, clock_tm lr)] a nt d
                  ((tr ++ poll_trace (pending e) ++ clear_trace (Some r)) ++ [lv_timer_handler_ev]))).
          rewrite run_timers_fired_shape by done. cbn [switch_events]. by rewrite app_nil_r.
      - apply handler_tail_shape. exact Hj. }
  do 2 f_equal. unfold emit, shape, iteration_events. cbn [g lv trace renderer].
  by rewrite <- !app_assoc.
Qed.

Lemma reachable_view df e0 s :
  reachable df e0 s ->
  exists w r fl1 fl3 t lr a nt d tr,
    s = shape df w r fl1 fl3 (format_tm "%H:%M:%S" t) (format_tm "%a, %b %d %Y" t)
              ((1%nat, clock_tm lr) :: splash_entry (splash_of e0 tr)) a nt d tr.
Proof.
  intros Hr. pose proof (reachable_settled _ _ _ Hr) as Hs.
  destruct (settled_shape df s Hs) as (w & r & fl1 & fl3 & t & _ & _ & Es).
  exists w, r, fl1, fl3, t.
  destruct (reachable_phase _ _ _ Hr) as [(_ & [lr Ht] & Hsw & _) | (_ & [lr Ht] & Hsw & _)];
    exists lr, (act_scr (lv s)), (next_timer (lv s)), (indev_data (lv s)), (trace s);
    unfold splash_of; unfold switched in Hsw; rewrite Hsw; cbn [Nat.eqb splash_entry];
    by rewrite <- Ht.
Qed.

(** ** One iteration, completely *)

(** Property X10 (one iteration, call by call).  From any state between
    two loop iterations, and with usable answers, an iteration returns and
    adds to the trace exactly [iteration_events]: the polls of the event
    queue; the draw colour set to opaque black and the clear; the toolkit
    handler; the transition's line, only in the first iteration that is at
    least 4000 ms past the start-up; one read of the pointer per poll the
    toolkit makes; for each dirty strip its pixels row by row and the
    completion signal; the present; the 5 ms delay. *)
Theorem iteration_trace df e0 s e :
  reachable df e0 s -> env_wf e ->
  exists s',
    loop_body e s = Ok (has_quit e, s')
    /\ trace s' = trace s ++ iteration_events (renderer (g s)) e
                               ((switched s =? 0)%nat && splash_due e (tick e0)).
Proof.
  intros Hr Hwf.
  destruct (reachable_view _ _ _ Hr) as (w & r & fl1 & fl3 & t & lr & a & nt & d & tr & ->).
  rewrite loop_body_shape_exact by done.
  eexists. split; [reflexivity|]. cbn [trace shape g renderer]. unfold switched, splash_of.
  cbn [trace shape]. do 2 f_equal. by destruct (count_ev is_switch tr =? 0)%nat.
Qed.

Lemma iteration_trace_witness :
  exists s',
    loop_body (sample_env 4000 []) sample_state = Ok (false, s')
    /\ trace s' = trace sample_state
                  ++ iteration_events (Some 2%nat) (sample_env 4000 []) true.
Proof.
  assert (Hwf : env_wf (sample_env 4000 [])).
  { split; [unfold tm_wf, INT_MIN, INT_MAX; cbn; lia|].
    apply Forall_cons. split; [|done]. intros _ _. cbn. unfold INT_MAX. lia. }
  exact (iteration_trace sample_flags (sample_env 0 []) sample_state (sample_env 4000 [])
           sample_reachable Hwf).
Defined.

(** ** When the clock labels change *)

(** Property X11 (when the clock labels change).  An iteration refreshes
    the labels exactly when at least 1000 ms of ticks have passed since the
    clock timer last ran: then both labels carry the iteration's clock
    reading and the timer's last run is the iteration's tick; otherwise the
    labels and the timer stay as they were.  This holds before and after
    the transition alike, so the clock is kept current while the Loading
    Screen still hides it. *)
Theorem clock_refresh_timing df e0 s e :
  reachable df e0 s -> env_wf e ->
  exists lr s',
    timer_lookup 1%nat (timers (lv s)) = Some (clock_tm lr)
    /\ clock_timer (g s) = Some 1%nat
    /\ loop_body e s = Ok (has_quit e, s')
    /\ (if 1000 <=? tick e - lr then
          label_text (time_label (g s')) s' = Some (time_text (localtime e (now e)))
          /\ label_text (date_label (g s')) s' = Some (date_text (localtime e (now e)))
          /\ timer_lookup 1%nat (timers (lv s')) = Some (clock_tm (tick e))
        else
          label_text (time_label (g s')) s' = label_text (time_label (g s)) s
          /\ label_text (date_label (g s')) s' = label_text (date_label (g s)) s
          /\ timer_lookup 1%nat (timers (lv s')) = Some (clock_tm lr)).
Proof.
  intros Hr Hwf.
  destruct (reachable_view _ _ _ Hr) as (w & r & fl1 & fl3 & t & lr & a & nt & d & tr & ->).
  exists lr. rewrite loop_body_shape_exact by done.
  eexists. split; [done|]. split; [done|]. split; [reflexivity|].
  destruct Hwf as [Hwf _]. unfold clock_due.
  destruct (1000 <=? tick e - lr); [|done].
  rewrite <- (format_time _ Hwf), <- (format_date _ Hwf). done.
Qed.

Lemma clock_refresh_timing_witness :
  exists s',
    loop_body (sample_env 1000 []) sample_state = Ok (false, s')
    /\ label_text (time_label (g s')) s' = Some "08:14:05".
Proof.
  assert (Hwf : env_wf (sample_env 1000 [])).
  { split; [unfold tm_wf, INT_MIN, INT_MAX; cbn; lia|].
    apply Forall_cons. split; [|done]. intros _ _. cbn. unfold INT_MAX. lia. }
  destruct (clock_refresh_timing sample_flags (sample_env 0 []) sample_state (sample_env 1000 [])
              sample_reachable Hwf) as (lr & s' & Hl & _ & H & Hc).
  injection Hl as <-. exists s'. split; [exact H | exact (proj1 Hc)].
Defined.

(** ** What a frame shows *)

Lemma count_ev_times p n evs : count_ev p evs = 0%nat -> count_ev p (times n evs) = 0%nat.
Proof.
  intros H. induction n as [|n IH]; [done|]. cbn [times]. by rewrite count_ev_app, H, IH.
Qed.

Lemma count_ev_polls p evs :
  (forall r, p (SDL_PollEvent r) = false) -> count_ev p (poll_trace evs) = 0%nat.
Proof.
  intros Hp. unfold poll_trace. rewrite count_ev_app. cbn [count_ev]. rewrite Hp.
  induction evs as [|ev evs IH]; [done|]. cbn [map count_ev]. by rewrite Hp.
Qed.

Lemma count_ev_switch p sw :
  (forall l, p (printf l) = false) -> count_ev p (switch_events sw) = 0%nat.
Proof. intros Hp. destruct sw; [|done]. cbn [switch_events count_ev]. by rewrite Hp. Qed.

Lemma draws_at_strips rd jobs x y :
  count_ev (is_draw_at x y) (strip_events rd jobs) = strips_at jobs x y.
Proof.
  unfold strip_events.
  induction jobs as [|[area color_p] jobs IH]; [done|].
  cbn [flat_map strips_at fst snd]. rewrite !count_ev_app, draws_at_area, IH.
  cbn [count_ev is_draw_at]. lia.
Qed.

Lemma no_clear_in_strips p rd jobs :
  (forall rd' r g' b a, p (SDL_SetRenderDrawColor rd' r g' b a) = false) ->
  (forall rd' x y, p (SDL_RenderDrawPoint rd' x y) = false) ->
  p lv_disp_flush_ready = false ->
  count_ev p (strip_events rd jobs) = 0%nat.
Proof.
  intros Hc Hd Hf. unfold strip_events. induction jobs as [|[area color_p] jobs IH]; [done|].
  cbn [flat_map fst snd]. rewrite !count_ev_app, IH. cbn [count_ev]. rewrite Hf.
  unfold area_events. rewrite count_ev_none; [done|]. intros y.
  unfold row_events. apply count_ev_none. intros x. cbn [pixel_events count_ev]. by rewrite Hc, Hd.
Qed.

(** Property X12 (what a frame shows).  Every iteration clears the
    renderer before the toolkit handler runs and presents it afterwards,
    once each, and nothing is drawn before the clear.  Between the clear
    and the present a point is drawn once for every dirty strip of this
    iteration that holds it, and not otherwise: what is presented are the
    pixels flushed in this very iteration on a black ground, and an
    iteration in which the toolkit redraws nothing presents a frame on
    which no point was drawn. *)
Theorem frame_shows_fresh_strips_only df e0 s e :
  reachable df e0 s -> env_wf e ->
  let rd := renderer (g s) in
  exists s' before drawn,
    loop_body e s = Ok (has_quit e, s')
    /\ trace s' = trace s ++ before ++ [SDL_RenderClear rd] ++ drawn
                          ++ [SDL_RenderPresent rd; SDL_Delay 5]
    /\ (forall x y, count_ev (is_draw_at x y) before = 0%nat)
    /\ count_ev is_clear before = 0%nat /\ count_ev is_present before = 0%nat
    /\ (forall x y, count_ev (is_draw_at x y) drawn = strips_at (redraw e) x y)
    /\ count_ev is_clear drawn = 0%nat /\ count_ev is_present drawn = 0%nat
    /\ (redraw e = [] -> forall x y, count_ev (is_draw_at x y) drawn = 0%nat).
Proof.
  intros Hr Hwf rd.
  destruct (reachable_view _ _ _ Hr) as (w & r & fl1 & fl3 & t & lr & a & nt & d & tr & ->).
  rewrite loop_body_shape_exact by done. subst rd. cbn [g shape renderer trace].
  set (sw := fires e _).
  eexists. exists (poll_trace (pending e) ++ [SDL_SetRenderDrawColor (Some r) 0 0 0 255]).
  exists ([lv_timer_handler_ev] ++ switch_events sw ++ times (polls e) (input_events (Some r) e)
          ++ strip_events (Some r) (redraw e)).
  split; [reflexivity|].
  assert (Hd : forall x y,
             count_ev (is_draw_at x y)
               ([lv_timer_handler_ev] ++ switch_events sw
                ++ times (polls e) (input_events (Some r) e) ++ strip_events (Some r) (redraw e))
             = strips_at (redraw e) x y).
  { intros x y. rewrite !count_ev_app, count_ev_switch, count_ev_times, draws_at_strips by done.
    done. }
  split; [|split; [|split; [|split; [|split; [|split; [|split]]]]]].
  - cbn [trace shape]. unfold iteration_events, clear_trace, present_trace.
    by rewrite <- !app_assoc.
  - intros x y. rewrite count_ev_app, count_ev_polls by done. done.
  - rewrite count_ev_app, count_ev_polls by done. done.
  - rewrite count_ev_app, count_ev_polls by done. done.
  - exact Hd.
  - rewrite !count_ev_app, count_ev_switch, count_ev_times, no_clear_in_strips by done. done.
  - rewrite !count_ev_app, count_ev_switch, count_ev_times, no_clear_in_strips by done. done.
  - intros Hnone x y. rewrite Hd, Hnone. done.
Qed.

Lemma frame_shows_fresh_strips_only_witness :
  exists s' before drawn,
    loop_body (sample_env 10 []) sample_state = Ok (false, s')
    /\ trace s' = trace sample_state ++ before ++ [SDL_RenderClear (Some 2%nat)] ++ drawn
                    ++ [SDL_RenderPresent (Some 2%nat); SDL_Delay 5]
    /\ count_ev (is_draw_at 1 1) drawn = 1%nat
    /\ count_ev (is_draw_at 2 2) drawn = 0%nat.
Proof.
  assert (Hwf : env_wf (sample_env 10 [])).
  { split; [unfold tm_wf, INT_MIN, INT_MAX; cbn; lia|].
    apply Forall_cons. split; [|done]. intros _ _. cbn. unfold INT_MAX. lia. }
  destruct (frame_shows_fresh_strips_only sample_flags (sample_env 0 []) sample_state
              (sample_env 10 []) sample_reachable Hwf)
    as (s' & before & drawn & H & Ht & _ & _ & _ & Hd & _).
  exists s', before, drawn. split; [exact H|]. split; [exact Ht|].
  split; [exact (Hd 1 1) | exact (Hd 2 2)].
Defined.

(** ** The whole run *)

Lemma event_loop_shape df w r a nt e : forall frames fl1 fl3 t4 t5 lr sp d tr,
  Forall env_wf frames ->
  exists fl1' fl3' t4' t5' lr' sp' d',
    event_loop frames e
      (shape df w r fl1 fl3 t4 t5 ((1%nat, clock_tm lr) :: splash_entry sp) a nt d tr)
    = Ok (existsb has_quit frames,
          shape df w r fl1' fl3' t4' t5' ((1%nat, clock_tm lr') :: splash_entry sp') a nt d'
                (tr ++ loop_events (Some r) sp frames)).
Proof.
  induction frames as [|f frames IH]; intros fl1 fl3 t4 t5 lr sp d tr Hwf.
  - exists fl1, fl3, t4, t5, lr, sp, d. cbn [event_loop loop_events existsb]. by rewrite app_nil_r.
  - apply Forall_cons in Hwf as [Hf Hwf].
    cbn [event_loop loop_events existsb]. unfold bind, with_env.
    rewrite loop_body_shape_exact by done.
    destruct (has_quit f).
    + rewrite app_nil_r. by do 7 eexists.
    + edestruct IH as (fl1' & fl3' & t4' & t5' & lr' & sp' & d' & ->); [exact Hwf|].
      rewrite <- app_assoc. by do 7 eexists.
Qed.

Lemma main_trace df h frames e0 w r :
  sdl_init_ret h = 0 -> sdl_window_ret h = Some w -> sdl_renderer_ret h = Some r ->
  tm_wf (localtime e0 (now e0)) -> Forall env_wf frames ->
  exists s,
    main df h frames e0 initial_state = Ok (outcome_of frames, s)
    /\ trace s = startup_trace w r ++ loop_events (Some r) (Some (tick e0)) frames
                 ++ exit_events (Some r) (Some w) frames.
Proof.
  destruct h as [ir err wr rr]. cbn [sdl_init_ret sdl_window_ret sdl_renderer_ret].
  intros -> -> -> Hwf Hfr.
  destruct (setup_ui_total df e0 w r Hwf) as [s0 H0].
  pose proof (setup_ui_exact _ _ _ _ _ H0) as ->.
  rewrite main_started. unfold bind at 1. rewrite H0. rewrite started_shape.
  edestruct (event_loop_shape df w r (Some 0%nat) 2%nat e0 frames)
    as (fl1' & fl3' & t4' & t5' & lr' & sp' & d' & Hloop); [exact Hfr|].
  change [(1%nat, clock_tm (tick e0)); (0%nat, splash_tm (tick e0))]
    with ((1%nat, clock_tm (tick e0)) :: splash_entry (Some (tick e0))).
  rewrite (after_setup_run _ _ _ _ Hloop). unfold outcome_of, exit_events.
  destruct (existsb has_quit frames); eexists; (split; [reflexivity|]).
  - cbn [trace emit shape g renderer window]. by rewrite <- app_assoc.
  - cbn [trace shape]. by rewrite app_nil_r.
Qed.

Lemma sample_env_wf tk evs : env_wf (sample_env tk evs).
Proof.
  split; [unfold tm_wf, INT_MIN, INT_MAX; cbn; lia|].
  apply Forall_cons. split; [|done]. intros _ _. cbn. unfold INT_MAX. lia.
Qed.

(** ** The two labels *)

Lemma event_loop_reading df w r a nt e : forall frames cur fl1 fl3 lr sp d tr,
  Forall env_wf frames ->
  exists fl1' fl3' lr' sp' d',
    event_loop frames e
      (shape df w r fl1 fl3
             (format_tm "%H:%M:%S" (localtime cur (now cur)))
             (format_tm "%a, %b %d %Y" (localtime cur (now cur)))
             ((1%nat, clock_tm lr) :: splash_entry sp) a nt d tr)
    = Ok (existsb has_quit frames,
          shape df w r fl1' fl3'
                (format_tm "%H:%M:%S"
                   (localtime (shown_reading cur lr frames) (now (shown_reading cur lr frames))))
                (format_tm "%a, %b %d %Y"
                   (localtime (shown_reading cur lr frames) (now (shown_reading cur lr frames))))
                ((1%nat, clock_tm lr') :: splash_entry sp') a nt d'
                (tr ++ loop_events (Some r) sp frames)).
Proof.
  induction frames as [|f frames IH]; intros cur fl1 fl3 lr sp d tr Hwf.
  - exists fl1, fl3, lr, sp, d. cbn [event_loop loop_events existsb shown_reading].
    by rewrite app_nil_r.
  - apply Forall_cons in Hwf as [Hf Hwf].
    cbn [event_loop loop_events existsb shown_reading]. unfold bind, with_env.
    rewrite loop_body_shape_exact by done.
    destruct (has_quit f).
    + rewrite app_nil_r. destruct (clock_due f lr); by do 5 eexists.
    + destruct (clock_due f lr).
      * edestruct (IH f) as (fl1' & fl3' & lr' & sp' & d' & ->); [exact Hwf|].
        rewrite <- app_assoc. by do 5 eexists.
      * edestruct (IH cur) as (fl1' & fl3' & lr' & sp' & d' & ->); [exact Hwf|].
        rewrite <- app_assoc. by do 5 eexists.
Qed.

(** Property X8 (the labels agree).  When the start-up enters the loop the
    Time and Date labels carry the start-up's clock reading, not the
    placeholders "00:00:00" and "" they were created with.  And whatever
    the loop has run since, for a start-up that succeeds and iterations
    with usable answers, the program's final state is one in which both
    labels carry the texts of one and the same clock reading: the reading
    of the last iteration run in which the clock timer was due, and the
    start-up's when it was due in none.  The time of one reading is never
    shown next to the date of another. *)
Theorem labels_same_instant df e0 :
  (forall h s, main df h [] e0 initial_state = Ok (Running, s) ->
     label_text (time_label (g s)) s = Some (format_tm "%H:%M:%S" (localtime e0 (now e0))) /\
     label_text (date_label (g s)) s = Some (format_tm "%a, %b %d %Y" (localtime e0 (now e0))))
  /\ (forall h frames w r,
        sdl_init_ret h = 0 -> sdl_window_ret h = Some w -> sdl_renderer_ret h = Some r ->
        tm_wf (localtime e0 (now e0)) -> Forall env_wf frames ->
        let e := shown_reading e0 (tick e0) frames in
        exists s,
          main df h frames e0 initial_state = Ok (outcome_of frames, s)
          /\ label_text (time_label (g s)) s
             = Some (format_tm "%H:%M:%S" (localtime e (now e)))
          /\ label_text (date_label (g s)) s
             = Some (format_tm "%a, %b %d %Y" (localtime e (now e)))).
Proof.
  split.
  - intros h s H. by apply startup_started in H as (w & r & _ & _ & _ & ->).
  - intros [ir err wr rr] frames w r. cbn [sdl_init_ret sdl_window_ret sdl_renderer_ret].
    intros -> -> -> Hwf Hfr.
    destruct (setup_ui_total df e0 w r Hwf) as [s0 H0].
    pose proof (setup_ui_exact _ _ _ _ _ H0) as ->.
    rewrite main_started. unfold bind at 1. rewrite H0.
    destruct (event_loop_reading df w r (Some 0%nat) 2%nat e0 frames e0
                (screen_flags df) (Z.lor (screen_flags df) LV_OBJ_FLAG_HIDDEN)
                (tick e0) (Some (tick e0)) None (startup_trace w r) Hfr)
      as (fl1' & fl3' & lr' & sp' & d' & Hloop).
    match type of Hloop with
    | _ = ?R => assert (Hrun : event_loop frames e0 (started df e0 w r) = R) by exact Hloop
    end.
    rewrite (after_setup_run _ _ _ _ Hrun). unfold outcome_of.
    destruct (existsb has_quit frames); eexists; (split; [reflexivity|]); by split.
Qed.

Lemma labels_same_instant_witness :
  exists s,
    main sample_flags sample_host
         [mk_env 500 1793348045 (fun _ => mk_tm 59 59 23 30 9 126 5) (0, 0, 0) [] 0 [];
          mk_env 1200 1793348046 (fun _ => mk_tm 0 0 0 31 9 126 6) (0, 0, 0) [] 0 [];
          mk_env 1700 1793348047 (fun _ => mk_tm 1 0 0 31 9 126 6) (0, 0, 0) [mk_event SDL_QUIT] 0 []]
         (sample_env 0 []) initial_state
    = Ok (Exited 0, s)
    /\ label_text (time_label (g s)) s = Some "00:00:00"
    /\ label_text (date_label (g s)) s = Some "Sat, Oct 31 2026".
Proof.
  refine (proj2 (labels_same_instant sample_flags (sample_env 0 [])) sample_host
            [mk_env 500 1793348045 (fun _ => mk_tm 59 59 23 30 9 126 5) (0, 0, 0) [] 0 [];
             mk_env 1200 1793348046 (fun _ => mk_tm 0 0 0 31 9 126 6) (0, 0, 0) [] 0 [];
             mk_env 1700 1793348047 (fun _ => mk_tm 1 0 0 31 9 126 6) (0, 0, 0)
                    [mk_event SDL_QUIT] 0 []]
            1%nat 2%nat eq_refl eq_refl eq_refl (proj1 (sample_env_wf 0 [])) _).
  repeat (apply Forall_cons; split;
          [split; [unfold tm_wf, INT_MIN, INT_MAX; cbn; lia | done]|]).
  done.
Defined.

(** Claim C8 (event-loop order and termination).  What one iteration adds
    to the trace is, in this order: one poll per pending event and the
    poll that finds the queue empty; the draw colour set to opaque black
    and the clear; the toolkit handler and all it causes; the present; the
    5 ms delay.  The iteration's quit flag is set exactly when a close
    event was among the pending ones.  The loop runs one such iteration
    per answer of the outside world, each from the state the one before
    left, and goes on to the next exactly when the quit flag is not set; it
    is left exactly when some iteration had its quit flag set.  For a
    start-up that succeeds and iterations with usable answers the program
    does produce a result, and what the loop has added to the start-up's
    trace is the calls of every iteration run, one after the other, up to
    and including the first that saw a close event: then the renderer and
    the window are destroyed, the platform is shut down and exit status 0
    is returned, and otherwise the program is still in its loop. *)
Theorem event_loop_order df :
  (forall e s quit s', loop_body e s = Ok (quit, s') ->
     let rd := renderer (g s) in
     exists evs,
       trace s' = trace s ++ poll_trace (pending e) ++ clear_trace rd
                          ++ (lv_timer_handler_ev :: evs) ++ present_trace rd
       /\ g s' = g s
       /\ quit = has_quit e)
  /\ (forall frames e s b s',
        event_loop frames e s = Ok (b, s') -> b = existsb has_quit frames)
  /\ (forall e s, event_loop [] e s = Ok (false, s))
  /\ (forall f frames e s,
        event_loop (f :: frames) e s
        = match loop_body f s with
          | Ok (true, s') => Ok (true, s')
          | Ok (false, s') => event_loop frames e s'
          | Fault x => Fault x
          end)
  /\ (forall h frames e0 w r,
        sdl_init_ret h = 0 -> sdl_window_ret h = Some w -> sdl_renderer_ret h = Some r ->
        tm_wf (localtime e0 (now e0)) -> Forall env_wf frames ->
        exists s0 s1,
          main df h [] e0 initial_state = Ok (Running, s0)
          /\ event_loop frames e0 s0 = Ok (existsb has_quit frames, s1)
          /\ trace s1 = trace s0 ++ loop_events (Some r) (Some (tick e0)) frames
          /\ main df h frames e0 initial_state
             = if existsb has_quit frames
               then Ok (Exited 0, emit (cleanup_trace (Some r) (Some w)) s1)
               else Ok (Running, s1)).
Proof.
  split; [|split; [|split; [|split]]].
  - intros e s quit s' H rd. apply loop_body_shape in H as (s2 & evs & _ & Ht & -> & Hg & Hq).
    exists evs. split; [|done]. unfold emit. cbn [trace]. rewrite Ht.
    by rewrite <- !app_assoc.
  - intros frames e s b s' H. by apply event_loop_result in H as [-> _].
  - reflexivity.
  - intros f frames e s. cbn [event_loop]. unfold bind, with_env.
    by destruct (loop_body f s) as [[[] s']|x].
  - intros [ir err wr rr] frames e0 w r. cbn [sdl_init_ret sdl_window_ret sdl_renderer_ret].
    intros -> -> -> Hwf Hfr.
    destruct (setup_ui_total df e0 w r Hwf) as [s0 H0].
    pose proof (proj1 (setup_is_startup df err w r e0 s0) H0) as Hstart.
    pose proof (setup_ui_exact _ _ _ _ _ H0) as ->.
    destruct (event_loop_shape df w r (Some 0%nat) 2%nat e0 frames
                (screen_flags df) (Z.lor (screen_flags df) LV_OBJ_FLAG_HIDDEN)
                (format_tm "%H:%M:%S" (localtime e0 (now e0)))
                (format_tm "%a, %b %d %Y" (localtime e0 (now e0)))
                (tick e0) (Some (tick e0)) None (startup_trace w r) Hfr)
      as (fl1' & fl3' & t4' & t5' & lr' & sp' & d' & Hloop).
    match type of Hloop with
    | _ = ?R => assert (Hrun : event_loop frames e0 (started df e0 w r) = R) by exact Hloop
    end.
    eexists _, _. split; [exact Hstart|]. split; [exact Hrun|]. split; [reflexivity|].
    rewrite main_started. unfold bind at 1. rewrite H0.
    by rewrite (after_setup_run _ _ _ _ Hrun).
Qed.

Lemma event_loop_order_witness :
  exists s,
    main sample_flags sample_host
         [sample_env 10 []; sample_env 4000 [mk_event 768]; sample_env 4005 [mk_event SDL_QUIT];
          sample_env 4010 []]
         (sample_env 0 []) initial_state
    = Ok (Exited 0, s)
    /\ trace s = (startup_trace 1 2
                  ++ loop_events (Some 2%nat) (Some 0)
                       [sample_env 10 []; sample_env 4000 [mk_event 768];
                        sample_env 4005 [mk_event SDL_QUIT]; sample_env 4010 []])
                 ++ cleanup_trace (Some 2%nat) (Some 1%nat).
Proof.
  destruct (proj2 (proj2 (proj2 (proj2 (event_loop_order sample_flags)))) sample_host
              [sample_env 10 []; sample_env 4000 [mk_event 768];
               sample_env 4005 [mk_event SDL_QUIT]; sample_env 4010 []]
              (sample_env 0 []) 1%nat 2%nat eq_refl eq_refl eq_refl
              (proj1 (sample_env_wf 0 []))
              ltac:(repeat (apply Forall_cons; split; [apply sample_env_wf|]); done))
    as (s0 & s1 & H0 & _ & Ht & H).
  eexists. split; [exact H|]. cbn [trace emit]. rewrite Ht. do 2 f_equal.
  change (main sample_flags sample_host [] (sample_env 0 []) initial_state)
    with (Ok (Running, started sample_flags (sample_env 0 []) 1%nat 2%nat)) in H0.
  by injection H0 as <-.
Defined.

(** Property X13 (the whole run, call by call).  For a start-up that
    succeeds and iterations with usable answers, [main] produces a result,
    exit status 0 if some iteration saw a close request and still in its
    loop otherwise, and its trace is: the start-up's calls; then, for each
    iteration up to and including the first that sees a close request, the
    iteration's calls, the transition's line being in the first iteration
    at least 4000 ms past the start-up; then, if the loop was left, the
    renderer destroyed, the window destroyed, the platform shut down and
    the closing line. *)
Theorem program_trace df h frames e0 w r :
  sdl_init_ret h = 0 -> sdl_window_ret h = Some w -> sdl_renderer_ret h = Some r ->
  tm_wf (localtime e0 (now e0)) -> Forall env_wf frames ->
  exists s,
    main df h frames e0 initial_state = Ok (outcome_of frames, s)
    /\ trace s = startup_trace w r ++ loop_events (Some r) (Some (tick e0)) frames
                 ++ exit_events (Some r) (Some w) frames.
Proof. apply main_trace. Qed.

Lemma program_trace_witness :
  exists s,
    main sample_flags sample_host [sample_env 10 []; sample_env 4000 [mk_event SDL_QUIT]]
         (sample_env 0 []) initial_state
    = Ok (Exited 0, s)
    /\ trace s = startup_trace 1 2
                 ++ loop_events (Some 2%nat) (Some 0)
                      [sample_env 10 []; sample_env 4000 [mk_event SDL_QUIT]]
                 ++ cleanup_trace (Some 2%nat) (Some 1%nat).
Proof.
  apply (program_trace sample_flags sample_host
           [sample_env 10 []; sample_env 4000 [mk_event SDL_QUIT]] (sample_env 0 []) 1%nat 2%nat);
    try reflexivity.
  - apply (sample_env_wf 0 []).
  - repeat (apply Forall_cons; split; [apply sample_env_wf|]). done.
Defined.

(** ** Resources *)

Lemma Forall_times {A} (P : A -> Prop) n l : Forall P l -> Forall P (times n l).
Proof. intros H. induction n as [|n IH]; [done|]. cbn [times]. by apply Forall_app. Qed.

Lemma renders_on_strips rd jobs : Forall (renders_on rd) (strip_events rd jobs).
Proof.
  unfold strip_events. induction jobs as [|[area color_p] jobs IH]; [done|].
  cbn [flat_map fst snd]. apply Forall_app. split; [|done].
  apply Forall_app. split; [|apply Forall_cons; split; [by intros p|done]].
  unfold area_events. apply Forall_flat_map, Forall_forall. intros y _.
  unfold row_events. apply Forall_flat_map, Forall_forall. intros x _.
  unfold pixel_events. repeat (apply Forall_cons; split; [by intros p [= <-]|]). done.
Qed.

Lemma renders_on_iteration rd e sw : Forall (renders_on rd) (iteration_events rd e sw).
Proof.
  unfold iteration_events.
  apply Forall_app; split; [|apply Forall_app; split; [|apply Forall_app; split;
    [|apply Forall_app; split; [|apply Forall_app; split; [|apply Forall_app; split]]]]].
  - unfold poll_trace. apply Forall_app. split; [|by apply Forall_cons; split; [intros p|]].
    apply Forall_fmap, Forall_forall. by intros ev _ p.
  - unfold clear_trace. repeat (apply Forall_cons; split; [by intros p [= <-]|]). done.
  - apply Forall_cons. split; [by intros p|done].
  - destruct sw; [|done]. apply Forall_cons. split; [by intros p|done].
  - apply Forall_times. unfold input_events.
    apply Forall_cons. split; [by intros p|].
    apply Forall_cons. split; [by intros p [= <-]|done].
  - apply renders_on_strips.
  - unfold present_trace. apply Forall_cons. split; [by intros p [= <-]|].
    apply Forall_cons. split; [by intros p|done].
Qed.

Lemma renders_on_loop rd : forall frames sp, Forall (renders_on rd) (loop_events rd sp frames).
Proof.
  induction frames as [|e frames IH]; intros sp; [done|].
  cbn [loop_events]. apply Forall_app. split; [apply renders_on_iteration|].
  destruct (has_quit e); [done | apply IH].
Qed.

Lemma no_teardown_iteration rd e sw : count_ev is_teardown (iteration_events rd e sw) = 0%nat.
Proof.
  unfold iteration_events.
  rewrite !count_ev_app, count_ev_polls, count_ev_switch, count_ev_times, no_clear_in_strips by done.
  done.
Qed.

Lemma no_teardown_loop rd : forall frames sp, count_ev is_teardown (loop_events rd sp frames) = 0%nat.
Proof.
  induction frames as [|e frames IH]; intros sp; [done|].
  cbn [loop_events]. rewrite count_ev_app, no_teardown_iteration.
  destruct (has_quit e); [done | apply IH].
Qed.

(** Property X14 (resources).  In such a run every call that takes a
    renderer is given the renderer the platform created, never NULL.
    Nothing is destroyed and the platform is not shut down as long as the
    loop runs: a run still in its loop has torn nothing down, and a run
    that has exited tore down in its last four calls only, so no call
    uses the renderer or the window after it was destroyed. *)
Theorem resources_used_then_released df h frames e0 w r :
  sdl_init_ret h = 0 -> sdl_window_ret h = Some w -> sdl_renderer_ret h = Some r ->
  tm_wf (localtime e0 (now e0)) -> Forall env_wf frames ->
  exists s used,
    main df h frames e0 initial_state = Ok (outcome_of frames, s)
    /\ trace s = used ++ exit_events (Some r) (Some w) frames
    /\ count_ev is_teardown used = 0%nat
    /\ Forall (renders_on (Some r)) (trace s).
Proof.
  intros Hi Hw Hr Hwf Hfr.
  destruct (main_trace df h frames e0 w r Hi Hw Hr Hwf Hfr) as (s & H & Ht).
  exists s, (startup_trace w r ++ loop_events (Some r) (Some (tick e0)) frames).
  split; [exact H|]. split; [by rewrite Ht, <- app_assoc|]. split.
  - by rewrite count_ev_app, no_teardown_loop.
  - rewrite Ht. apply Forall_app. split; [|apply Forall_app; split].
    + unfold startup_trace, banner, create_window_ev, create_renderer_ev.
      cbn [app]. repeat (apply Forall_cons; split; [by intros p; try intros [= <-]|]). done.
    + apply renders_on_loop.
    + unfold exit_events. destruct (existsb has_quit frames); [|done].
      unfold cleanup_trace. repeat (apply Forall_cons; split; [by intros p; try intros [= <-]|]).
      done.
Qed.

Lemma resources_used_then_released_witness :
  exists s used,
    main sample_flags sample_host [sample_env 10 []; sample_env 4000 [mk_event SDL_QUIT]]
         (sample_env 0 []) initial_state
    = Ok (Exited 0, s)
    /\ trace s = used ++ cleanup_trace (Some 2%nat) (Some 1%nat)
    /\ count_ev is_teardown used = 0%nat.
Proof.
  destruct (resources_used_then_released sample_flags sample_host
              [sample_env 10 []; sample_env 4000 [mk_event SDL_QUIT]] (sample_env 0 [])
              1%nat 2%nat eq_refl eq_refl eq_refl (proj1 (sample_env_wf 0 []))
              ltac:(repeat (apply Forall_cons; split; [apply sample_env_wf|]); done))
    as (s & used & H & Ht & Hc & _).
  exists s, used. split; [exact H|]. split; [exact Ht | exact Hc].
Defined.

(** ** The close request ends the run *)

Lemma event_loop_stops before q after : has_quit q = true -> forall e s,
  event_loop (before ++ q :: after) e s = event_loop (before ++ [q]) e s.
Proof.
  intros Hq. induction before as [|f before IH]; intros e s; cbn [app event_loop]; unfold bind.
  - unfold with_env. destruct (loop_body q s) as [[quit s1]|x] eqn:H; [|done].
    apply loop_body_shape in H as (_ & _ & _ & _ & _ & _ & ->). by rewrite Hq.
  - destruct (with_env f loop_body e s) as [[quit s1]|x]; [|done].
    destruct quit; [done | apply IH].
Qed.

(** Property X15 (the close request ends the run).  Once an iteration has
    seen a close request, that iteration is the last: whatever the
    outside world would have answered afterwards, result, state and trace
    of [main] are the same as if the world had ended there. *)
Theorem nothing_runs_after_close df h before q after e0 :
  has_quit q = true ->
  main df h (before ++ q :: after) e0 initial_state
  = main df h (before ++ [q]) e0 initial_state.
Proof.
  intros Hq. destruct h as [ir err w r].
  destruct (Z.eqb_spec ir 0) as [->|Hne].
  - destruct w as [w|]; [|by cbv]. destruct r as [r|]; [|by cbv].
    rewrite !main_started. unfold bind.
    destruct (setup_ui df e0 (entry_state w r)) as [[[] s0]|x]; [|done].
    unfold after_setup, bind. by rewrite event_loop_stops.
  - unfold main. cbn [sdl_init_ret]. unfold bind, call.
    by destruct (Z.eqb_spec ir 0).
Qed.

Lemma nothing_runs_after_close_witness :
  main sample_flags sample_host
       ([sample_env 10 []] ++ sample_env 20 [mk_event SDL_QUIT] :: [sample_env 5000 []])
       (sample_env 0 []) initial_state
  = main sample_flags sample_host ([sample_env 10 []] ++ [sample_env 20 [mk_event SDL_QUIT]])
         (sample_env 0 []) initial_state.
Proof. apply nothing_runs_after_close. reflexivity. Defined.

(** ** The exit status *)

(** Property X16 (exit status).  Whatever the outside world answers, a run
    of [main] that produces a result ends with status 1 only when a
    start-up request was refused, and then without having initialised the
    toolkit; it ends with status 0 only when the start-up succeeded and an
    iteration saw a close request; and it is still in its loop only when
    the start-up succeeded and no iteration saw one.  No other status is
    ever returned. *)
Theorem exit_status df h frames e0 out s :
  main df h frames e0 initial_state = Ok (out, s) ->
  match out with
  | Exited st =>
      (st = 1 /\ startup_failed h /\ count_ev is_lv_init (trace s) = 0%nat)
      \/ (st = 0 /\ ~ startup_failed h /\ existsb has_quit frames = true)
  | Running => ~ startup_failed h /\ existsb has_quit frames = false
  end.
Proof.
  destruct h as [ir err w r]. unfold startup_failed.
  cbn [sdl_init_ret sdl_window_ret sdl_renderer_ret].
  destruct (Z.eqb_spec ir 0) as [->|Hne].
  - destruct w as [w|].
    2:{ intros H. cbv in H. injection H as <- <-. left. split; [done|]. split; [tauto | done]. }
    destruct r as [r|].
    2:{ intros H. cbv in H. injection H as <- <-. left. split; [done|]. split; [tauto | done]. }
    rewrite main_started. intros H. apply bind_Ok in H as ([] & s0 & _ & H).
    unfold after_setup in H. apply bind_Ok in H as (b & s1 & H1 & H).
    apply event_loop_result in H1 as [-> _].
    destruct (existsb has_quit frames).
    + cbv [bind global call ret] in H. injection H as <- _. right.
      split; [done|]. split; [|done]. by intros [?|[?|?]].
    + injection H as <- _. split; [|done]. by intros [?|[?|?]].
  - unfold main. cbn [sdl_init_ret]. unfold bind at 1 2 3. cbn [call].
    destruct (Z.eqb_spec ir 0); [done|]. intros [= <- <-]. left.
    split; [done|]. split; [by left | done].
Qed.

Lemma exit_status_witness :
  (1 = 1 /\ startup_failed (mk_host 0 "no window" None None)
   /\ count_ev is_lv_init
        (trace (emit (banner ++ [SDL_Init SDL_INIT_VIDEO 0; create_window_ev None;
                                 SDL_GetError "no window";
                                 printf (line "SDL_CreateWindow Error: no window");
                                 SDL_Quit]) initial_state)) = 0%nat)
  \/ (1 = 0 /\ ~ startup_failed (mk_host 0 "no window" None None)
      /\ existsb has_quit [] = true).
Proof.
  exact (exit_status sample_flags (mk_host 0 "no window" None None) [] (sample_env 0 [])
           (Exited 1) _ eq_refl).
Defined.

(** ** How often the transition fires in a run *)

Lemma switch_count_iteration rd e sw :
  count_ev is_switch (iteration_events rd e sw) = if sw then 1%nat else 0%nat.
Proof.
  unfold iteration_events.
  rewrite !count_ev_app, count_ev_polls, count_ev_times, no_clear_in_strips by done.
  by destruct sw.
Qed.

Lemma switch_count_fired rd : forall frames,
  count_ev is_switch (loop_events rd None frames) = 0%nat.
Proof.
  induction frames as [|e frames IH]; [done|].
  cbn [loop_events fires]. rewrite count_ev_app, switch_count_iteration.
  destruct (has_quit e); [done | exact IH].
Qed.

Lemma switch_count_loop rd t0 : forall frames,
  count_ev is_switch (loop_events rd (Some t0) frames)
  = if existsb (fun e => splash_due e t0) (executed frames) then 1%nat else 0%nat.
Proof.
  induction frames as [|e frames IH]; [done|].
  cbn [loop_events fires executed existsb]. rewrite count_ev_app, switch_count_iteration.
  destruct (splash_due e t0).
  - destruct (has_quit e); [done|]. by rewrite switch_count_fired.
  - destruct (has_quit e); [done|]. exact IH.
Qed.

(** Property X17 (how often the transition fires in a run).  For a
    start-up that succeeds and iterations with usable answers, when [main]
    produces its result the transition has fired once if one of the
    iterations the loop got to run, those up to and including the first
    that saw a close request, was at least 4000 ms past the start-up tick,
    and it has not fired at all otherwise. *)
Theorem transition_count df h frames e0 w r :
  sdl_init_ret h = 0 -> sdl_window_ret h = Some w -> sdl_renderer_ret h = Some r ->
  tm_wf (localtime e0 (now e0)) -> Forall env_wf frames ->
  exists s,
    main df h frames e0 initial_state = Ok (outcome_of frames, s)
    /\ switched s = if existsb (fun e => 4000 <=? tick e - tick e0) (executed frames)
                    then 1%nat else 0%nat.
Proof.
  intros Hi Hw Hr Hwf Hfr.
  destruct (main_trace df h frames e0 w r Hi Hw Hr Hwf Hfr) as (s & H & Ht).
  exists s. split; [exact H|]. unfold switched. rewrite Ht, !count_ev_app, switch_count_loop.
  unfold splash_due, exit_events.
  change (count_ev is_switch (startup_trace w r)) with 0%nat.
  destruct (existsb has_quit frames);
    [change (count_ev is_switch (cleanup_trace (Some r) (Some w))) with 0%nat|]; cbn [count_ev]; lia.
Qed.

Lemma transition_count_witness :
  exists s,
    main sample_flags sample_host
         [sample_env 10 []; sample_env 4000 []; sample_env 9000 [mk_event SDL_QUIT]]
         (sample_env 0 []) initial_state
    = Ok (Exited 0, s)
    /\ switched s = 1%nat.
Proof.
  apply (transition_count sample_flags sample_host
           [sample_env 10 []; sample_env 4000 []; sample_env 9000 [mk_event SDL_QUIT]]
           (sample_env 0 []) 1%nat 2%nat); try reflexivity.
  - apply (sample_env_wf 0 []).
  - repeat (apply Forall_cons; split; [apply sample_env_wf|]). done.
Defined.

(** ** The faults a run can end in *)

Lemma bounded_bind {A B} (m : M A) (k : A -> M B) :
  bounded m -> (forall a, bounded (k a)) -> bounded (bind m k).
Proof.
  intros Hm Hk e s f H. apply bind_Fault in H as [H | (a & s1 & _ & H)].
  - by eapply Hm.
  - by eapply Hk.
Qed.

Lemma bounded_ret {A} (a : A) : bounded (ret a).
Proof. intros e s f H. done. Qed.

Lemma bounded_call ev : bounded (call ev).
Proof. intros e s f H. done. Qed.

Lemma bounded_global {A} (p : globals -> A) : bounded (global p).
Proof. intros e s f H. done. Qed.

Lemma bounded_cint z : bounded (cint z).
Proof.
  intros e s f H. unfold cint in H. destruct (in_int z); [done|]. injection H as <-. by right.
Qed.

Lemma bounded_read_color color_p idx : bounded (read_color color_p idx).
Proof.
  intros e s f H. unfold read_color in H.
  destruct (idx <? 0); [injection H as <-; by left|].
  destruct (color_p !! Z.to_nat idx); [done|]. injection H as <-. by left.
Qed.

Lemma bounded_for_count body : (forall i, bounded (body i)) -> forall n i, bounded (for_count n i body).
Proof.
  intros Hb. induction n as [|n IH]; intros i; cbn [for_count]; [apply bounded_ret|].
  apply bounded_bind; [apply Hb | intros _; apply IH].
Qed.

Lemma bounded_flush_pixel area color_p y x : bounded (flush_pixel area color_p y x).
Proof.
  unfold flush_pixel.
  do 6 (apply bounded_bind; [apply bounded_cint | intros ?]).
  apply bounded_bind; [apply bounded_read_color | intros c].
  apply bounded_bind; [apply bounded_global | intros rd].
  apply bounded_bind; [apply bounded_call | intros _].
  apply bounded_bind; [apply bounded_global | intros rd'].
  apply bounded_call.
Qed.

Lemma bounded_sdl_display_flush area color_p : bounded (sdl_display_flush area color_p).
Proof.
  unfold sdl_display_flush, for_range.
  apply bounded_bind; [|intros _; apply bounded_call].
  apply bounded_for_count. intros y. apply bounded_for_count. intros x. apply bounded_flush_pixel.
Qed.

Lemma bounded_flush_all jobs : bounded (flush_all jobs).
Proof.
  induction jobs as [|[area color_p] jobs IH]; cbn [flush_all]; [apply bounded_ret|].
  apply bounded_bind; [apply bounded_sdl_display_flush | intros _; apply IH].
Qed.

Lemma bounded_handler_tail : bounded handler_tail.
Proof.
  intros e s f H. unfold handler_tail in H.
  apply bind_Fault in H as [H | (e' & s1 & H1 & H)]; [done|]. injection H1 as <- <-.
  apply bind_Fault in H as [H | (s' & s1 & H1 & H)]; [done|]. injection H1 as <- <-.
  apply bind_Fault in H as [H | (? & s1 & _ & H)].
  - destruct (indev_registered (lv s)); [|done].
    destruct (read_inputs_total (polls e) e s) as [s' Hs']. by rewrite Hs' in H.
  - destruct (disp_drv (lv s)); [|done]. by eapply bounded_flush_all.
Qed.

Lemma run_timers_mild df e0 e s f :
  phase_pending df e0 s \/ phase_fired s -> settled df s ->
  run_timers (map fst (timers (lv s))) e s = Fault f -> f = Truncated.
Proof.
  intros Hp Hs H.
  destruct (settled_shape df s Hs) as (w & r & fl1 & fl3 & t & _ & _ & Es).
  destruct Hp as [(_ & [lr Ht] & _) | (_ & [lr Ht] & _)];
    rewrite Ht in Es, H; rewrite Es in H; cbn [map fst run_timers] in H;
    apply bind_Fault in H as [H | ([] & sa & Ha & H)]; rewrite ?exec_clock_shape in *.
  - destruct (1000 <=? tick e - lr); [|done].
    destruct (_ <=? 32); [|by injection H]. destruct (_ <=? 64); [done | by injection H].
  - apply bind_Fault in H as [H | ([] & sb & _ & H)]; [|done].
    destruct (1000 <=? tick e - lr).
    + destruct (_ <=? 32); [|done]. destruct (_ <=? 64); [|done]. injection Ha as <-.
      rewrite exec_splash_shape in H. by destruct (4000 <=? tick e - tick e0).
    + injection Ha as <-. rewrite exec_splash_shape in H. by destruct (4000 <=? tick e - tick e0).
  - destruct (1000 <=? tick e - lr); [|done].
    destruct (_ <=? 32); [|by injection H]. destruct (_ <=? 64); [done | by injection H].
  - done.
Qed.

Lemma loop_body_mild df e0 e s f :
  phase_pending df e0 s \/ phase_fired s -> settled df s ->
  loop_body e s = Fault f -> mild f.
Proof.
  intros Hp Hs H. unfold loop_body in H.
  apply bind_Fault in H as [H | (e' & s1 & H1 & H)]; [done|]. injection H1 as <- <-.
  apply bind_Fault in H as [H | (quit & s1 & H1 & H)]; [by rewrite poll_events_spec in H|].
  rewrite poll_events_spec in H1. injection H1 as <- <-.
  apply bind_Fault in H as [H | (rd & s1 & H1 & H)]; [done|]. injection H1 as <- <-.
  apply bind_Fault in H as [H | ([] & s1 & H1 & H)]; [done|]. injection H1 as <-.
  apply bind_Fault in H as [H | (rd' & s2 & H2 & H)]; [done|]. injection H2 as <- <-.
  apply bind_Fault in H as [H | ([] & s2 & H2 & H)]; [done|]. injection H2 as <-.
  apply bind_Fault in H as [H | ([] & s2 & _ & H)].
  2:{ cbv [bind global call ret] in H. done. }
  match type of H with lv_timer_handler e ?st = _ => set (s0 := st) in H end.
  assert (Hf : frame s s0).
  { subst s0. frame_fields.
    exists (poll_trace (pending e)
            ++ [SDL_SetRenderDrawColor (renderer (g s)) (to_uint8 0) (to_uint8 0) (to_uint8 0)
                  (to_uint8 255); SDL_RenderClear (renderer (g s))]).
    split; [cbn [trace]; by rewrite <- !app_assoc|].
    rewrite count_ev_app, count_ev_polls by done. done. }
  clearbody s0. unfold lv_timer_handler in H.
  apply bind_Fault in H as [H | ([] & s1 & H1 & H)]; [done|]. injection H1 as <-.
  apply bind_Fault in H as [H | (? & ? & [= <- <-] & H)]; [done|].
  assert (Hf1 : frame s (emit [lv_timer_handler_ev] s0)).
  { eapply frame_trans; [exact Hf | by apply frame_emit]. }
  apply bind_Fault in H as [H | ([] & s2 & _ & H)].
  - left. eapply (run_timers_mild df e0); [| |exact H].
    + by eapply phase_frame.
    + by eapply settled_frame.
  - right. by eapply bounded_handler_tail.
Qed.

Lemma event_loop_mild df e0 frames : forall e s f,
  phase_pending df e0 s \/ phase_fired s -> settled df s ->
  event_loop frames e s = Fault f -> mild f.
Proof.
  induction frames as [|fr frames IH]; intros e s f Hp Hs H; [done|].
  cbn [event_loop] in H. apply bind_Fault in H as [H | (quit & s1 & H1 & H)].
  - by eapply loop_body_mild.
  - unfold with_env in H1. destruct quit; [done|].
    eapply IH; [| |exact H].
    + destruct Hp as [Hp | Hp].
      * apply (loop_body_pending df e0) in H1; [|done].
        destruct (4000 <=? tick fr - tick e0); [by right | by left].
      * right. by eapply loop_body_fired.
    + by eapply settled_loop_body.
Qed.

(** Property X18 (no NULL or stale toolkit pointer).  The object and timer
    pointers the program hands to the toolkit (the parents of the widgets
    it creates, the objects it styles, aligns, hides and shows, the labels
    whose text it sets, the timer whose repeat count it sets) are never
    NULL and never point to an object or timer that is not there: no run of
    [main] stops at such a pointer, be it at start-up, in a timer callback
    or in a later iteration.  This is a fact about the program's own use of
    its pointers, in a model that takes the toolkit's constructors to yield
    the object or timer asked for and [localtime] to yield a broken-down
    time; main.c checks neither result, and a run in which one of them
    fails is outside the model.  Within it, the faults a run can stop at
    are a clock text that does not fit its buffer, a strip whose buffer
    does not hold its area, and an index of the flush that overflows. *)
Theorem faults_of_main df h frames e0 f :
  main df h frames e0 initial_state = Fault f ->
  f = Truncated \/ f = OutOfBounds \/ f = IntOverflow.
Proof.
  destruct h as [ir err w r].
  destruct (Z.eqb_spec ir 0) as [->|Hne].
  2:{ unfold main. cbn [sdl_init_ret]. unfold bind at 1 2 3. cbn [call].
      by destruct (Z.eqb_spec ir 0). }
  destruct w as [w|]; [|intros H; cbv in H; done].
  destruct r as [r|]; [|intros H; cbv in H; done].
  rewrite main_started. intros H.
  apply bind_Fault in H as [H | ([] & s0 & H0 & H)].
  - left. destruct e0 as [tk nw ltm ms pd pl rdw].
    cbv -[format_tm String.length Z.of_nat Z.add Z.leb Z.land Z.lor Z.lnot line append
          lv_color_black lv_color_white lv_color_make dec_z] in H.
    destruct (Z.of_nat (String.length (format_tm "%H:%M:%S" (ltm nw))) + 1 <=? 32);
      [|by injection H].
    destruct (Z.of_nat (String.length (format_tm "%a, %b %d %Y" (ltm nw))) + 1 <=? 64);
      [done | by injection H].
  - pose proof (proj1 (setup_is_startup df err w r e0 s0) H0) as Hstart.
    unfold after_setup in H. apply bind_Fault in H as [H | (b & s1 & _ & H)].
    + eapply (event_loop_mild df e0); [| |exact H].
      * left. exact (startup_pending _ _ _ _ Hstart).
      * apply reachable_settled with (e0 := e0). exact (reach_start df e0 _ _ Hstart).
    + destruct b; [|discriminate H]. cbv [bind global call ret] in H. discriminate H.
Qed.

Lemma faults_of_main_witness :
  OutOfBounds = Truncated \/ OutOfBounds = OutOfBounds \/ OutOfBounds = IntOverflow.
Proof.
  apply (faults_of_main sample_flags sample_host
           [mk_env 10 1793348045 (fun _ => sample_tm) (0, 0, 0) [] 1
                   [(mk_area 0 0 1 1, [mk_color 0])]]
           (sample_env 0 [])).
  vm_compute. reflexivity.
Defined.
